(** * hagAI-voltagent: the rate-limited Asana client and its query tools

    A shallow embedding of [src/api/asana-client.ts] and of the query tools
    built on it ([src/tools/*.ts]), followed by the properties the
    specification states about them.

    Conventions of the embedding:
    - a JavaScript string is a [string]; [<], [>=] and [===] on strings are
      the code-unit comparisons [String.ltb], [String.leb] and [String.eqb];
    - an optional field ([due_on?: string], a [null] from the wire) is an
      [option]; JavaScript truthiness is written out ([truthy]): [None] and
      the empty string are falsy;
    - integer-valued JavaScript numbers (counters, millisecond clocks) are [Z];
    - a rejected promise / thrown [Error] is [Err msg] in the monad [result];
    - an object literal returned by a tool is a [Json] object, its fields in
      source order. *)

From Stdlib Require Import ZArith List String Ascii Bool Lia Sorted Permutation.
From Stdlib Require Import DecimalString.
From Stdlib Require SpecFloat.
Import ListNotations.
Set Warnings "-register-all".
Local Open Scope string_scope.
Local Open Scope Z_scope.

(** ** Host-language primitives *)

Module Js.

(** Truthiness of an optional string: [undefined], [null] and [""] are falsy. *)
Definition truthy (o : option string) : bool :=
  match o with
  | Some s => negb (s =? "")%string
  | None => false
  end.

(** [o || d] for an optional string [o] and a string literal [d]. *)
Definition or_else (o : option string) (d : string) : string :=
  match o with
  | Some s => if (s =? "")%string then d else s
  | None => d
  end.

(** [a < b] and [a >= b] on strings. *)
Definition str_lt (a b : string) : bool := String.ltb a b.
Definition str_ge (a b : string) : bool := String.leb b a.

(** The double-quote character inside a template literal. *)
Definition dquote : string := String (ascii_of_nat 34) EmptyString.

(** Decimal rendering of an integer inside a template literal. *)
Definition show (n : Z) : string := NilZero.string_of_int (Z.to_int n).

(** [Array.prototype.sort] with a comparator: the sort is stable, so for a
    consistent comparator its result is the one of a stable insertion sort.
    [cmp a b <= 0] keeps [a] before [b]. *)
Section Sort.
Context {A : Type} (cmp : A -> A -> Z).

Fixpoint insert (x : A) (l : list A) : list A :=
  match l with
  | [] => [x]
  | y :: l' => if cmp x y <=? 0 then x :: y :: l' else y :: insert x l'
  end.

Definition sort (l : list A) : list A := fold_right insert [] l.
End Sort.

(** [arr.slice(0, end)]: a negative [end] counts from the end of the
    array.  [slice] truncates a fractional [end] first, and an [end] beyond
    either bound acts as the bound, so an integer covers every number. *)
Definition slice0 {A : Type} (limit : Z) (l : list A) : list A :=
  let len := Z.of_nat (List.length l) in
  let final := if limit <? 0 then Z.max (len + limit) 0 else Z.min limit len in
  firstn (Z.to_nat final) l.

(** [String.prototype.toLowerCase] restricted to ASCII letters; used to
    instantiate the abstract case mapping on concrete inputs. *)
Definition lower_ascii (c : ascii) : ascii :=
  let n := nat_of_ascii c in
  if ((65 <=? n) && (n <=? 90))%nat then ascii_of_nat (n + 32) else c.

Fixpoint toLowerCase_ascii (s : string) : string :=
  match s with
  | EmptyString => EmptyString
  | String c s' => String (lower_ascii c) (toLowerCase_ascii s')
  end.

(** Code-unit comparison as a three-way comparator; agrees with
    [localeCompare] on ISO dates. *)
Definition compare_units (a b : string) : Z :=
  match String.compare a b with
  | Lt => -1
  | Eq => 0
  | Gt => 1
  end.

(** Numbers are IEEE 754 binary64: 53 bits of precision, exponents below
    1024, every operation rounded to nearest, ties to even. *)
Definition double_of_Z (n : Z) : SpecFloat.spec_float :=
  SpecFloat.binary_normalize 53 1024 n 0 false.

(** [Math.round(x)]: the integer nearest to [x], ties toward +Infinity;
    [None] when [x] is [NaN] or infinite. *)
Definition math_round (x : SpecFloat.spec_float) : option Z :=
  match x with
  | SpecFloat.S754_zero _ => Some 0
  | SpecFloat.S754_finite s m e =>
      let v := if s then Z.neg m else Z.pos m in
      Some (if 0 <=? e then v * 2 ^ e else (v + 2 ^ (- e - 1)) / 2 ^ (- e))
  | _ => None
  end.

(** [Math.round((c / t) * 100)] on doubles; used to instantiate the abstract
    expression in the sample runs.  The tools evaluate it for [t > 0] only,
    where the result is a number; [NaN] and the infinities read as 0. *)
Definition round_pct_double (c t : Z) : Z :=
  let quotient := SpecFloat.SFdiv 53 1024 (double_of_Z c) (double_of_Z t) in
  match math_round (SpecFloat.SFmul 53 1024 quotient (double_of_Z 100)) with
  | Some n => n
  | None => 0
  end.

End Js.

(** ** Results and exceptions *)

Inductive result (A : Type) : Type :=
| Ok (a : A)
| Err (msg : string).
Arguments Ok {A} a.
Arguments Err {A} msg.

Definition bind {A B : Type} (m : result A) (k : A -> result B) : result B :=
  match m with
  | Ok a => k a
  | Err e => Err e
  end.

Notation "x <- m ;; k" := (bind m (fun x => k))
  (at level 61, m at next level, right associativity).

(** [try { body } catch (error) { return handler(error) }]. *)
Definition try_catch {A : Type} (body : result A) (handler : string -> A) : result A :=
  match body with
  | Ok a => Ok a
  | Err e => Ok (handler e)
  end.

(** [`${error}`] for an [Error] whose message is [e]. *)
Definition show_error (e : string) : string := "Error: " ++ e.

(** ** The rate limiter of [AsanaClient] *)

Module RateLimiter.

(** The two private fields [requestCount] and [resetTime]. *)
Record RateWindow : Type := mkWindow {
  requestCount : Z;
  resetTime : Z
}.

(** One invocation is driven by the clock: [now] is the reading of
    [Date.now()] on entry, and [lag] is how many milliseconds after its
    delay the [setTimeout] callback actually runs (timers never fire
    early). *)
Record Tick : Type := mkTick {
  now : Z;
  lag : Z
}.

(** What an invocation does: whether it slept and for how long, the
    clock reading when [requestCount++] runs and the call is issued, and
    the window it leaves behind. *)
Record Outcome : Type := mkOutcome {
  waited : option Z;
  issued_at : Z;
  window : RateWindow
}.

Definition WINDOW_MS : Z := 60000.

(** The literal [100] of the source. *)
Definition RATE_LIMIT : Z := 100.

(** Field initialisers of the class, for a client constructed at [t0]. *)
Definition initial (t0 : Z) : RateWindow :=
  {| requestCount := 0; resetTime := t0 + WINDOW_MS |}.

Section Ceiling.
Variable ceiling : Z.

Definition checkRateLimit_with (w : RateWindow) (k : Tick) : Outcome :=
  let w1 :=
    if now k >? resetTime w
    then {| requestCount := 0; resetTime := now k + WINDOW_MS |}
    else w in
  let '(slept, t, w2) :=
    if requestCount w1 >=? ceiling then
      let waitTime := resetTime w1 - now k in
      if waitTime >? 0 then
        let woke := now k + waitTime + lag k in
        (Some waitTime, woke,
         {| requestCount := 0; resetTime := woke + WINDOW_MS |})
      else (None, now k, w1)
    else (None, now k, w1) in
  {| waited := slept;
     issued_at := t;
     window := {| requestCount := requestCount w2 + 1;
                  resetTime := resetTime w2 |} |}.

(** Successive invocations, each starting from the window the previous
    one left. *)
Fixpoint run (w : RateWindow) (ks : list Tick) : list Outcome :=
  match ks with
  | [] => []
  | k :: ks' =>
      let o := checkRateLimit_with w k in
      o :: run (window o) ks'
  end.
End Ceiling.

Definition checkRateLimit : RateWindow -> Tick -> Outcome :=
  checkRateLimit_with RATE_LIMIT.

End RateLimiter.

(** Runs of the rate limiter: what is asked of the clock and of the
    arrival times in the statements about successive calls. *)
Module RateRuns.
Import RateLimiter.

(** The clock does not go back and timers are not early: every call
    arrives no earlier than [t], the instant the previous call was issued,
    and [lag] is not negative. *)
Fixpoint clock_ok (c : Z) (t : Z) (w : RateWindow) (ks : list Tick) : Prop :=
  match ks with
  | [] => True
  | k :: ks' =>
      t <= now k /\ 0 <= lag k /\
      clock_ok c (issued_at (checkRateLimit_with c w k))
               (window (checkRateLimit_with c w k)) ks'
  end.

(** No call arrives at the very millisecond at which the window it finds
    is due to reset. *)
Fixpoint off_reset_instant (c : Z) (w : RateWindow) (ks : list Tick) : Prop :=
  match ks with
  | [] => True
  | k :: ks' =>
      now k <> resetTime w /\
      off_reset_instant c (window (checkRateLimit_with c w k)) ks'
  end.

End RateRuns.

(** ** Values returned by the tools *)

(** The object literals the tools return.  [JUndefined] stands for a field
    whose value is [undefined] or [null] (the two are one [None] in the
    records below), [JNaN] for the number [NaN]. *)
Inductive Json : Type :=
| JUndefined
| JNaN
| JBool (b : bool)
| JNum (n : Z)
| JStr (s : string)
| JArr (items : list Json)
| JObj (fields : list (string * Json)).

Fixpoint lookup (k : string) (fs : list (string * Json)) : option Json :=
  match fs with
  | [] => None
  | (k', v) :: fs' => if (k =? k')%string then Some v else lookup k fs'
  end.

(** [obj.k], [None] when the object has no such property. *)
Definition field (k : string) (j : Json) : option Json :=
  match j with
  | JObj fs => lookup k fs
  | _ => None
  end.

Definition opt_str (o : option string) : Json :=
  match o with
  | Some s => JStr s
  | None => JUndefined
  end.

Definition count_of {A : Type} (l : list A) : Z := Z.of_nat (List.length l).

(** ** Records of [src/types/asana.ts]

    Only the fields some tool reads are kept ([resource_type], [projects],
    [assignee_status] and the story's [type] are never read). *)

Module AsanaUser.
Record t : Type := mk {
  gid : string;
  name : string;
  email : option string
}.
End AsanaUser.

Module AsanaProject.
Record t : Type := mk {
  gid : string;
  name : string
}.
End AsanaProject.

(** The inline [{ gid: string; name: string }] objects. *)
Module Ref.
Record t : Type := mk {
  gid : string;
  name : string
}.
End Ref.

Module AsanaSection.
Record t : Type := mk {
  gid : string;
  name : string;
  project : option Ref.t
}.
End AsanaSection.

Module AsanaMembership.
Record t : Type := mk {
  project : Ref.t;
  section : option Ref.t
}.
End AsanaMembership.

Module AsanaTask.
Record t : Type := mk {
  gid : string;
  name : string;
  notes : option string;
  completed : bool;
  completed_at : option string;
  created_at : string;
  modified_at : string;
  due_on : option string;
  due_at : option string;
  assignee : option AsanaUser.t;
  memberships : option (list AsanaMembership.t)
}.
End AsanaTask.

Module AsanaStory.
Record t : Type := mk {
  gid : string;
  created_at : string;
  created_by : AsanaUser.t;
  resource_subtype : string;
  text : option string;
  old_due_on : option string;
  new_due_on : option string;
  old_due_at : option string;
  new_due_at : option string
}.
End AsanaStory.

Module UserWorkload.
Record t : Type := mk {
  user : AsanaUser.t;
  totalTasks : Z;
  completedTasks : Z;
  overdueTasks : Z;
  upcomingTasks : Z
}.
End UserWorkload.

Module SectionStatus.
Record t : Type := mk {
  section : AsanaSection.t;
  totalTasks : Z;
  completedTasks : Z;
  completionRate : Z
}.
End SectionStatus.

(** The elements of [sortedSections] in [get_project_status]. *)
Module SectionSummary.
Record t : Type := mk {
  name : string;
  totalTasks : Z;
  completedTasks : Z;
  incompleteTasks : Z;
  completionRate : Z
}.
End SectionSummary.

(** The elements of [DueDateChange.changes]. *)
Module Change.
Record t : Type := mk {
  date : string;
  oldDueDate : option string;
  newDueDate : option string;
  changedBy : AsanaUser.t
}.
End Change.

Module DueDateChange.
Record t : Type := mk {
  task : AsanaTask.t;
  changes : list Change.t;
  changeCount : Z
}.
End DueDateChange.

(** ** The API client

    Every fetching method of [AsanaClient] awaits [checkRateLimit] (which
    only delays), performs one vendor call and either returns
    [response.data] or throws [new Error("Failed to fetch ...")].  A client
    is therefore represented by what each method answers. *)

(** The [params] object of [getTasks]; no tool passes [opt_fields]. *)
Module TaskParams.
Record t : Type := mk {
  project : option string;
  section : option string;
  assignee : option string;
  completed_since : option string;
  modified_since : option string
}.
Definition empty : t := mk None None None None None.
End TaskParams.

Record AsanaClient : Type := mkClient {
  getTasks : TaskParams.t -> result (list AsanaTask.t);
  getTask : string -> result AsanaTask.t;
  getTaskStories : string -> result (list AsanaStory.t);
  getProjectSections : string -> result (list AsanaSection.t);
  getSectionTasks : string -> result (list AsanaTask.t);
  getWorkspaceProjects : result (list AsanaProject.t)
}.

(** The readings a tool takes from [const today = new Date()]. *)
Module Today.
Record t : Type := mk {
  (** [today.getTime()] *)
  getTime : Z;
  (** [format(today, 'yyyy-MM-dd')] *)
  dateStr : string;
  (** [startOfDay(today).toISOString()] *)
  startISO : string
}.
End Today.

(** ** Further host functions and client methods *)

Module JsText.

(** [s.includes(sub)]: [sub] occurs in [s] as a run of consecutive code
    units. *)
Fixpoint includes (s sub : string) : bool :=
  String.prefix sub s ||
  match s with
  | EmptyString => false
  | String _ s' => includes s' sub
  end.

(** [s !== ""], the truthiness of a string. *)
Definition nonempty (s : string) : bool := negb (s =? "")%string.

End JsText.

(** The two user-fetching methods of [AsanaClient], [getWorkspaceUsers] and
    [getMe]; like the others they answer with data or throw. *)
Record AsanaUsers : Type := mkUsers {
  getWorkspaceUsers : result (list AsanaUser.t);
  getMe : result AsanaUser.t
}.

(** What a person's entry of [overdueByPerson] holds; [tasks] are the
    pushed literals. *)
Module PersonOverdue.
Record t : Type := mk {
  user : string;
  userGid : string;
  overdueCount : Z;
  tasks : list Json
}.
End PersonOverdue.

(** The elements of [sectionWorkload] in [get_section_with_most_work]. *)
Module SectionWork.
Record t : Type := mk {
  sectionName : string;
  sectionGid : string;
  totalTasks : Z;
  incompleteTasks : Z;
  completedTasks : Z
}.
End SectionWork.

(** The elements of [recentChanges] in [get_recent_due_date_changes]. *)
Module RecentChange.
Record t : Type := mk {
  taskName : string;
  taskGid : string;
  assignee : string;
  project : string;
  oldDueDate : string;
  newDueDate : string;
  changedBy : string;
  changedAt : string
}.
End RecentChange.

(** [new Map<string, V>()]: the entries in insertion order, their keys
    pairwise distinct. *)
Module JsMap.

Definition t (V : Type) : Type := list (string * V).

Fixpoint has {V : Type} (k : string) (m : t V) : bool :=
  match m with
  | [] => false
  | (k', _) :: m' => (k =? k')%string || has k m'
  end.

Fixpoint get {V : Type} (k : string) (m : t V) : option V :=
  match m with
  | [] => None
  | (k', v) :: m' => if (k =? k')%string then Some v else get k m'
  end.

(** [map.set(k, v)] for a key the map does not hold yet. *)
Definition add {V : Type} (k : string) (v : V) (m : t V) : t V :=
  (m ++ [(k, v)])%list.

(** Mutation of the object [map.get(k)] refers to. *)
Fixpoint update {V : Type} (k : string) (f : V -> V) (m : t V) : t V :=
  match m with
  | [] => []
  | (k', v) :: m' =>
      if (k =? k')%string then (k', f v) :: m' else (k', v) :: update k f m'
  end.

(** [Array.from(map.values())] *)
Definition values {V : Type} (m : t V) : list V := map snd m.

End JsMap.

(** A plain object [{}] used as a dictionary ([Record<string, V>]).  Its own
    properties are the pairs of a [JsMap.t], in insertion order.  A read
    [obj[k]] also finds what the object inherits from [Object.prototype],
    and the own properties are enumerated with the array indices first, in
    ascending order, then the other keys in insertion order. *)
Module JsObject.

Definition t (V : Type) : Type := JsMap.t V.

(** The property names of [Object.prototype]; the value of each is a
    function or, for [__proto__], the prototype itself: truthy, and
    without a [push]. *)
Definition inherited : list string :=
  ["constructor"; "__defineGetter__"; "__defineSetter__"; "hasOwnProperty";
   "__lookupGetter__"; "__lookupSetter__"; "isPrototypeOf";
   "propertyIsEnumerable"; "toString"; "valueOf"; "__proto__";
   "toLocaleString"].

Definition is_inherited (k : string) : bool :=
  existsb (fun name => (k =? name)%string) inherited.

Definition is_digit (c : ascii) : bool :=
  let n := nat_of_ascii c in ((48 <=? n) && (n <=? 57))%nat.

Fixpoint digits (s : string) (acc : Z) : option Z :=
  match s with
  | EmptyString => Some acc
  | String c s' =>
      if is_digit c
      then digits s' (10 * acc + (Z.of_nat (nat_of_ascii c) - 48))
      else None
  end.

(** An array index: the canonical decimal form of an integer below
    [2^32 - 1]. *)
Definition array_index (k : string) : option Z :=
  match k with
  | EmptyString => None
  | String c rest =>
      if (c =? "0")%char && negb (rest =? "")%string then None
      else
        match digits k 0 with
        | Some n => if n <? 4294967295 then Some n else None
        | None => None
        end
  end.

Definition is_index {V : Type} (e : string * V) : bool :=
  match array_index (fst e) with
  | Some _ => true
  | None => false
  end.

Definition byIndex {V : Type} (a b : string * V) : Z :=
  match array_index (fst a), array_index (fst b) with
  | Some i, Some j => i - j
  | _, _ => 0
  end.

(** [Object.entries(obj)], the order in which the object is serialised. *)
Definition entries {V : Type} (o : t V) : list (string * V) :=
  (Js.sort byIndex (filter is_index o)
   ++ filter (fun e => negb (is_index e)) o)%list.

End JsObject.

(** ** Records of [src/types/supabase.ts] and the answers of the database

    Of a calendar event only the fields some tool reads are kept; the
    elements of [attendees] are never inspected. *)

Module CalendarEvent.
Record t : Type := mk {
  summary : string;
  description : option string;
  start_time : string;
  end_time : string;
  meeting_link : option string;
  attendees : option (list Json)
}.
End CalendarEvent.

(** A row of the [users] table. *)
Module UserRow.
Record t : Type := mk {
  id : string;
  display_name : string
}.
End UserRow.

Module PostgrestError.
Record t : Type := mk {
  code : string;
  message : string
}.
End PostgrestError.

(** The [{ data, error }] pair an awaited query resolves to. *)
Module PostgrestResponse.
Record t (A : Type) : Type := mk {
  data : option A;
  error : option PostgrestError.t
}.
Arguments mk {A} data error.
Arguments data {A} t.
Arguments error {A} t.
End PostgrestResponse.

(** What the database answers to the five queries [SupabaseClient] builds,
    at the time of the call. *)
Record SupabaseQueries : Type := mkQueries {
  nextMeetingRow : PostgrestResponse.t CalendarEvent.t;
  meetingsOfDate : PostgrestResponse.t (list CalendarEvent.t);
  meetingsLike : string -> Z -> PostgrestResponse.t (list CalendarEvent.t);
  userLike : string -> PostgrestResponse.t UserRow.t;
  meetingsAttendedBy : string -> PostgrestResponse.t (list CalendarEvent.t)
}.

(** ** Sample data

    A small workspace on which the statements below are exercised: the
    clock reads 15 January 2024 (UTC), the host functions are the ASCII
    and code-unit ones of [Js]. *)

Module Examples.

Definition today : Today.t :=
  Today.mk 1705312800000 "2024-01-15" "2024-01-15T00:00:00.000Z".

(** [new Date(s).getTime()] on the dates of the sample tasks. *)
Definition parseTime (s : string) : option Z :=
  if (s =? "2024-01-05")%string then Some 1704412800000
  else if (s =? "2024-01-10")%string then Some 1704844800000
  else if (s =? "2024-01-01")%string then Some 1704067200000
  else if (s =? "2024-02-01")%string then Some 1706745600000
  else None.

Definition alice : AsanaUser.t := AsanaUser.mk "1001" "Alice" (Some "alice@example.com").
Definition bob : AsanaUser.t := AsanaUser.mk "1002" "Bob" None.

Definition launch : list AsanaMembership.t :=
  [AsanaMembership.mk (Ref.mk "2001" "Marketing") (Some (Ref.mk "3001" "Doing"))].

Definition report : AsanaTask.t :=
  AsanaTask.mk "1" "Write report" None false None
    "2024-01-02T08:00:00.000Z" "2024-01-12T08:00:00.000Z"
    (Some "2024-01-10") None (Some alice) (Some launch).

Definition invoice : AsanaTask.t :=
  AsanaTask.mk "2" "Send invoice" None false None
    "2024-01-02T09:00:00.000Z" "2024-01-11T08:00:00.000Z"
    (Some "2024-01-05") None None None.

Definition slides : AsanaTask.t :=
  AsanaTask.mk "3" "Review slides" None true (Some "2024-01-15T09:30:00.000Z")
    "2024-01-03T08:00:00.000Z" "2024-01-15T09:30:00.000Z"
    (Some "2024-01-01") None (Some alice) (Some launch).

Definition budget : AsanaTask.t :=
  AsanaTask.mk "4" "Plan budget" None false None
    "2024-01-04T08:00:00.000Z" "2024-01-14T08:00:00.000Z"
    (Some "2024-02-01") None (Some bob) None.

Definition archive : AsanaTask.t :=
  AsanaTask.mk "5" "Archive notes" None true (Some "2024-01-14T22:10:00.000Z")
    "2024-01-04T09:00:00.000Z" "2024-01-14T22:10:00.000Z"
    None None (Some bob) None.

Definition tasks : list AsanaTask.t := [report; invoice; slides; budget; archive].

Definition moved : AsanaStory.t :=
  AsanaStory.mk "9001" "2024-01-03T10:00:00.000Z" alice "due_date_changed" None
    (Some "2024-01-01") (Some "2024-01-08") None None.

Definition removed : AsanaStory.t :=
  AsanaStory.mk "9002" "2024-01-09T10:00:00.000Z" bob "due_date_changed" None
    (Some "2024-01-08") None None None.

Definition commented : AsanaStory.t :=
  AsanaStory.mk "9003" "2024-01-09T11:00:00.000Z" bob "comment_added" (Some "ok")
    None None None None.

Definition marketing : AsanaProject.t := AsanaProject.mk "2001" "Marketing".
Definition marketing_copy : AsanaProject.t := AsanaProject.mk "2002" "marketing".

Definition doing : AsanaSection.t :=
  AsanaSection.mk "3001" "Doing" (Some (Ref.mk "2001" "Marketing")).

(** A workspace that answers every call.  The history of task 1 is the one
    of the specification's scenario; task 4 has one change; the history of
    task 2 cannot be fetched. *)
Definition client : AsanaClient :=
  {| getTasks := fun _ => Ok tasks;
     getTask := fun gid =>
       if (gid =? "1")%string then Ok report
       else Err "Failed to fetch task: Not Found";
     getTaskStories := fun gid =>
       if (gid =? "1")%string then Ok [moved; removed]
       else if (gid =? "4")%string then Ok [commented; moved]
       else Err "Failed to fetch task stories: Not Found";
     getProjectSections := fun _ => Ok [doing];
     getSectionTasks := fun _ => Ok [report; slides];
     getWorkspaceProjects := Ok [marketing; marketing_copy] |}.

(** A client whose token was revoked: every call throws. *)
Definition revoked : AsanaClient :=
  {| getTasks := fun _ => Err "Failed to fetch tasks: Unauthorized";
     getTask := fun _ => Err "Failed to fetch task: Unauthorized";
     getTaskStories := fun _ => Err "Failed to fetch task stories: Unauthorized";
     getProjectSections := fun _ => Err "Failed to fetch project sections: Unauthorized";
     getSectionTasks := fun _ => Err "Failed to fetch section tasks: Unauthorized";
     getWorkspaceProjects := Err "Failed to fetch workspace projects: Unauthorized" |}.

End Examples.

(** Further sample data: the user directory of the sample workspace, a
    project with two sections and a project with none. *)
Module MoreExamples.

Definition directory : AsanaUsers :=
  {| getWorkspaceUsers := Ok [Examples.alice; Examples.bob];
     getMe := Ok Examples.alice |}.

(** The user directory behind a revoked token. *)
Definition locked : AsanaUsers :=
  {| getWorkspaceUsers := Err "Failed to fetch workspace users: Unauthorized";
     getMe := Err "Failed to fetch current user: Unauthorized" |}.

(** A workspace whose single project has no sections. *)
Definition bare : AsanaClient :=
  {| getTasks := fun _ => Ok [];
     getTask := fun _ => Err "Failed to fetch task: Not Found";
     getTaskStories := fun _ => Err "Failed to fetch task stories: Not Found";
     getProjectSections := fun _ => Ok [];
     getSectionTasks := fun _ => Ok [];
     getWorkspaceProjects := Ok [Examples.marketing] |}.

(** The two events of the scenario with a subtype that does not mark a
    due-date change, and a workspace in which they are the history of
    task 1. *)
Definition rescheduled : AsanaStory.t :=
  AsanaStory.mk "9101" "2024-01-03T10:00:00.000Z" Examples.alice "unspecified" None
    (Some "2024-01-01") (Some "2024-01-08") None None.

Definition cleared : AsanaStory.t :=
  AsanaStory.mk "9102" "2024-01-09T10:00:00.000Z" Examples.bob "unspecified" None
    (Some "2024-01-08") None None None.

Definition unmarked : AsanaClient :=
  {| getTasks := getTasks Examples.client;
     getTask := getTask Examples.client;
     getTaskStories := fun gid =>
       if (gid =? "1")%string then Ok [rescheduled; cleared]
       else Err "Failed to fetch task stories: Not Found";
     getProjectSections := getProjectSections Examples.client;
     getSectionTasks := getSectionTasks Examples.client;
     getWorkspaceProjects := getWorkspaceProjects Examples.client |}.

Definition finished : AsanaSection.t :=
  AsanaSection.mk "3002" "Done" (Some (Ref.mk "2001" "Marketing")).

(** The sample workspace with a board of two sections, the finished one
    first. *)
Definition board : AsanaClient :=
  {| getTasks := getTasks Examples.client;
     getTask := getTask Examples.client;
     getTaskStories := getTaskStories Examples.client;
     getProjectSections := fun _ => Ok [finished; Examples.doing];
     getSectionTasks := fun gid =>
       if (gid =? "3001")%string
       then Ok [Examples.report; Examples.slides; Examples.invoice]
       else Ok [Examples.slides; Examples.archive];
     getWorkspaceProjects := getWorkspaceProjects Examples.client |}.

Definition standup : CalendarEvent.t :=
  CalendarEvent.mk "Standup" (Some "Daily sync")
    "2024-01-15T09:00:00.000Z" "2024-01-15T09:15:00.000Z"
    (Some "https://meet.example.com/standup") (Some []).

Definition review : CalendarEvent.t :=
  CalendarEvent.mk "Design review" None
    "2024-01-16T13:00:00.000Z" "2024-01-16T14:00:00.000Z" None None.

(** A calendar that knows Alice, times out when asked for Bob and has lost
    the attendance data. *)
Definition calendar : SupabaseQueries :=
  {| nextMeetingRow := PostgrestResponse.mk (Some standup) None;
     meetingsOfDate := PostgrestResponse.mk (Some [standup]) None;
     meetingsLike := fun _ _ => PostgrestResponse.mk (Some [standup; review]) None;
     userLike := fun name =>
       if (name =? "alice")%string
       then PostgrestResponse.mk (Some (UserRow.mk "u1" "Alice")) None
       else if (name =? "bob")%string
       then PostgrestResponse.mk None
              (Some (PostgrestError.mk "57014" "canceling statement due to statement timeout"))
       else PostgrestResponse.mk None
              (Some (PostgrestError.mk "PGRST116" "The result contains 0 rows"));
     meetingsAttendedBy := fun _ =>
       PostgrestResponse.mk None
         (Some (PostgrestError.mk "42P01" "relation does not exist")) |}.

End MoreExamples.

(** ** The query tools *)

(** An invocation of one of the twenty tools built on the API client, with
    its validated parameters and the clock readings it takes. *)
Inductive ToolCall : Type :=
| CallCompletedToday (today : Today.t) (assignee : option string)
| CallOverdue (today : Today.t) (assignee : option string)
| CallTeamWorkload (today : Today.t) (includeCompleted : bool)
| CallDueDateChanges (taskGid : string)
| CallMostPostponed (limit : Z)
| CallProjectStatus (projectName : string)
| CallUpdatedToday (today : Today.t) (assignee : option string)
    (includeCompleted : bool)
| CallDueToday (today : Today.t) (assignee : option string) (excludeCompleted : bool)
| CallWeeklyPlanned (weekStartStr weekEndStr : string) (assignee : option string)
    (excludeCompleted : bool)
| CallOverdueByPerson (today : Today.t)
| CallSectionWithMostWork (projectName : string)
| CallListAllProjects
| CallRecentDueDateChanges (cutoffStr daysText : string)
| CallUnassigned (excludeCompleted : bool)
| CallWithoutDueDates (excludeCompleted : bool) (assignee : option string)
| CallSearchTasksByName (searchQuery : string) (excludeCompleted : bool)
| CallWorkspaceUsers
| CallMe
| CallSearchUsers (query : string)
| CallTasksAssignedTo (nowISO assignee : string) (excludeCompleted : bool)
    (limit : Z).

Section Tools.

(** Host functions the tools call and this development leaves abstract:
    Unicode case mapping, locale collation, date parsing, and the
    double-precision expression [Math.round((c / t) * 100)]. *)
Variable toLowerCase : string -> string.
Variable localeCompare : string -> string -> Z.
(** [new Date(s).getTime()], [None] for an invalid date ([NaN]). *)
Variable parseTime : string -> option Z.
Variable round_pct : Z -> Z -> Z.

Variable client : AsanaClient.

(** *** [AsanaClient.findProjectByName] *)

Definition name_matches (projectName : string) (p : AsanaProject.t) : bool :=
  (toLowerCase (AsanaProject.name p) =? toLowerCase projectName)%string.

Definition findProjectByName (projectName : string)
  : result (option AsanaProject.t) :=
  projects <- getWorkspaceProjects client ;;
  Ok (find (name_matches projectName) projects).

(** *** Shared renderings *)

(** [o && p(o)] for an optional string. *)
Definition and_then (o : option string) (p : string -> bool) : bool :=
  match o with
  | Some s => Js.truthy o && p s
  | None => false
  end.

(** [task.assignee?.name || 'Unassigned'] *)
Definition assigneeName (task : AsanaTask.t) : string :=
  Js.or_else (option_map AsanaUser.name (AsanaTask.assignee task)) "Unassigned".

Definition firstMembership (task : AsanaTask.t) : option AsanaMembership.t :=
  match AsanaTask.memberships task with
  | Some (m :: _) => Some m
  | _ => None
  end.

(** [task.memberships?.[0]?.project?.name || 'No project'] *)
Definition projectLabel (task : AsanaTask.t) : string :=
  Js.or_else
    (option_map (fun m => Ref.name (AsanaMembership.project m)) (firstMembership task))
    "No project".

(** [task.memberships?.[0]?.section?.name || 'No section'] *)
Definition sectionLabel (task : AsanaTask.t) : string :=
  Js.or_else
    (match firstMembership task with
     | Some m => option_map Ref.name (AsanaMembership.section m)
     | None => None
     end)
    "No section".

(** [total > 0 ? Math.round((completed / total) * 100) : 0] *)
Definition completionRate (completed total : Z) : Z :=
  if total >? 0 then round_pct completed total else 0.

(** *** [get_tasks_completed_today] *)

Definition completedToday (todayStart : string) (tasks : list AsanaTask.t)
  : list AsanaTask.t :=
  filter
    (fun task =>
       AsanaTask.completed task &&
       and_then (AsanaTask.completed_at task) (fun at_ => Js.str_ge at_ todayStart))
    tasks.

Definition formatCompleted (task : AsanaTask.t) : Json :=
  JObj [("name", JStr (AsanaTask.name task));
        ("gid", JStr (AsanaTask.gid task));
        ("completedAt", opt_str (AsanaTask.completed_at task));
        ("assignee", JStr (assigneeName task));
        ("project", JStr (projectLabel task));
        ("section", JStr (sectionLabel task))].

Definition getTasksCompletedToday (today : Today.t) (assignee : option string)
  : result Json :=
  try_catch
    (let todayStart := Today.startISO today in
     tasks <- getTasks client
                (TaskParams.mk None None assignee (Some todayStart) None) ;;
     let done := completedToday todayStart tasks in
     if count_of done =? 0 then
       Ok (JObj [("message", JStr "No tasks were completed today.");
                 ("count", JNum 0);
                 ("tasks", JArr [])])
     else
       Ok (JObj [("message",
                  JStr (Js.show (count_of done) ++ " task(s) completed today."));
                 ("count", JNum (count_of done));
                 ("tasks", JArr (map formatCompleted done));
                 ("date", JStr (Today.dateStr today))]))
    (fun error =>
       JObj [("error", JStr ("Failed to fetch completed tasks: " ++ show_error error));
             ("count", JNum 0);
             ("tasks", JArr [])]).

(** *** [get_overdue_tasks] *)

Definition isOverdue (todayStr : string) (task : AsanaTask.t) : bool :=
  negb (AsanaTask.completed task) &&
  and_then (AsanaTask.due_on task) (fun due => Js.str_lt due todayStr).

(** The comparator handed to [overdueTasks.sort]. *)
Definition byDueOn (a b : AsanaTask.t) : Z :=
  match AsanaTask.due_on a, AsanaTask.due_on b with
  | Some da, Some db =>
      if negb (Js.truthy (Some da)) || negb (Js.truthy (Some db)) then 0
      else localeCompare da db
  | _, _ => 0
  end.

(** [overdueTasks] after the in-place sort. *)
Definition overdueTasks (todayStr : string) (tasks : list AsanaTask.t)
  : list AsanaTask.t :=
  Js.sort byDueOn (filter (isOverdue todayStr) tasks).

(** [Math.floor((today.getTime() - new Date(dueDate).getTime()) / 86400000)] *)
Definition daysOverdue (today : Today.t) (dueDate : option string) : Json :=
  match dueDate with
  | Some d =>
      match parseTime d with
      | Some ms => JNum ((Today.getTime today - ms) / (1000 * 60 * 60 * 24))
      | None => JNaN
      end
  | None => JNaN
  end.

Definition formatOverdue (today : Today.t) (task : AsanaTask.t) : Json :=
  let dueDate := AsanaTask.due_on task in
  JObj [("name", JStr (AsanaTask.name task));
        ("gid", JStr (AsanaTask.gid task));
        ("dueOn", opt_str dueDate);
        ("daysOverdue", daysOverdue today dueDate);
        ("assignee", JStr (assigneeName task));
        ("project", JStr (projectLabel task));
        ("section", JStr (sectionLabel task))].

Definition getOverdueTasks (today : Today.t) (assignee : option string)
  : result Json :=
  try_catch
    (let todayStr := Today.dateStr today in
     tasks <- getTasks client (TaskParams.mk None None assignee None None) ;;
     if count_of (filter (isOverdue todayStr) tasks) =? 0 then
       Ok (JObj [("message", JStr "No overdue tasks found.");
                 ("count", JNum 0);
                 ("tasks", JArr [])])
     else
       let overdue := overdueTasks todayStr tasks in
       Ok (JObj [("message",
                  JStr (Js.show (count_of overdue) ++ " overdue task(s) found."));
                 ("count", JNum (count_of overdue));
                 ("tasks", JArr (map (formatOverdue today) overdue))]))
    (fun error =>
       JObj [("error", JStr ("Failed to fetch overdue tasks: " ++ show_error error));
             ("count", JNum 0);
             ("tasks", JArr [])]).

(** *** [get_team_workload] *)

(** [new Map<string, UserWorkload>()]: entries in insertion order, keys
    pairwise distinct. *)
Definition WorkloadMap : Type := list (string * UserWorkload.t).

Fixpoint map_has (k : string) (m : WorkloadMap) : bool :=
  match m with
  | [] => false
  | (k', _) :: m' => (k =? k')%string || map_has k m'
  end.

(** [map.set(k, v)] for a key the map does not hold yet. *)
Definition map_add (k : string) (v : UserWorkload.t) (m : WorkloadMap) : WorkloadMap :=
  (m ++ [(k, v)])%list.

(** [map.get(k)] *)
Fixpoint map_get (k : string) (m : WorkloadMap) : option UserWorkload.t :=
  match m with
  | [] => None
  | (k', v) :: m' => if (k =? k')%string then Some v else map_get k m'
  end.

(** Mutation of the object [map.get(k)] refers to. *)
Fixpoint map_update (k : string) (f : UserWorkload.t -> UserWorkload.t)
  (m : WorkloadMap) : WorkloadMap :=
  match m with
  | [] => []
  | (k', v) :: m' =>
      if (k =? k')%string then (k', f v) :: m' else (k', v) :: map_update k f m'
  end.

(** [task.assignee?.gid || 'unassigned'] *)
Definition assigneeGid (task : AsanaTask.t) : string :=
  Js.or_else (option_map AsanaUser.gid (AsanaTask.assignee task)) "unassigned".

(** [task.assignee || { gid: 'unassigned', name: 'Unassigned', ... }] *)
Definition assigneeOrSynthetic (task : AsanaTask.t) : AsanaUser.t :=
  match AsanaTask.assignee task with
  | Some u => u
  | None => AsanaUser.mk "unassigned" "Unassigned" None
  end.

(** The statements after [const workload = workloadMap.get(assigneeGid)!]. *)
Definition tally (todayStr : string) (task : AsanaTask.t) (w : UserWorkload.t)
  : UserWorkload.t :=
  let total := UserWorkload.totalTasks w + 1 in
  let done :=
    if AsanaTask.completed task
    then UserWorkload.completedTasks w + 1
    else UserWorkload.completedTasks w in
  let '(overdue, upcoming) :=
    match AsanaTask.due_on task with
    | Some due =>
        if Js.truthy (Some due) && negb (AsanaTask.completed task) then
          if Js.str_lt due todayStr
          then (UserWorkload.overdueTasks w + 1, UserWorkload.upcomingTasks w)
          else (UserWorkload.overdueTasks w, UserWorkload.upcomingTasks w + 1)
        else (UserWorkload.overdueTasks w, UserWorkload.upcomingTasks w)
    | None => (UserWorkload.overdueTasks w, UserWorkload.upcomingTasks w)
    end in
  UserWorkload.mk (UserWorkload.user w) total done overdue upcoming.

(** One iteration of [tasks.forEach]. *)
Definition workloadStep (includeCompleted : bool) (todayStr : string)
  (m : WorkloadMap) (task : AsanaTask.t) : WorkloadMap :=
  if negb includeCompleted && AsanaTask.completed task then m
  else
    let k := assigneeGid task in
    let m1 :=
      if negb (map_has k m)
      then map_add k (UserWorkload.mk (assigneeOrSynthetic task) 0 0 0 0) m
      else m in
    map_update k (tally todayStr task) m1.

Definition workloadMap (includeCompleted : bool) (todayStr : string)
  (tasks : list AsanaTask.t) : WorkloadMap :=
  fold_left (workloadStep includeCompleted todayStr) tasks [].

(** The comparator [(a, b) => b.totalTasks - a.totalTasks]. *)
Definition byTotalDesc (a b : UserWorkload.t) : Z :=
  UserWorkload.totalTasks b - UserWorkload.totalTasks a.

Definition workloadArray (includeCompleted : bool) (todayStr : string)
  (tasks : list AsanaTask.t) : list UserWorkload.t :=
  Js.sort byTotalDesc (map snd (workloadMap includeCompleted todayStr tasks)).

Definition summarize (w : UserWorkload.t) : Json :=
  JObj [("user", JStr (AsanaUser.name (UserWorkload.user w)));
        ("userGid", JStr (AsanaUser.gid (UserWorkload.user w)));
        ("totalTasks", JNum (UserWorkload.totalTasks w));
        ("completedTasks", JNum (UserWorkload.completedTasks w));
        ("overdueTasks", JNum (UserWorkload.overdueTasks w));
        ("upcomingTasks", JNum (UserWorkload.upcomingTasks w));
        ("completionRate",
         JNum (completionRate (UserWorkload.completedTasks w)
                              (UserWorkload.totalTasks w)))].

Definition sumTotals (ws : list UserWorkload.t) : Z :=
  fold_left (fun sum w => sum + UserWorkload.totalTasks w) ws 0.

Definition getTeamWorkload (today : Today.t) (includeCompleted : bool)
  : result Json :=
  try_catch
    (let todayStr := Today.dateStr today in
     tasks <- getTasks client TaskParams.empty ;;
     let arr := workloadArray includeCompleted todayStr tasks in
     if count_of arr =? 0 then
       Ok (JObj [("message", JStr "No tasks found for workload analysis.");
                 ("teamMembers", JNum 0);
                 ("workload", JArr [])])
     else
       Ok (JObj [("message",
                  JStr ("Workload analysis for " ++ Js.show (count_of arr)
                        ++ " team member(s)."));
                 ("teamMembers", JNum (count_of arr));
                 ("totalTasks", JNum (sumTotals arr));
                 ("workload", JArr (map summarize arr))]))
    (fun error =>
       JObj [("error", JStr ("Failed to analyze team workload: " ++ show_error error));
             ("teamMembers", JNum 0);
             ("workload", JArr [])]).

(** *** [get_task_due_date_changes] *)

(** The predicate handed to [stories.filter] in all three due-date tools. *)
Definition isDueDateChange (story : AsanaStory.t) : bool :=
  (AsanaStory.resource_subtype story =? "due_date_changed")%string ||
  match AsanaStory.new_due_on story, AsanaStory.old_due_on story with
  | Some new_, Some old_ =>
      Js.truthy (Some new_) && Js.truthy (Some old_) && negb (new_ =? old_)%string
  | _, _ => false
  end.

Definition renderChange (story : AsanaStory.t) : Json :=
  JObj [("date", JStr (AsanaStory.created_at story));
        ("oldDueDate", JStr (Js.or_else (AsanaStory.old_due_on story) "No due date"));
        ("newDueDate", JStr (Js.or_else (AsanaStory.new_due_on story) "Removed"));
        ("changedBy", JStr (AsanaUser.name (AsanaStory.created_by story)))].

Definition getTaskDueDateChanges (taskGid : string) : result Json :=
  try_catch
    (task <- getTask client taskGid ;;
     stories <- getTaskStories client taskGid ;;
     let dueDateChanges := filter isDueDateChange stories in
     if count_of dueDateChanges =? 0 then
       Ok (JObj [("message",
                  JStr ("Task " ++ Js.dquote ++ AsanaTask.name task ++ Js.dquote
                        ++ " has no due date changes recorded."));
                 ("taskName", JStr (AsanaTask.name task));
                 ("taskGid", JStr (AsanaTask.gid task));
                 ("currentDueDate",
                  JStr (Js.or_else (AsanaTask.due_on task) "No due date"));
                 ("changeCount", JNum 0);
                 ("changes", JArr [])])
     else
       Ok (JObj [("message",
                  JStr ("Task " ++ Js.dquote ++ AsanaTask.name task ++ Js.dquote
                        ++ " has had its due date changed "
                        ++ Js.show (count_of dueDateChanges) ++ " time(s)."));
                 ("taskName", JStr (AsanaTask.name task));
                 ("taskGid", JStr (AsanaTask.gid task));
                 ("currentDueDate",
                  JStr (Js.or_else (AsanaTask.due_on task) "No due date"));
                 ("changeCount", JNum (count_of dueDateChanges));
                 ("changes", JArr (map renderChange dueDateChanges))]))
    (fun error =>
       JObj [("error", JStr ("Failed to fetch due date changes: " ++ show_error error));
             ("changeCount", JNum 0);
             ("changes", JArr [])]).

(** *** [get_most_postponed_tasks] *)

Definition hasOpenDueDate (t : AsanaTask.t) : bool :=
  negb (AsanaTask.completed t) && Js.truthy (AsanaTask.due_on t).

Definition toChange (story : AsanaStory.t) : Change.t :=
  Change.mk (AsanaStory.created_at story) (AsanaStory.old_due_on story)
            (AsanaStory.new_due_on story) (AsanaStory.created_by story).

(** The body of the [for] loop: what one task pushes onto
    [tasksWithChanges].  The inner [catch] only logs. *)
Definition postponedEntry (task : AsanaTask.t) : list DueDateChange.t :=
  match getTaskStories client (AsanaTask.gid task) with
  | Ok stories =>
      let dueDateChanges := filter isDueDateChange stories in
      if count_of dueDateChanges >? 0
      then [DueDateChange.mk task (map toChange dueDateChanges)
                             (count_of dueDateChanges)]
      else []
  | Err _ => []
  end.

Definition tasksWithChanges (incompleteTasks : list AsanaTask.t)
  : list DueDateChange.t :=
  fold_left (fun acc task => (acc ++ postponedEntry task)%list) incompleteTasks [].

(** The comparator [(a, b) => b.changeCount - a.changeCount]. *)
Definition byChangeCountDesc (a b : DueDateChange.t) : Z :=
  DueDateChange.changeCount b - DueDateChange.changeCount a.

(** [tasksWithChanges.sort(...).slice(0, limit)] *)
Definition topPostponed (limit : Z) (incompleteTasks : list AsanaTask.t)
  : list DueDateChange.t :=
  Js.slice0 limit (Js.sort byChangeCountDesc (tasksWithChanges incompleteTasks)).

Definition renderPostponed (item : DueDateChange.t) : Json :=
  let task := DueDateChange.task item in
  JObj [("taskName", JStr (AsanaTask.name task));
        ("taskGid", JStr (AsanaTask.gid task));
        ("currentDueDate", opt_str (AsanaTask.due_on task));
        ("assignee", JStr (assigneeName task));
        ("project", JStr (projectLabel task));
        ("postponeCount", JNum (DueDateChange.changeCount item));
        ("lastChange",
         opt_str (option_map Change.date (hd_error (DueDateChange.changes item))))].

Definition getMostPostponedTasks (limit : Z) : result Json :=
  try_catch
    (tasks <- getTasks client TaskParams.empty ;;
     let incompleteTasks := filter hasOpenDueDate tasks in
     if count_of incompleteTasks =? 0 then
       Ok (JObj [("message", JStr "No incomplete tasks with due dates found.");
                 ("tasks", JArr [])])
     else
       let all := tasksWithChanges incompleteTasks in
       if count_of all =? 0 then
         Ok (JObj [("message", JStr "No tasks with due date changes found.");
                   ("tasks", JArr [])])
       else
         let top := topPostponed limit incompleteTasks in
         Ok (JObj [("message",
                    JStr ("Found " ++ Js.show (count_of all)
                          ++ " task(s) with due date changes. Showing top "
                          ++ Js.show (count_of top) ++ "."));
                   ("totalTasksWithChanges", JNum (count_of all));
                   ("tasks", JArr (map renderPostponed top))]))
    (fun error =>
       JObj [("error", JStr ("Failed to analyze postponed tasks: " ++ show_error error));
             ("tasks", JArr [])]).

(** *** [get_project_status] *)

(** The [for (const section of sections)] loop; a failing
    [getSectionTasks] leaves the loop. *)
Fixpoint sectionStatuses (sections : list AsanaSection.t)
  : result (list SectionStatus.t) :=
  match sections with
  | [] => Ok []
  | section :: rest =>
      tasks <- getSectionTasks client (AsanaSection.gid section) ;;
      let completedTasks := count_of (filter AsanaTask.completed tasks) in
      let status :=
        SectionStatus.mk section (count_of tasks) completedTasks
                         (completionRate completedTasks (count_of tasks)) in
      more <- sectionStatuses rest ;;
      Ok (status :: more)
  end.

Definition summarizeSection (s : SectionStatus.t) : SectionSummary.t :=
  SectionSummary.mk
    (AsanaSection.name (SectionStatus.section s))
    (SectionStatus.totalTasks s)
    (SectionStatus.completedTasks s)
    (SectionStatus.totalTasks s - SectionStatus.completedTasks s)
    (SectionStatus.completionRate s).

(** The comparator [(a, b) => b.incompleteTasks - a.incompleteTasks]. *)
Definition byIncompleteDesc (a b : SectionSummary.t) : Z :=
  SectionSummary.incompleteTasks b - SectionSummary.incompleteTasks a.

Definition renderSection (s : SectionSummary.t) : Json :=
  JObj [("name", JStr (SectionSummary.name s));
        ("totalTasks", JNum (SectionSummary.totalTasks s));
        ("completedTasks", JNum (SectionSummary.completedTasks s));
        ("incompleteTasks", JNum (SectionSummary.incompleteTasks s));
        ("completionRate", JNum (SectionSummary.completionRate s))].

Definition getProjectStatus (projectName : string) : result Json :=
  try_catch
    (found <- findProjectByName projectName ;;
     match found with
     | None =>
         Ok (JObj [("error",
                    JStr ("Project " ++ Js.dquote ++ projectName ++ Js.dquote
                          ++ " not found."));
                   ("suggestions",
                    JStr "Try listing all projects first to find the exact name.")])
     | Some project =>
         sections <- getProjectSections client (AsanaProject.gid project) ;;
         statuses <- sectionStatuses sections ;;
         let totalTasks :=
           fold_left (fun sum s => sum + SectionStatus.totalTasks s) statuses 0 in
         let completedTasks :=
           fold_left (fun sum s => sum + SectionStatus.completedTasks s) statuses 0 in
         let rate := completionRate completedTasks totalTasks in
         let sortedSections :=
           Js.sort byIncompleteDesc (map summarizeSection statuses) in
         Ok (JObj [("message",
                    JStr ("Project " ++ Js.dquote ++ AsanaProject.name project
                          ++ Js.dquote ++ " has " ++ Js.show totalTasks
                          ++ " total tasks (" ++ Js.show rate ++ "% complete)."));
                   ("projectName", JStr (AsanaProject.name project));
                   ("projectGid", JStr (AsanaProject.gid project));
                   ("totalTasks", JNum totalTasks);
                   ("completedTasks", JNum completedTasks);
                   ("incompleteTasks", JNum (totalTasks - completedTasks));
                   ("completionRate", JNum rate);
                   ("sectionCount", JNum (count_of sections));
                   ("sections", JArr (map renderSection sortedSections))])
     end)
    (fun error =>
       JObj [("error", JStr ("Failed to analyze project status: " ++ show_error error))]).

(** ** The remaining tools and client methods *)

Variable users : AsanaUsers.

(** *** [AsanaClient.searchUsers] *)

Definition user_matches (lowerQuery : string) (user : AsanaUser.t) : bool :=
  JsText.includes (toLowerCase (AsanaUser.name user)) lowerQuery ||
  match AsanaUser.email user with
  | Some email =>
      JsText.nonempty email && JsText.includes (toLowerCase email) lowerQuery
  | None => false
  end.

Definition searchUsers (query : string) : result (list AsanaUser.t) :=
  allUsers <- getWorkspaceUsers users ;;
  let lowerQuery := toLowerCase query in
  Ok (filter (user_matches lowerQuery) allUsers).

(** *** Shared steps *)

(** [if (excludeCompleted) { l = l.filter(task => !task.completed) }] *)
Definition dropCompleted (excludeCompleted : bool) (l : list AsanaTask.t)
  : list AsanaTask.t :=
  if excludeCompleted
  then filter (fun task => negb (AsanaTask.completed task)) l
  else l.

(** *** [get_tasks_updated_today] *)

Definition updatedToday (todayStart : string) (includeCompleted : bool)
  (tasks : list AsanaTask.t) : list AsanaTask.t :=
  dropCompleted (negb includeCompleted)
    (filter
       (fun task =>
          and_then (Some (AsanaTask.modified_at task))
                   (fun at_ => Js.str_ge at_ todayStart))
       tasks).

Definition formatUpdated (task : AsanaTask.t) : Json :=
  JObj [("name", JStr (AsanaTask.name task));
        ("gid", JStr (AsanaTask.gid task));
        ("modifiedAt", JStr (AsanaTask.modified_at task));
        ("completed", JBool (AsanaTask.completed task));
        ("assignee", JStr (assigneeName task));
        ("project", JStr (projectLabel task));
        ("section", JStr (sectionLabel task))].

Definition getTasksUpdatedToday (today : Today.t) (assignee : option string)
  (includeCompleted : bool) : result Json :=
  try_catch
    (let todayStart := Today.startISO today in
     tasks <- getTasks client
                (TaskParams.mk None None assignee None (Some todayStart)) ;;
     let filteredTasks := updatedToday todayStart includeCompleted tasks in
     if count_of filteredTasks =? 0 then
       Ok (JObj [("message", JStr "No tasks were updated today.");
                 ("count", JNum 0);
                 ("tasks", JArr [])])
     else
       Ok (JObj [("message",
                  JStr (Js.show (count_of filteredTasks) ++ " task(s) updated today."));
                 ("count", JNum (count_of filteredTasks));
                 ("tasks", JArr (map formatUpdated filteredTasks));
                 ("date", JStr (Today.dateStr today))]))
    (fun error =>
       JObj [("error", JStr ("Failed to fetch updated tasks: " ++ show_error error));
             ("count", JNum 0);
             ("tasks", JArr [])]).

(** *** [get_tasks_due_today] *)

Definition dueToday (todayStr : string) (excludeCompleted : bool)
  (tasks : list AsanaTask.t) : list AsanaTask.t :=
  dropCompleted excludeCompleted
    (filter
       (fun task =>
          and_then (AsanaTask.due_on task) (fun due => (due =? todayStr)%string))
       tasks).

Definition formatDue (task : AsanaTask.t) : Json :=
  JObj [("name", JStr (AsanaTask.name task));
        ("gid", JStr (AsanaTask.gid task));
        ("dueOn", opt_str (AsanaTask.due_on task));
        ("completed", JBool (AsanaTask.completed task));
        ("assignee", JStr (assigneeName task));
        ("project", JStr (projectLabel task));
        ("section", JStr (sectionLabel task))].

Definition getTasksDueToday (today : Today.t) (assignee : option string)
  (excludeCompleted : bool) : result Json :=
  try_catch
    (let todayStr := Today.dateStr today in
     tasks <- getTasks client (TaskParams.mk None None assignee None None) ;;
     let due := dueToday todayStr excludeCompleted tasks in
     if count_of due =? 0 then
       Ok (JObj [("message", JStr "No tasks are due today.");
                 ("count", JNum 0);
                 ("tasks", JArr [])])
     else
       Ok (JObj [("message", JStr (Js.show (count_of due) ++ " task(s) due today."));
                 ("count", JNum (count_of due));
                 ("tasks", JArr (map formatDue due));
                 ("date", JStr todayStr)]))
    (fun error =>
       JObj [("error", JStr ("Failed to fetch tasks due today: " ++ show_error error));
             ("count", JNum 0);
             ("tasks", JArr [])]).

(** *** [get_unassigned_tasks] *)

Definition unassignedTasks (excludeCompleted : bool) (tasks : list AsanaTask.t)
  : list AsanaTask.t :=
  dropCompleted excludeCompleted
    (filter
       (fun task =>
          match AsanaTask.assignee task with
          | Some _ => false
          | None => true
          end)
       tasks).

Definition formatUnassigned (task : AsanaTask.t) : Json :=
  JObj [("name", JStr (AsanaTask.name task));
        ("gid", JStr (AsanaTask.gid task));
        ("dueOn", JStr (Js.or_else (AsanaTask.due_on task) "No due date"));
        ("completed", JBool (AsanaTask.completed task));
        ("project", JStr (projectLabel task));
        ("section", JStr (sectionLabel task))].

Definition getUnassignedTasks (excludeCompleted : bool) : result Json :=
  try_catch
    (tasks <- getTasks client TaskParams.empty ;;
     let found := unassignedTasks excludeCompleted tasks in
     if count_of found =? 0 then
       Ok (JObj [("message", JStr "No unassigned tasks found.");
                 ("count", JNum 0);
                 ("tasks", JArr [])])
     else
       Ok (JObj [("message",
                  JStr (Js.show (count_of found) ++ " unassigned task(s) found."));
                 ("count", JNum (count_of found));
                 ("tasks", JArr (map formatUnassigned found))]))
    (fun error =>
       JObj [("error", JStr ("Failed to fetch unassigned tasks: " ++ show_error error));
             ("count", JNum 0);
             ("tasks", JArr [])]).

(** *** [get_tasks_without_due_dates] *)

Definition tasksWithoutDueDate (excludeCompleted : bool) (tasks : list AsanaTask.t)
  : list AsanaTask.t :=
  dropCompleted excludeCompleted
    (filter
       (fun task =>
          negb (Js.truthy (AsanaTask.due_on task)) &&
          negb (Js.truthy (AsanaTask.due_at task)))
       tasks).

Definition formatUndated (task : AsanaTask.t) : Json :=
  JObj [("name", JStr (AsanaTask.name task));
        ("gid", JStr (AsanaTask.gid task));
        ("assignee", JStr (assigneeName task));
        ("completed", JBool (AsanaTask.completed task));
        ("project", JStr (projectLabel task));
        ("section", JStr (sectionLabel task));
        ("createdAt", JStr (AsanaTask.created_at task))].

Definition getTasksWithoutDueDates (excludeCompleted : bool)
  (assignee : option string) : result Json :=
  try_catch
    (tasks <- getTasks client (TaskParams.mk None None assignee None None) ;;
     let found := tasksWithoutDueDate excludeCompleted tasks in
     if count_of found =? 0 then
       Ok (JObj [("message", JStr "No tasks without due dates found.");
                 ("count", JNum 0);
                 ("tasks", JArr [])])
     else
       Ok (JObj [("message",
                  JStr (Js.show (count_of found) ++ " task(s) without due dates found."));
                 ("count", JNum (count_of found));
                 ("tasks", JArr (map formatUndated found))]))
    (fun error =>
       JObj [("error",
              JStr ("Failed to fetch tasks without due dates: " ++ show_error error));
             ("count", JNum 0);
             ("tasks", JArr [])]).

(** *** [search_tasks_by_name] *)

Definition matchingTasks (searchQuery : string) (excludeCompleted : bool)
  (tasks : list AsanaTask.t) : list AsanaTask.t :=
  let searchLower := toLowerCase searchQuery in
  dropCompleted excludeCompleted
    (filter
       (fun task => JsText.includes (toLowerCase (AsanaTask.name task)) searchLower)
       tasks).

Definition formatMatch (task : AsanaTask.t) : Json :=
  JObj [("name", JStr (AsanaTask.name task));
        ("gid", JStr (AsanaTask.gid task));
        ("completed", JBool (AsanaTask.completed task));
        ("dueOn", JStr (Js.or_else (AsanaTask.due_on task) "No due date"));
        ("assignee", JStr (assigneeName task));
        ("project", JStr (projectLabel task));
        ("section", JStr (sectionLabel task))].

Definition searchTasksByName (searchQuery : string) (excludeCompleted : bool)
  : result Json :=
  try_catch
    (tasks <- getTasks client TaskParams.empty ;;
     let found := matchingTasks searchQuery excludeCompleted tasks in
     if count_of found =? 0 then
       Ok (JObj [("message",
                  JStr ("No tasks found matching " ++ Js.dquote ++ searchQuery
                        ++ Js.dquote ++ "."));
                 ("count", JNum 0);
                 ("tasks", JArr [])])
     else
       Ok (JObj [("message",
                  JStr ("Found " ++ Js.show (count_of found) ++ " task(s) matching "
                        ++ Js.dquote ++ searchQuery ++ Js.dquote ++ "."));
                 ("count", JNum (count_of found));
                 ("searchQuery", JStr searchQuery);
                 ("tasks", JArr (map formatMatch found))]))
    (fun error =>
       JObj [("error", JStr ("Failed to search tasks: " ++ show_error error));
             ("count", JNum 0);
             ("tasks", JArr [])]).

(** *** [get_workspace_users], [get_me], [search_users] *)

Definition formatUser (user : AsanaUser.t) : Json :=
  JObj [("name", JStr (AsanaUser.name user));
        ("gid", JStr (AsanaUser.gid user));
        ("email", JStr (Js.or_else (AsanaUser.email user) "No email"))].

Definition getWorkspaceUsers_tool : result Json :=
  try_catch
    (found <- getWorkspaceUsers users ;;
     if count_of found =? 0 then
       Ok (JObj [("message", JStr "No users found in the workspace.");
                 ("count", JNum 0);
                 ("users", JArr [])])
     else
       Ok (JObj [("message",
                  JStr ("Found " ++ Js.show (count_of found)
                        ++ " user(s) in the workspace."));
                 ("count", JNum (count_of found));
                 ("users", JArr (map formatUser found))]))
    (fun error =>
       JObj [("error", JStr ("Failed to fetch workspace users: " ++ show_error error));
             ("count", JNum 0);
             ("users", JArr [])]).

Definition getMe_tool : result Json :=
  try_catch
    (me <- getMe users ;;
     Ok (JObj [("message", JStr ("Current user identified: " ++ AsanaUser.name me));
               ("user", formatUser me)]))
    (fun error =>
       JObj [("error", JStr ("Failed to fetch current user: " ++ show_error error))]).

Definition searchUsers_tool (query : string) : result Json :=
  try_catch
    (found <- searchUsers query ;;
     if count_of found =? 0 then
       Ok (JObj [("message",
                  JStr ("No users found matching " ++ Js.dquote ++ query
                        ++ Js.dquote ++ "."));
                 ("count", JNum 0);
                 ("users", JArr [])])
     else
       Ok (JObj [("message",
                  JStr ("Found " ++ Js.show (count_of found) ++ " user(s) matching "
                        ++ Js.dquote ++ query ++ Js.dquote ++ "."));
                 ("count", JNum (count_of found));
                 ("users", JArr (map formatUser found))]))
    (fun error =>
       JObj [("error", JStr ("Failed to search users: " ++ show_error error));
             ("count", JNum 0);
             ("users", JArr [])]).

(** *** [get_tasks_assigned_to] *)

(** [filteredTasks] after [slice(0, limit)]. *)
Definition assignedTasks (excludeCompleted : bool) (limit : Z)
  (tasks : list AsanaTask.t) : list AsanaTask.t :=
  Js.slice0 limit (dropCompleted excludeCompleted tasks).

(** [nowISO] is the reading [new Date().toISOString()]. *)
Definition getTasksAssignedTo (nowISO : string) (assignee : string)
  (excludeCompleted : bool) (limit : Z) : result Json :=
  try_catch
    (tasks <- getTasks client
                (TaskParams.mk None None (Some assignee)
                               (if excludeCompleted then Some nowISO else None)
                               None) ;;
     let filteredTasks := assignedTasks excludeCompleted limit tasks in
     if count_of filteredTasks =? 0 then
       Ok (JObj [("message", JStr "No tasks found for this user.");
                 ("count", JNum 0);
                 ("tasks", JArr [])])
     else
       Ok (JObj [("message",
                  JStr ("Found " ++ Js.show (count_of filteredTasks)
                        ++ " task(s) assigned to usage."));
                 ("count", JNum (count_of filteredTasks));
                 ("tasks", JArr (map formatUnassigned filteredTasks))]))
    (fun error =>
       JObj [("error",
              JStr ("Failed to fetch tasks for user " ++ assignee ++ ": "
                    ++ show_error error));
             ("count", JNum 0);
             ("tasks", JArr [])]).

(** *** [get_overdue_tasks_by_person] *)

(** One iteration of [overdueTasks.forEach]. *)
Definition personStep (m : JsMap.t PersonOverdue.t) (task : AsanaTask.t)
  : JsMap.t PersonOverdue.t :=
  let gid := assigneeGid task in
  let m1 :=
    if negb (JsMap.has gid m)
    then JsMap.add gid (PersonOverdue.mk (assigneeName task) gid 0 []) m
    else m in
  JsMap.update gid
    (fun personData =>
       PersonOverdue.mk
         (PersonOverdue.user personData)
         (PersonOverdue.userGid personData)
         (PersonOverdue.overdueCount personData + 1)
         (PersonOverdue.tasks personData ++
          [JObj [("name", JStr (AsanaTask.name task));
                 ("gid", JStr (AsanaTask.gid task));
                 ("dueOn", opt_str (AsanaTask.due_on task));
                 ("project", JStr (projectLabel task))]])%list)
    m1.

Definition overdueByPerson (todayStr : string) (tasks : list AsanaTask.t)
  : JsMap.t PersonOverdue.t :=
  fold_left personStep (filter (isOverdue todayStr) tasks) [].

(** The comparator [(a, b) => b.overdueCount - a.overdueCount]. *)
Definition byOverdueDesc (a b : PersonOverdue.t) : Z :=
  PersonOverdue.overdueCount b - PersonOverdue.overdueCount a.

Definition overdueResultArray (todayStr : string) (tasks : list AsanaTask.t)
  : list PersonOverdue.t :=
  Js.sort byOverdueDesc (JsMap.values (overdueByPerson todayStr tasks)).

Definition renderPerson (p : PersonOverdue.t) : Json :=
  JObj [("user", JStr (PersonOverdue.user p));
        ("userGid", JStr (PersonOverdue.userGid p));
        ("overdueCount", JNum (PersonOverdue.overdueCount p));
        ("tasks", JArr (PersonOverdue.tasks p))].

Definition getOverdueTasksByPerson (today : Today.t) : result Json :=
  try_catch
    (let todayStr := Today.dateStr today in
     tasks <- getTasks client TaskParams.empty ;;
     let overdue := filter (isOverdue todayStr) tasks in
     if count_of overdue =? 0 then
       Ok (JObj [("message", JStr "No overdue tasks found.");
                 ("totalOverdue", JNum 0);
                 ("byPerson", JArr [])])
     else
       let resultArray := overdueResultArray todayStr tasks in
       Ok (JObj [("message",
                  JStr (Js.show (count_of overdue) ++ " overdue task(s) across "
                        ++ Js.show (count_of resultArray) ++ " team member(s)."));
                 ("totalOverdue", JNum (count_of overdue));
                 ("byPerson", JArr (map renderPerson resultArray))]))
    (fun error =>
       JObj [("error", JStr ("Failed to fetch overdue tasks: " ++ show_error error));
             ("totalOverdue", JNum 0);
             ("byPerson", JArr [])]).

(** *** [get_section_with_most_work] *)

(** The [for (const section of sections)] loop. *)
Fixpoint sectionWorkload (sections : list AsanaSection.t)
  : result (list SectionWork.t) :=
  match sections with
  | [] => Ok []
  | section :: rest =>
      tasks <- getSectionTasks client (AsanaSection.gid section) ;;
      let incompleteTasks :=
        filter (fun t => negb (AsanaTask.completed t)) tasks in
      let entry :=
        SectionWork.mk (AsanaSection.name section) (AsanaSection.gid section)
                       (count_of tasks) (count_of incompleteTasks)
                       (count_of tasks - count_of incompleteTasks) in
      more <- sectionWorkload rest ;;
      Ok (entry :: more)
  end.

(** The comparator [(a, b) => b.incompleteTasks - a.incompleteTasks]. *)
Definition byWorkDesc (a b : SectionWork.t) : Z :=
  SectionWork.incompleteTasks b - SectionWork.incompleteTasks a.

Definition renderWork (w : SectionWork.t) : Json :=
  JObj [("sectionName", JStr (SectionWork.sectionName w));
        ("sectionGid", JStr (SectionWork.sectionGid w));
        ("totalTasks", JNum (SectionWork.totalTasks w));
        ("incompleteTasks", JNum (SectionWork.incompleteTasks w));
        ("completedTasks", JNum (SectionWork.completedTasks w))].

Definition getSectionWithMostWork (projectName : string) : result Json :=
  try_catch
    (found <- findProjectByName projectName ;;
     match found with
     | None =>
         Ok (JObj [("error",
                    JStr ("Project " ++ Js.dquote ++ projectName ++ Js.dquote
                          ++ " not found."))])
     | Some project =>
         sections <- getProjectSections client (AsanaProject.gid project) ;;
         if count_of sections =? 0 then
           Ok (JObj [("message",
                      JStr ("Project " ++ Js.dquote ++ AsanaProject.name project
                            ++ Js.dquote ++ " has no sections."))])
         else
           workload <- sectionWorkload sections ;;
           match Js.sort byWorkDesc workload with
           | (busiestSection :: _) as sorted =>
               Ok (JObj [("message",
                          JStr ("Section " ++ Js.dquote
                                ++ SectionWork.sectionName busiestSection
                                ++ Js.dquote ++ " has the most work with "
                                ++ Js.show (SectionWork.incompleteTasks busiestSection)
                                ++ " incomplete task(s)."));
                         ("projectName", JStr (AsanaProject.name project));
                         ("busiestSection",
                          JStr (SectionWork.sectionName busiestSection));
                         ("incompleteTasks",
                          JNum (SectionWork.incompleteTasks busiestSection));
                         ("allSections", JArr (map renderWork sorted))])
           | [] =>
               (* [sectionWorkload[0]] is [undefined], reading its
                  [sectionName] throws a [TypeError] and the [catch] below
                  renders it; not reached, the array has one element per
                  section *)
               Ok (JObj [("error",
                          JStr ("Failed to analyze section workload: "
                                ++ "TypeError: Cannot read properties of undefined "
                                ++ "(reading 'sectionName')"))])
           end
     end)
    (fun error =>
       JObj [("error", JStr ("Failed to analyze section workload: " ++ show_error error))]).

(** *** [list_all_projects] *)

Definition listProject (p : AsanaProject.t) : Json :=
  JObj [("name", JStr (AsanaProject.name p));
        ("gid", JStr (AsanaProject.gid p))].

Definition listAllProjects : result Json :=
  try_catch
    (projects <- getWorkspaceProjects client ;;
     if count_of projects =? 0 then
       Ok (JObj [("message", JStr "No projects found in the workspace.");
                 ("count", JNum 0);
                 ("projects", JArr [])])
     else
       Ok (JObj [("message",
                  JStr ("Found " ++ Js.show (count_of projects)
                        ++ " project(s) in the workspace."));
                 ("count", JNum (count_of projects));
                 ("projects", JArr (map listProject projects))]))
    (fun error =>
       JObj [("error", JStr ("Failed to list projects: " ++ show_error error));
             ("count", JNum 0);
             ("projects", JArr [])]).

(** *** [get_recent_due_date_changes]

    [days] enters through two readings only: [cutoffStr], the ISO string of
    the date [days] days before now, and [daysText], its rendering in a
    template literal. *)

(** The predicate handed to [stories.filter]. *)
Definition isRecentDueDateChange (cutoffStr : string) (story : AsanaStory.t) : bool :=
  if Js.str_lt (AsanaStory.created_at story) cutoffStr then false
  else isDueDateChange story.

(** The body of the [for] loop: what one task pushes onto [recentChanges].
    The inner [catch] only logs. *)
Definition recentEntry (cutoffStr : string) (task : AsanaTask.t)
  : list RecentChange.t :=
  match getTaskStories client (AsanaTask.gid task) with
  | Ok stories =>
      match filter (isRecentDueDateChange cutoffStr) stories with
      | latestChange :: _ =>
          [RecentChange.mk
             (AsanaTask.name task)
             (AsanaTask.gid task)
             (assigneeName task)
             (projectLabel task)
             (Js.or_else (AsanaStory.old_due_on latestChange) "No due date")
             (Js.or_else (AsanaStory.new_due_on latestChange) "Removed")
             (AsanaUser.name (AsanaStory.created_by latestChange))
             (AsanaStory.created_at latestChange)]
      | [] => []
      end
  | Err _ => []
  end.

Definition recentChanges (cutoffStr : string) (tasks : list AsanaTask.t)
  : list RecentChange.t :=
  fold_left (fun acc task => (acc ++ recentEntry cutoffStr task)%list) tasks [].

(** The comparator
    [(a, b) => new Date(b.changedAt).getTime() - new Date(a.changedAt).getTime()];
    [sort] reads a [NaN] difference as 0. *)
Definition byChangedAtDesc (a b : RecentChange.t) : Z :=
  match parseTime (RecentChange.changedAt b), parseTime (RecentChange.changedAt a) with
  | Some tb, Some ta => tb - ta
  | _, _ => 0
  end.

(** [recentChanges.sort(comparator)] as the engine performs it.  With a
    [changedAt] that does not parse the comparator above is not consistent,
    and the order of the result is then left to the engine; so this sort is
    a host function, which the statements below constrain. *)
Variable sortRecent :
  (RecentChange.t -> RecentChange.t -> Z) -> list RecentChange.t -> list RecentChange.t.

Definition renderRecent (c : RecentChange.t) : Json :=
  JObj [("taskName", JStr (RecentChange.taskName c));
        ("taskGid", JStr (RecentChange.taskGid c));
        ("assignee", JStr (RecentChange.assignee c));
        ("project", JStr (RecentChange.project c));
        ("oldDueDate", JStr (RecentChange.oldDueDate c));
        ("newDueDate", JStr (RecentChange.newDueDate c));
        ("changedBy", JStr (RecentChange.changedBy c));
        ("changedAt", JStr (RecentChange.changedAt c))].

Definition getRecentDueDateChanges (cutoffStr daysText : string) : result Json :=
  try_catch
    (tasks <- getTasks client (TaskParams.mk None None None None (Some cutoffStr)) ;;
     if count_of tasks =? 0 then
       Ok (JObj [("message",
                  JStr ("No tasks were modified in the last " ++ daysText ++ " day(s)."));
                 ("tasks", JArr [])])
     else
       let changes := recentChanges cutoffStr tasks in
       if count_of changes =? 0 then
         Ok (JObj [("message",
                    JStr ("No due date changes found in the last " ++ daysText
                          ++ " day(s)."));
                   ("tasks", JArr [])])
       else
         Ok (JObj [("message",
                    JStr ("Found " ++ Js.show (count_of changes)
                          ++ " task(s) with due date changes in the last "
                          ++ daysText ++ " day(s)."));
                   ("count", JNum (count_of changes));
                   ("tasks",
                    JArr (map renderRecent (sortRecent byChangedAtDesc changes)))]))
    (fun error =>
       JObj [("error",
              JStr ("Failed to fetch recent due date changes: " ++ show_error error));
             ("tasks", JArr [])]).

(** *** [get_weekly_planned_tasks]

    [weekStartStr] and [weekEndStr] are what
    [format(startOfWeek(today, { weekStartsOn: 1 }), 'yyyy-MM-dd')] and
    [format(endOfWeek(today, { weekStartsOn: 1 }), 'yyyy-MM-dd')] read off
    the clock. *)

Definition inWeek (weekStartStr weekEndStr : string) (task : AsanaTask.t) : bool :=
  match AsanaTask.due_on task with
  | Some dueDate =>
      Js.truthy (Some dueDate)
      && (Js.str_ge dueDate weekStartStr && String.leb dueDate weekEndStr)
  | None => false
  end.

Definition weeklyTasks (weekStartStr weekEndStr : string) (excludeCompleted : bool)
  (tasks : list AsanaTask.t) : list AsanaTask.t :=
  dropCompleted excludeCompleted (filter (inWeek weekStartStr weekEndStr) tasks).

(** [task.due_on!] as a property key; the filter above leaves no task
    without a due date. *)
Definition dayOf (task : AsanaTask.t) : string :=
  match AsanaTask.due_on task with
  | Some day => day
  | None => "undefined"
  end.

Definition dayEntry (task : AsanaTask.t) : Json :=
  JObj [("name", JStr (AsanaTask.name task));
        ("gid", JStr (AsanaTask.gid task));
        ("completed", JBool (AsanaTask.completed task));
        ("assignee", JStr (assigneeName task));
        ("project", JStr (projectLabel task));
        ("section", JStr (sectionLabel task))].

(** One iteration of [weeklyTasks.forEach]; [None] when
    [tasksByDay[day].push] is not a function, which throws a [TypeError]
    and ends the loop. *)
Definition groupStep (tasksByDay : option (JsObject.t (list Json)))
  (task : AsanaTask.t) : option (JsObject.t (list Json)) :=
  match tasksByDay with
  | None => None
  | Some o =>
      let day := dayOf task in
      let o1 :=
        if negb (JsMap.has day o || JsObject.is_inherited day)
        then JsMap.add day [] o
        else o in
      if JsMap.has day o1
      then Some (JsMap.update day (fun arr => (arr ++ [dayEntry task])%list) o1)
      else None
  end.

Definition groupByDay (weekly : list AsanaTask.t) : option (JsObject.t (list Json)) :=
  fold_left groupStep weekly (Some []).

Definition renderDays (tasksByDay : JsObject.t (list Json)) : Json :=
  JObj (map (fun e => (fst e, JArr (snd e))) (JsObject.entries tasksByDay)).

Definition weeklyFailure (text : string) : Json :=
  JObj [("error", JStr ("Failed to fetch weekly tasks: " ++ text));
        ("count", JNum 0);
        ("tasks", JArr [])].

Definition getWeeklyPlannedTasks (weekStartStr weekEndStr : string)
  (assignee : option string) (excludeCompleted : bool) : result Json :=
  match getTasks client (TaskParams.mk None None assignee None None) with
  | Err e => Ok (weeklyFailure (show_error e))
  | Ok tasks =>
      let weekly := weeklyTasks weekStartStr weekEndStr excludeCompleted tasks in
      if count_of weekly =? 0 then
        Ok (JObj [("message", JStr "No tasks planned for this week.");
                  ("count", JNum 0);
                  ("tasks", JArr []);
                  ("weekStart", JStr weekStartStr);
                  ("weekEnd", JStr weekEndStr)])
      else
        match groupByDay weekly with
        | Some tasksByDay =>
            Ok (JObj [("message",
                       JStr (Js.show (count_of weekly)
                             ++ " task(s) planned for this week."));
                      ("count", JNum (count_of weekly));
                      ("weekStart", JStr weekStartStr);
                      ("weekEnd", JStr weekEndStr);
                      ("tasksByDay", renderDays tasksByDay)])
        | None =>
            Ok (weeklyFailure "TypeError: tasksByDay[day].push is not a function")
        end
  end.

(** ** Dispatch *)

(** [tool.execute(params)] for the tools built on the API client. *)
Definition execute (call : ToolCall) : result Json :=
  match call with
  | CallCompletedToday today assignee => getTasksCompletedToday today assignee
  | CallOverdue today assignee => getOverdueTasks today assignee
  | CallTeamWorkload today includeCompleted => getTeamWorkload today includeCompleted
  | CallDueDateChanges taskGid => getTaskDueDateChanges taskGid
  | CallMostPostponed limit => getMostPostponedTasks limit
  | CallProjectStatus projectName => getProjectStatus projectName
  | CallUpdatedToday today assignee includeCompleted =>
      getTasksUpdatedToday today assignee includeCompleted
  | CallDueToday today assignee excludeCompleted =>
      getTasksDueToday today assignee excludeCompleted
  | CallWeeklyPlanned weekStartStr weekEndStr assignee excludeCompleted =>
      getWeeklyPlannedTasks weekStartStr weekEndStr assignee excludeCompleted
  | CallOverdueByPerson today => getOverdueTasksByPerson today
  | CallSectionWithMostWork projectName => getSectionWithMostWork projectName
  | CallListAllProjects => listAllProjects
  | CallRecentDueDateChanges cutoffStr daysText =>
      getRecentDueDateChanges cutoffStr daysText
  | CallUnassigned excludeCompleted => getUnassignedTasks excludeCompleted
  | CallWithoutDueDates excludeCompleted assignee =>
      getTasksWithoutDueDates excludeCompleted assignee
  | CallSearchTasksByName searchQuery excludeCompleted =>
      searchTasksByName searchQuery excludeCompleted
  | CallWorkspaceUsers => getWorkspaceUsers_tool
  | CallMe => getMe_tool
  | CallSearchUsers query => searchUsers_tool query
  | CallTasksAssignedTo nowISO assignee excludeCompleted limit =>
      getTasksAssignedTo nowISO assignee excludeCompleted limit
  end.

(** ** The calendar: [SupabaseClient] and the tools of [src/tools/calendar.ts]

    [supabase] is what the database answers; the three date renderings are
    [new Date(s).toLocaleString()],
    [new Date(s).toLocaleTimeString([], { hour: '2-digit', minute: '2-digit' })]
    and [new Date(s).toLocaleDateString()]. *)

Variable supabase : SupabaseQueries.
Variable toLocaleString : string -> string.
Variable toLocaleTimeString : string -> string.
Variable toLocaleDateString : string -> string.

Definition getNextMeeting : result (option CalendarEvent.t) :=
  let response := nextMeetingRow supabase in
  match PostgrestResponse.error response with
  | Some error =>
      if (PostgrestError.code error =? "PGRST116")%string then Ok None
      else Err ("Failed to fetch next meeting: " ++ PostgrestError.message error)
  | None => Ok (PostgrestResponse.data response)
  end.

(** [(data || []) as CalendarEvent[]] *)
Definition rows (data : option (list CalendarEvent.t)) : list CalendarEvent.t :=
  match data with
  | Some events => events
  | None => []
  end.

Definition getMeetingsForDate : result (list CalendarEvent.t) :=
  let response := meetingsOfDate supabase in
  match PostgrestResponse.error response with
  | Some error => Err ("Failed to fetch meetings: " ++ PostgrestError.message error)
  | None => Ok (rows (PostgrestResponse.data response))
  end.

Definition searchMeetings (query : string) (limit : Z)
  : result (list CalendarEvent.t) :=
  let response := meetingsLike supabase query limit in
  match PostgrestResponse.error response with
  | Some error => Err ("Failed to search meetings: " ++ PostgrestError.message error)
  | None => Ok (rows (PostgrestResponse.data response))
  end.

Definition findUserByName (name : string) : result (option UserRow.t) :=
  let response := userLike supabase name in
  match PostgrestResponse.error response with
  | Some error =>
      if (PostgrestError.code error =? "PGRST116")%string then Ok None
      else Ok None
  | None => Ok (PostgrestResponse.data response)
  end.

Definition getMeetingsForUser (userId : string) : result (list CalendarEvent.t) :=
  let response := meetingsAttendedBy supabase userId in
  match PostgrestResponse.error response with
  | Some error =>
      Err ("Failed to fetch meetings for user: " ++ PostgrestError.message error)
  | None => Ok (rows (PostgrestResponse.data response))
  end.

(** *** [get_next_meeting] *)

Definition getNextMeeting_tool : result Json :=
  meeting <- getNextMeeting ;;
  match meeting with
  | None => Ok (JStr "You have no upcoming meetings found.")
  | Some meeting =>
      Ok (JObj [("summary", JStr (CalendarEvent.summary meeting));
                ("startTime", JStr (toLocaleString (CalendarEvent.start_time meeting)));
                ("endTime", JStr (toLocaleString (CalendarEvent.end_time meeting)));
                ("link", JStr (Js.or_else (CalendarEvent.meeting_link meeting) "No link"));
                ("description", JStr (Js.or_else (CalendarEvent.description meeting) ""));
                ("attendees",
                 JNum (match CalendarEvent.attendees meeting with
                       | Some attendees => count_of attendees
                       | None => 0
                       end))])
  end.

(** *** [get_todays_meetings] *)

Definition renderToday (m : CalendarEvent.t) : Json :=
  JObj [("summary", JStr (CalendarEvent.summary m));
        ("startTime", JStr (toLocaleTimeString (CalendarEvent.start_time m)));
        ("endTime", JStr (toLocaleTimeString (CalendarEvent.end_time m)));
        ("link", JStr (Js.or_else (CalendarEvent.meeting_link m) "No link"))].

Definition getTodaysMeetings : result Json :=
  meetings <- getMeetingsForDate ;;
  if count_of meetings =? 0
  then Ok (JStr "You have no meetings scheduled for today.")
  else Ok (JArr (map renderToday meetings)).

(** *** [search_meetings] *)

(** [m.description ? m.description.substring(0, 100) + '...' : ''] *)
Definition preview (description : option string) : string :=
  match description with
  | Some d => if Js.truthy description then String.substring 0 100 d ++ "..." else ""
  | None => ""
  end.

Definition renderFound (m : CalendarEvent.t) : Json :=
  JObj [("summary", JStr (CalendarEvent.summary m));
        ("date", JStr (toLocaleDateString (CalendarEvent.start_time m)));
        ("startTime", JStr (toLocaleTimeString (CalendarEvent.start_time m)));
        ("description", JStr (preview (CalendarEvent.description m)))].

(** The tool leaves [limit] to its default, 5. *)
Definition searchMeetings_tool (query : string) : result Json :=
  meetings <- searchMeetings query 5 ;;
  if count_of meetings =? 0
  then Ok (JStr ("No meetings found matching " ++ Js.dquote ++ query ++ Js.dquote ++ "."))
  else Ok (JArr (map renderFound meetings)).

(** *** [get_meetings_for_attendee] *)

Definition getMeetingsForAttendee (name : string) : result Json :=
  user <- findUserByName name ;;
  match user with
  | None =>
      Ok (JStr ("Could not find any user with name matching "
                ++ Js.dquote ++ name ++ Js.dquote ++ "."))
  | Some user =>
      meetings <- getMeetingsForUser (UserRow.id user) ;;
      if count_of meetings =? 0
      then Ok (JStr ("No recent meetings found for " ++ UserRow.display_name user ++ "."))
      else
        Ok (JObj [("message",
                   JStr ("Found " ++ Js.show (count_of meetings) ++ " meeting(s) for "
                         ++ UserRow.display_name user ++ "."));
                  ("meetings", JArr (map renderFound meetings))])
  end.

(** ** Vocabulary of the statements *)

(** [raises call e]: during [call], a client method awaited outside any
    inner [try] throws the error [e].  (The change-history fetches of
    [get_most_postponed_tasks] and [get_recent_due_date_changes] sit in an
    inner [try] and are not listed.) *)
Inductive raises : ToolCall -> string -> Prop :=
| raises_completed today assignee e :
    getTasks client
      (TaskParams.mk None None assignee (Some (Today.startISO today)) None) = Err e ->
    raises (CallCompletedToday today assignee) e
| raises_overdue today assignee e :
    getTasks client (TaskParams.mk None None assignee None None) = Err e ->
    raises (CallOverdue today assignee) e
| raises_workload today includeCompleted e :
    getTasks client TaskParams.empty = Err e ->
    raises (CallTeamWorkload today includeCompleted) e
| raises_changes_task taskGid e :
    getTask client taskGid = Err e ->
    raises (CallDueDateChanges taskGid) e
| raises_changes_stories taskGid task e :
    getTask client taskGid = Ok task ->
    getTaskStories client taskGid = Err e ->
    raises (CallDueDateChanges taskGid) e
| raises_postponed limit e :
    getTasks client TaskParams.empty = Err e ->
    raises (CallMostPostponed limit) e
| raises_projects projectName e :
    getWorkspaceProjects client = Err e ->
    raises (CallProjectStatus projectName) e
| raises_sections projectName project e :
    findProjectByName projectName = Ok (Some project) ->
    getProjectSections client (AsanaProject.gid project) = Err e ->
    raises (CallProjectStatus projectName) e
| raises_section_tasks projectName project sections before section after e :
    findProjectByName projectName = Ok (Some project) ->
    getProjectSections client (AsanaProject.gid project) = Ok sections ->
    sections = (before ++ section :: after)%list ->
    (forall s, In s before ->
               exists tasks, getSectionTasks client (AsanaSection.gid s) = Ok tasks) ->
    getSectionTasks client (AsanaSection.gid section) = Err e ->
    raises (CallProjectStatus projectName) e
| raises_updated today assignee includeCompleted e :
    getTasks client
      (TaskParams.mk None None assignee None (Some (Today.startISO today))) = Err e ->
    raises (CallUpdatedToday today assignee includeCompleted) e
| raises_due_today today assignee excludeCompleted e :
    getTasks client (TaskParams.mk None None assignee None None) = Err e ->
    raises (CallDueToday today assignee excludeCompleted) e
| raises_weekly weekStartStr weekEndStr assignee excludeCompleted e :
    getTasks client (TaskParams.mk None None assignee None None) = Err e ->
    raises (CallWeeklyPlanned weekStartStr weekEndStr assignee excludeCompleted) e
| raises_by_person today e :
    getTasks client TaskParams.empty = Err e ->
    raises (CallOverdueByPerson today) e
| raises_work_projects projectName e :
    getWorkspaceProjects client = Err e ->
    raises (CallSectionWithMostWork projectName) e
| raises_work_sections projectName project e :
    findProjectByName projectName = Ok (Some project) ->
    getProjectSections client (AsanaProject.gid project) = Err e ->
    raises (CallSectionWithMostWork projectName) e
| raises_work_section_tasks projectName project sections before section after e :
    findProjectByName projectName = Ok (Some project) ->
    getProjectSections client (AsanaProject.gid project) = Ok sections ->
    sections = (before ++ section :: after)%list ->
    (forall s, In s before ->
               exists tasks, getSectionTasks client (AsanaSection.gid s) = Ok tasks) ->
    getSectionTasks client (AsanaSection.gid section) = Err e ->
    raises (CallSectionWithMostWork projectName) e
| raises_list_projects e :
    getWorkspaceProjects client = Err e ->
    raises CallListAllProjects e
| raises_recent cutoffStr daysText e :
    getTasks client (TaskParams.mk None None None None (Some cutoffStr)) = Err e ->
    raises (CallRecentDueDateChanges cutoffStr daysText) e
| raises_unassigned excludeCompleted e :
    getTasks client TaskParams.empty = Err e ->
    raises (CallUnassigned excludeCompleted) e
| raises_undated excludeCompleted assignee e :
    getTasks client (TaskParams.mk None None assignee None None) = Err e ->
    raises (CallWithoutDueDates excludeCompleted assignee) e
| raises_search_tasks searchQuery excludeCompleted e :
    getTasks client TaskParams.empty = Err e ->
    raises (CallSearchTasksByName searchQuery excludeCompleted) e
| raises_users e :
    getWorkspaceUsers users = Err e ->
    raises CallWorkspaceUsers e
| raises_me e :
    getMe users = Err e ->
    raises CallMe e
| raises_search_users query e :
    getWorkspaceUsers users = Err e ->
    raises (CallSearchUsers query) e
| raises_assigned nowISO assignee (excludeCompleted : bool) limit e :
    getTasks client
      (TaskParams.mk None None (Some assignee)
                     (if excludeCompleted then Some nowISO else None) None) = Err e ->
    raises (CallTasksAssignedTo nowISO assignee excludeCompleted limit) e.

(** The text each tool puts before the error in its failure result. *)
Definition failure_prefix (call : ToolCall) : string :=
  match call with
  | CallCompletedToday _ _ => "Failed to fetch completed tasks: "
  | CallOverdue _ _ => "Failed to fetch overdue tasks: "
  | CallTeamWorkload _ _ => "Failed to analyze team workload: "
  | CallDueDateChanges _ => "Failed to fetch due date changes: "
  | CallMostPostponed _ => "Failed to analyze postponed tasks: "
  | CallProjectStatus _ => "Failed to analyze project status: "
  | CallUpdatedToday _ _ _ => "Failed to fetch updated tasks: "
  | CallDueToday _ _ _ => "Failed to fetch tasks due today: "
  | CallWeeklyPlanned _ _ _ _ => "Failed to fetch weekly tasks: "
  | CallOverdueByPerson _ => "Failed to fetch overdue tasks: "
  | CallSectionWithMostWork _ => "Failed to analyze section workload: "
  | CallListAllProjects => "Failed to list projects: "
  | CallRecentDueDateChanges _ _ => "Failed to fetch recent due date changes: "
  | CallUnassigned _ => "Failed to fetch unassigned tasks: "
  | CallWithoutDueDates _ _ => "Failed to fetch tasks without due dates: "
  | CallSearchTasksByName _ _ => "Failed to search tasks: "
  | CallWorkspaceUsers => "Failed to fetch workspace users: "
  | CallMe => "Failed to fetch current user: "
  | CallSearchUsers _ => "Failed to search users: "
  | CallTasksAssignedTo _ assignee _ _ =>
      "Failed to fetch tasks for user " ++ assignee ++ ": "
  end.

(** The zero counts and empty collections that accompany the error. *)
Definition failure_fields (call : ToolCall) : list (string * Json) :=
  match call with
  | CallCompletedToday _ _ => [("count", JNum 0); ("tasks", JArr [])]
  | CallOverdue _ _ => [("count", JNum 0); ("tasks", JArr [])]
  | CallTeamWorkload _ _ => [("teamMembers", JNum 0); ("workload", JArr [])]
  | CallDueDateChanges _ => [("changeCount", JNum 0); ("changes", JArr [])]
  | CallMostPostponed _ => [("tasks", JArr [])]
  | CallProjectStatus _ => []
  | CallUpdatedToday _ _ _ => [("count", JNum 0); ("tasks", JArr [])]
  | CallDueToday _ _ _ => [("count", JNum 0); ("tasks", JArr [])]
  | CallWeeklyPlanned _ _ _ _ => [("count", JNum 0); ("tasks", JArr [])]
  | CallOverdueByPerson _ => [("totalOverdue", JNum 0); ("byPerson", JArr [])]
  | CallSectionWithMostWork _ => []
  | CallListAllProjects => [("count", JNum 0); ("projects", JArr [])]
  | CallRecentDueDateChanges _ _ => [("tasks", JArr [])]
  | CallUnassigned _ => [("count", JNum 0); ("tasks", JArr [])]
  | CallWithoutDueDates _ _ => [("count", JNum 0); ("tasks", JArr [])]
  | CallSearchTasksByName _ _ => [("count", JNum 0); ("tasks", JArr [])]
  | CallWorkspaceUsers => [("count", JNum 0); ("users", JArr [])]
  | CallMe => []
  | CallSearchUsers _ => [("count", JNum 0); ("users", JArr [])]
  | CallTasksAssignedTo _ _ _ _ => [("count", JNum 0); ("tasks", JArr [])]
  end.


(** An event counts as a due-date change when its subtype marks a due-date
    change, or when its old and its new due date are both present and
    differ. *)
Definition counts_as_change (story : AsanaStory.t) : Prop :=
  AsanaStory.resource_subtype story = "due_date_changed" \/
  exists old_ new_,
    AsanaStory.old_due_on story = Some old_ /\
    AsanaStory.new_due_on story = Some new_ /\
    old_ <> "" /\ new_ <> "" /\ new_ <> old_.

(** The order [get_overdue_tasks] sorts by: [a.due_on.localeCompare(b.due_on)]
    is not positive. *)
Definition due_le (a b : AsanaTask.t) : Prop :=
  exists da db,
    AsanaTask.due_on a = Some da /\ AsanaTask.due_on b = Some db /\
    localeCompare da db <= 0.

Definition has_due_date (t : AsanaTask.t) : Prop :=
  exists d, AsanaTask.due_on t = Some d /\ d <> "".

(** [workloadArray.reduce((sum, w) => sum + w.totalTasks, 0)] only depends
    on the multiset of buckets. *)
Definition total_sum (ws : list UserWorkload.t) : Z :=
  fold_right (fun w sum => UserWorkload.totalTasks w + sum) 0 ws.
Arguments total_sum : simpl never.

(** The bucket [workloadMap.set] creates for a task. *)
Definition fresh (task : AsanaTask.t) : UserWorkload.t :=
  UserWorkload.mk (assigneeOrSynthetic task) 0 0 0 0.

Definition total_at (k : string) (m : WorkloadMap) : Z :=
  match map_get k m with
  | Some w => UserWorkload.totalTasks w
  | None => 0
  end.

Definition is_open (t : AsanaTask.t) : bool := negb (AsanaTask.completed t).

Definition keyed (k : string) (t : AsanaTask.t) : bool :=
  (assigneeGid t =? k)%string.

Definition is_unassigned (t : AsanaTask.t) : bool :=
  match AsanaTask.assignee t with
  | Some _ => false
  | None => true
  end.

(** The object substituted for a missing assignee. *)
Definition synthetic_user : AsanaUser.t := AsanaUser.mk "unassigned" "Unassigned" None.

(** No fetched assignee carries the empty gid or the reserved gid
    ["unassigned"] (Asana gids are non-empty digit strings). *)
Definition proper_gids (tasks : list AsanaTask.t) : Prop :=
  forall t u,
    In t tasks -> AsanaTask.assignee t = Some u ->
    AsanaUser.gid u <> "" /\ AsanaUser.gid u <> "unassigned".

(** [sum f ws]: the total of the counter [f] over the buckets. *)
Definition bucket_sum (f : UserWorkload.t -> Z) (ws : list UserWorkload.t) : Z :=
  fold_right (fun w sum => f w + sum) 0 ws.
Arguments bucket_sum : simpl never.

(** How many elements of a list satisfy a test. *)
Definition count_if {A : Type} (p : A -> bool) (l : list A) : Z :=
  count_of (filter p l).

(** An open task whose due date is today or later. *)
Definition isUpcoming (todayStr : string) (task : AsanaTask.t) : bool :=
  negb (AsanaTask.completed task) &&
  and_then (AsanaTask.due_on task) (fun due => negb (Js.str_lt due todayStr)).

(** The total of [overdueCount] over a list of persons. *)
Definition overdue_sum (ps : list PersonOverdue.t) : Z :=
  fold_right (fun p sum => PersonOverdue.overdueCount p + sum) 0 ps.
Arguments overdue_sum : simpl never.

(** What the loop of [get_overdue_tasks_by_person] keeps true of every
    entry: the count is the length of the task list, and it is positive
    once the iteration that created the entry is over. *)
Definition person_ok (p : PersonOverdue.t) : Prop :=
  1 <= PersonOverdue.overdueCount p /\
  PersonOverdue.overdueCount p = count_of (PersonOverdue.tasks p).

(** An invocation of one of the tools that answer with a [count] and a list
    of [tasks]. *)
Inductive ListCall : Type :=
| ListUpdatedToday (today : Today.t) (assignee : option string) (includeCompleted : bool)
| ListDueToday (today : Today.t) (assignee : option string) (excludeCompleted : bool)
| ListUnassigned (excludeCompleted : bool)
| ListWithoutDueDates (excludeCompleted : bool) (assignee : option string)
| ListSearchByName (searchQuery : string) (excludeCompleted : bool)
| ListAssignedTo (nowISO assignee : string) (excludeCompleted : bool) (limit : Z).

Definition list_execute (call : ListCall) : result Json :=
  match call with
  | ListUpdatedToday today assignee includeCompleted =>
      getTasksUpdatedToday today assignee includeCompleted
  | ListDueToday today assignee excludeCompleted =>
      getTasksDueToday today assignee excludeCompleted
  | ListUnassigned excludeCompleted => getUnassignedTasks excludeCompleted
  | ListWithoutDueDates excludeCompleted assignee =>
      getTasksWithoutDueDates excludeCompleted assignee
  | ListSearchByName searchQuery excludeCompleted =>
      searchTasksByName searchQuery excludeCompleted
  | ListAssignedTo nowISO assignee excludeCompleted limit =>
      getTasksAssignedTo nowISO assignee excludeCompleted limit
  end.

(** The filter object each of them hands to [getTasks]. *)
Definition list_fetch (call : ListCall) : TaskParams.t :=
  match call with
  | ListUpdatedToday today assignee _ =>
      TaskParams.mk None None assignee None (Some (Today.startISO today))
  | ListDueToday _ assignee _ => TaskParams.mk None None assignee None None
  | ListUnassigned _ => TaskParams.empty
  | ListWithoutDueDates _ assignee => TaskParams.mk None None assignee None None
  | ListSearchByName _ _ => TaskParams.empty
  | ListAssignedTo nowISO assignee excludeCompleted _ =>
      TaskParams.mk None None (Some assignee)
                    (if excludeCompleted then Some nowISO else None) None
  end.

(** The tasks each of them selects from the fetched ones, and how it
    renders one. *)
Definition list_selected (call : ListCall) (tasks : list AsanaTask.t)
  : list AsanaTask.t :=
  match call with
  | ListUpdatedToday today _ includeCompleted =>
      updatedToday (Today.startISO today) includeCompleted tasks
  | ListDueToday today _ excludeCompleted =>
      dueToday (Today.dateStr today) excludeCompleted tasks
  | ListUnassigned excludeCompleted => unassignedTasks excludeCompleted tasks
  | ListWithoutDueDates excludeCompleted _ =>
      tasksWithoutDueDate excludeCompleted tasks
  | ListSearchByName searchQuery excludeCompleted =>
      matchingTasks searchQuery excludeCompleted tasks
  | ListAssignedTo _ _ excludeCompleted limit =>
      assignedTasks excludeCompleted limit tasks
  end.

Definition list_format (call : ListCall) : AsanaTask.t -> Json :=
  match call with
  | ListUpdatedToday _ _ _ => formatUpdated
  | ListDueToday _ _ _ => formatDue
  | ListUnassigned _ => formatUnassigned
  | ListWithoutDueDates _ _ => formatUndated
  | ListSearchByName _ _ => formatMatch
  | ListAssignedTo _ _ _ _ => formatUnassigned
  end.

(** What the two section reports say about one section: its name and its
    number of incomplete tasks. *)
Definition status_key (s : SectionStatus.t) : string * Z :=
  (AsanaSection.name (SectionStatus.section s),
   SectionStatus.totalTasks s - SectionStatus.completedTasks s).

Definition summary_key (s : SectionSummary.t) : string * Z :=
  (SectionSummary.name s, SectionSummary.incompleteTasks s).

Definition work_key (w : SectionWork.t) : string * Z :=
  (SectionWork.sectionName w, SectionWork.incompleteTasks w).

(** The comparator both reports sort by, on the keys. *)
Definition byKeyDesc (a b : string * Z) : Z := snd b - snd a.

(** A task whose change history could be fetched and holds a due-date
    change that is not older than the cut-off. *)
Definition hasRecentChange (cutoffStr : string) (task : AsanaTask.t) : bool :=
  match getTaskStories client (AsanaTask.gid task) with
  | Ok stories => existsb (isRecentDueDateChange cutoffStr) stories
  | Err _ => false
  end.

(** [new Date(c.changedAt).getTime()] is a number. *)
Definition changedAt_parses (c : RecentChange.t) : Prop :=
  parseTime (RecentChange.changedAt c) <> None.

(** [a] was changed no earlier than [b]. *)
Definition changed_no_earlier (a b : RecentChange.t) : Prop :=
  exists ta tb,
    parseTime (RecentChange.changedAt a) = Some ta /\
    parseTime (RecentChange.changedAt b) = Some tb /\
    tb <= ta.

(** A string that begins with a decimal digit, as every [yyyy-MM-dd] date
    does. *)
Definition starts_with_digit (s : string) : bool :=
  match s with
  | String c _ => JsObject.is_digit c
  | EmptyString => false
  end.

(** What [tasksByDay] should hold under [day]: the entries of the selected
    tasks due that day, in the order they were fetched. *)
Definition dayGroup (day : string) (weekly : list AsanaTask.t) : list Json :=
  map dayEntry (filter (fun task => (dayOf task =? day)%string) weekly).

(** An array pushed onto an entry that may not exist yet. *)
Definition merge (old : option (list Json)) (pushed : list Json)
  : option (list Json) :=
  match old, pushed with
  | Some arr, _ => Some (arr ++ pushed)%list
  | None, [] => None
  | None, _ => Some pushed
  end.

(** An invocation of one of the calendar tools. *)
Inductive CalendarCall : Type :=
| CallNextMeeting
| CallTodaysMeetings
| CallSearchMeetings (query : string)
| CallMeetingsForAttendee (name : string).

Definition calendar_execute (call : CalendarCall) : result Json :=
  match call with
  | CallNextMeeting => getNextMeeting_tool
  | CallTodaysMeetings => getTodaysMeetings
  | CallSearchMeetings query => searchMeetings_tool query
  | CallMeetingsForAttendee name => getMeetingsForAttendee name
  end.

(** [client_throws call e]: a [SupabaseClient] method that [call] awaits
    throws the error [e].  The user lookup never throws; the meetings of
    the attendee are queried only once a user was found. *)
Definition client_throws (call : CalendarCall) (e : string) : Prop :=
  match call with
  | CallNextMeeting => getNextMeeting = Err e
  | CallTodaysMeetings => getMeetingsForDate = Err e
  | CallSearchMeetings query => searchMeetings query 5 = Err e
  | CallMeetingsForAttendee name =>
      exists user,
        findUserByName name = Ok (Some user) /\
        getMeetingsForUser (UserRow.id user) = Err e
  end.

(** The answer of [get_meetings_for_attendee] when no user matches. *)
Definition no_such_user (name : string) : Json :=
  JStr ("Could not find any user with name matching "
        ++ Js.dquote ++ name ++ Js.dquote ++ ".").

(** * Properties *)

Set Default Proof Using "Type".

(** ** Sorting and slicing *)

Section SortFacts.
Context {A : Type} (cmp : A -> A -> Z).

Lemma insert_perm (x : A) (l : list A) :
  Permutation (Js.insert cmp x l) (x :: l).
Proof.
  induction l as [| y l IH]; cbn.
  - apply Permutation_refl.
  - destruct (cmp x y <=? 0).
    + apply Permutation_refl.
    + eapply Permutation_trans; [apply perm_skip, IH | apply perm_swap].
Qed.

Lemma sort_perm (l : list A) : Permutation (Js.sort cmp l) l.
Proof.
  induction l as [| x l IH]; cbn.
  - constructor.
  - eapply Permutation_trans; [apply insert_perm | apply perm_skip, IH].
Qed.

Lemma In_sort (x : A) (l : list A) : In x (Js.sort cmp l) <-> In x l.
Proof.
  split; apply Permutation_in;
    [apply sort_perm | apply Permutation_sym, sort_perm].
Qed.

Lemma length_sort (l : list A) : List.length (Js.sort cmp l) = List.length l.
Proof. apply Permutation_length, sort_perm. Qed.

Lemma Forall_sort (P : A -> Prop) (l : list A) :
  Forall P l -> Forall P (Js.sort cmp l).
Proof.
  intros H. eapply Permutation_Forall; [apply Permutation_sym, sort_perm | exact H].
Qed.

(** The comparator only has to be consistent on the elements sorted. *)
Variable P : A -> Prop.
Hypothesis cmp_total :
  forall a b, P a -> P b -> cmp a b <= 0 \/ cmp b a <= 0.
Hypothesis cmp_trans :
  forall a b c, P a -> P b -> P c -> cmp a b <= 0 -> cmp b c <= 0 -> cmp a c <= 0.

Lemma insert_sorted (x : A) (l : list A) :
  P x -> Forall P l ->
  StronglySorted (fun a b => cmp a b <= 0) l ->
  StronglySorted (fun a b => cmp a b <= 0) (Js.insert cmp x l).
Proof using cmp_trans cmp_total.
  intros Px Pl Hs. induction Hs as [| y l Hs IH Hy]; cbn.
  - repeat constructor.
  - inversion Pl as [| ? ? Py Pl']; subst.
    destruct (Z.leb_spec (cmp x y) 0) as [Hxy | Hxy].
    + constructor; [constructor; assumption |].
      constructor; [exact Hxy |].
      rewrite Forall_forall in Hy, Pl'. apply Forall_forall. intros z Hz.
      apply (cmp_trans x y z); auto.
    + constructor; [apply IH; assumption |].
      eapply Permutation_Forall; [apply Permutation_sym, insert_perm |].
      constructor; [| exact Hy].
      destruct (cmp_total x y Px Py); [lia | assumption].
Qed.

Lemma sort_sorted (l : list A) :
  Forall P l -> StronglySorted (fun a b => cmp a b <= 0) (Js.sort cmp l).
Proof using cmp_trans cmp_total.
  induction 1 as [| x l Px Pl IH]; cbn.
  - constructor.
  - apply insert_sorted; [exact Px | apply Forall_sort; exact Pl | exact IH].
Qed.

End SortFacts.

Lemma StronglySorted_weaken {A : Type} (R R' : A -> A -> Prop) (P : A -> Prop)
  (l : list A) :
  (forall a b, P a -> P b -> R a b -> R' a b) ->
  Forall P l -> StronglySorted R l -> StronglySorted R' l.
Proof.
  intros HRR' HP Hs. induction Hs as [| x l Hs IH Hx]; constructor.
  - inversion HP; subst. apply IH. assumption.
  - inversion HP as [| ? ? Px Pl]; subst.
    rewrite Forall_forall in *. intros y Hy. apply HRR'; auto.
Qed.

Lemma In_firstn {A : Type} (n : nat) (l : list A) (x : A) :
  In x (firstn n l) -> In x l.
Proof.
  revert l; induction n as [| n IH]; intros [| y l]; cbn; try tauto.
  intros [-> | Hx]; [left; reflexivity | right; apply IH, Hx].
Qed.



(** ** Daily status and overdue tasks *)

Lemma count_of_zero {A : Type} (l : list A) : count_of l = 0 -> l = [].
Proof. destruct l; [reflexivity | unfold count_of; cbn; lia]. Qed.

Lemma leb_empty (s : string) : String.leb s "" = true -> s = "".
Proof. destruct s; [reflexivity | discriminate]. Qed.

Lemma and_then_true (o : option string) (p : string -> bool) :
  and_then o p = true <-> exists s, o = Some s /\ s <> "" /\ p s = true.
Proof.
  unfold and_then, Js.truthy. destruct o as [s |].
  - rewrite andb_true_iff, negb_true_iff, String.eqb_neq. split.
    + intros [Hs Hp]. exists s. auto.
    + intros (s' & [= <-] & Hs & Hp). auto.
  - split; [discriminate | intros (s & [=] & _)].
Qed.

(** C5. Whatever the fetch with the [completed_since] pre-filter returns,
    [get_tasks_completed_today] reports exactly the fetched tasks whose
    [completed] flag is true and whose [completed_at] is at or after the
    start of the local day (both ISO timestamps, compared as strings), the
    test being made again on each fetched task. *)
Theorem getTasksCompletedToday_rechecks_locally :
  forall (today : Today.t) (assignee : option string) (tasks : list AsanaTask.t),
    Today.startISO today <> "" ->
    getTasks client
      (TaskParams.mk None None assignee (Some (Today.startISO today)) None)
      = Ok tasks ->
    let selected := completedToday (Today.startISO today) tasks in
    (exists obj,
        getTasksCompletedToday today assignee = Ok obj /\
        field "error" obj = None /\
        field "count" obj = Some (JNum (count_of selected)) /\
        field "tasks" obj = Some (JArr (map formatCompleted selected))) /\
    (forall t,
        In t selected <->
        In t tasks /\
        AsanaTask.completed t = true /\
        exists at_, AsanaTask.completed_at t = Some at_ /\
                    String.leb (Today.startISO today) at_ = true).
Proof.
  intros today assignee tasks Hstart Hfetch selected. split.
  - unfold getTasksCompletedToday. rewrite Hfetch. cbn [bind try_catch].
    fold selected. destruct (count_of selected =? 0) eqn:Hn.
    + apply Z.eqb_eq in Hn. rewrite (count_of_zero _ Hn).
      eexists. split; [reflexivity |]. repeat split.
    + eexists. split; [reflexivity |]. repeat split.
  - intros t. unfold selected, completedToday.
    rewrite filter_In, andb_true_iff, and_then_true. unfold Js.str_ge.
    split.
    + intros (Hin & Hc & at_ & Hat & _ & Hge). eauto.
    + intros (Hin & Hc & at_ & Hat & Hge). repeat split; auto.
      exists at_. repeat split; auto.
      intros ->. apply leb_empty in Hge. contradiction.
Qed.

Lemma isOverdue_true (todayStr : string) (t : AsanaTask.t) :
  isOverdue todayStr t = true <->
  AsanaTask.completed t = false /\
  exists d, AsanaTask.due_on t = Some d /\ d <> "" /\ String.ltb d todayStr = true.
Proof.
  unfold isOverdue. rewrite andb_true_iff, negb_true_iff, and_then_true.
  reflexivity.
Qed.

Lemma byDueOn_dated (a b : AsanaTask.t) :
  has_due_date a -> has_due_date b ->
  exists da db,
    AsanaTask.due_on a = Some da /\ AsanaTask.due_on b = Some db /\
    byDueOn a b = localeCompare da db.
Proof.
  intros (da & Ha & Hda) (db & Hb & Hdb). exists da, db.
  unfold byDueOn, Js.truthy. rewrite Ha, Hb.
  apply String.eqb_neq in Hda, Hdb. rewrite Hda, Hdb. auto.
Qed.

Section Collation.

(** [localeCompare] is a consistent comparator: a total preorder. *)
Hypothesis localeCompare_total :
  forall a b, localeCompare a b <= 0 \/ localeCompare b a <= 0.
Hypothesis localeCompare_trans :
  forall a b c,
    localeCompare a b <= 0 -> localeCompare b c <= 0 -> localeCompare a c <= 0.

Lemma overdueTasks_sorted (todayStr : string) (tasks : list AsanaTask.t) :
  StronglySorted due_le (overdueTasks todayStr tasks).
Proof using localeCompare_trans localeCompare_total.
  unfold overdueTasks.
  assert (Hdated : Forall has_due_date (filter (isOverdue todayStr) tasks)).
  { apply Forall_forall. intros t Ht. apply filter_In in Ht as [_ Ht].
    apply isOverdue_true in Ht as (_ & d & Hd & Hne & _). exists d. auto. }
  apply (StronglySorted_weaken (fun a b => byDueOn a b <= 0) due_le has_due_date).
  - intros a b Ha Hb Hab.
    destruct (byDueOn_dated a b Ha Hb) as (da & db & Hda & Hdb & Heq).
    exists da, db. rewrite <- Heq. auto.
  - apply Forall_sort, Hdated.
  - apply (sort_sorted byDueOn has_due_date); [| | exact Hdated].
    + intros a b Ha Hb.
      destruct (byDueOn_dated a b Ha Hb) as (da & db & Hda & Hdb & Hab).
      destruct (byDueOn_dated b a Hb Ha) as (db' & da' & Hdb' & Hda' & Hba).
      rewrite Hab, Hba. replace db' with db by congruence.
      replace da' with da by congruence. apply localeCompare_total.
    + intros a b c Ha Hb Hc.
      destruct (byDueOn_dated a b Ha Hb) as (da & db & Hda & Hdb & Hab).
      destruct (byDueOn_dated b c Hb Hc) as (db' & dc & Hdb' & Hdc & Hbc).
      destruct (byDueOn_dated a c Ha Hc) as (da' & dc' & Hda' & Hdc' & Hac).
      rewrite Hab, Hbc, Hac. replace db' with db by congruence.
      replace da' with da by congruence. replace dc' with dc by congruence.
      apply localeCompare_trans.
Qed.

(** C4. [get_overdue_tasks] reports exactly the fetched tasks that are not
    completed and whose [due_on] is a date (a non-empty string) strictly
    below today's date string, and the reported list is in ascending
    [due_on] order. *)
Theorem getOverdueTasks_selects_and_sorts :
  forall (today : Today.t) (assignee : option string) (tasks : list AsanaTask.t),
    getTasks client (TaskParams.mk None None assignee None None) = Ok tasks ->
    let selected := overdueTasks (Today.dateStr today) tasks in
    (exists obj,
        getOverdueTasks today assignee = Ok obj /\
        field "error" obj = None /\
        field "count" obj = Some (JNum (count_of selected)) /\
        field "tasks" obj = Some (JArr (map (formatOverdue today) selected))) /\
    (forall t,
        In t selected <->
        In t tasks /\
        AsanaTask.completed t = false /\
        exists d, AsanaTask.due_on t = Some d /\ d <> "" /\
                  String.ltb d (Today.dateStr today) = true) /\
    StronglySorted due_le selected.
Proof using localeCompare_trans localeCompare_total.
  intros today assignee tasks Hfetch selected. split; [| split].
  - unfold getOverdueTasks. rewrite Hfetch. cbn [bind try_catch].
    fold selected.
    destruct (count_of (filter (isOverdue (Today.dateStr today)) tasks) =? 0) eqn:Hn.
    + apply Z.eqb_eq in Hn. apply count_of_zero in Hn.
      assert (Hsel : selected = []) by (unfold selected, overdueTasks; rewrite Hn; reflexivity).
      rewrite Hsel. eexists. split; [reflexivity |]. repeat split.
    + eexists. split; [reflexivity |]. repeat split.
  - intros t. unfold selected, overdueTasks.
    rewrite In_sort, filter_In, isOverdue_true. reflexivity.
  - apply overdueTasks_sorted.
Qed.

End Collation.

(** ** Team workload *)

Lemma map_has_get (k : string) (m : WorkloadMap) :
  map_has k m = false <-> map_get k m = None.
Proof.
  induction m as [| [k' v] m IH]; cbn; [split; reflexivity |].
  destruct (k =? k')%string; cbn; [split; discriminate | exact IH].
Qed.

Lemma map_has_In (k : string) (m : WorkloadMap) :
  map_has k m = true <-> In k (map fst m).
Proof.
  induction m as [| [k' v] m IH]; cbn; [split; [discriminate | intros []] |].
  rewrite orb_true_iff, IH, String.eqb_eq. split; intros [H | H]; auto.
Qed.

Lemma map_get_In (k : string) (w : UserWorkload.t) (m : WorkloadMap) :
  map_get k m = Some w -> In (k, w) m.
Proof.
  induction m as [| [k' v] m IH]; cbn; [discriminate |].
  destruct (String.eqb_spec k k') as [-> | _].
  - intros [= ->]. left; reflexivity.
  - intros H. right; apply IH, H.
Qed.

Lemma In_map_get (k : string) (w : UserWorkload.t) (m : WorkloadMap) :
  NoDup (map fst m) -> In (k, w) m -> map_get k m = Some w.
Proof.
  induction m as [| [k' v] m IH]; cbn; [intros _ [] |].
  intros Hnd [[= -> ->] | Hin].
  - rewrite String.eqb_refl. reflexivity.
  - inversion Hnd as [| ? ? Hk' Hnd']; subst.
    destruct (String.eqb_spec k k') as [-> | _].
    + exfalso. apply Hk'. apply (in_map fst) in Hin. exact Hin.
    + apply IH; assumption.
Qed.

Lemma map_get_add (k k' : string) (v : UserWorkload.t) (m : WorkloadMap) :
  map_get k' (map_add k v m) =
  match map_get k' m with
  | Some w => Some w
  | None => if (k' =? k)%string then Some v else None
  end.
Proof.
  unfold map_add. induction m as [| [k0 v0] m IH]; cbn; [reflexivity |].
  destruct (k' =? k0)%string; [reflexivity | exact IH].
Qed.

Lemma map_get_update (k k' : string) (f : UserWorkload.t -> UserWorkload.t)
  (m : WorkloadMap) :
  map_get k' (map_update k f m) =
  if (k' =? k)%string then option_map f (map_get k m) else map_get k' m.
Proof.
  induction m as [| [k0 v0] m IH]; cbn.
  - destruct (k' =? k)%string; reflexivity.
  - destruct (String.eqb_spec k k0) as [-> | Hk]; cbn.
    + destruct (k' =? k0)%string; reflexivity.
    + destruct (String.eqb_spec k' k0) as [-> | Hk'].
      * apply String.eqb_neq in Hk. rewrite String.eqb_sym, Hk. reflexivity.
      * exact IH.
Qed.

Lemma map_update_keys (k : string) (f : UserWorkload.t -> UserWorkload.t)
  (m : WorkloadMap) :
  map fst (map_update k f m) = map fst m.
Proof.
  induction m as [| [k0 v0] m IH]; cbn; [reflexivity |].
  destruct (k =? k0)%string; cbn; [reflexivity | rewrite IH; reflexivity].
Qed.

Lemma sumTotals_total_sum (ws : list UserWorkload.t) : sumTotals ws = total_sum ws.
Proof.
  unfold sumTotals.
  assert (H : forall acc,
             fold_left (fun sum w => sum + UserWorkload.totalTasks w) ws acc
             = acc + total_sum ws).
  { unfold total_sum.
    induction ws as [| w ws IH]; intros acc; cbn; [lia |]. rewrite IH. lia. }
  rewrite H. lia.
Qed.

Lemma total_sum_perm (l l' : list UserWorkload.t) :
  Permutation l l' -> total_sum l = total_sum l'.
Proof. unfold total_sum. induction 1; cbn; lia. Qed.

Lemma total_sum_app (l l' : list UserWorkload.t) :
  total_sum (l ++ l') = total_sum l + total_sum l'.
Proof.
  unfold total_sum. induction l as [| w l IH]; cbn; [reflexivity | rewrite IH; lia].
Qed.

Lemma total_sum_update (k : string) (f : UserWorkload.t -> UserWorkload.t)
  (m : WorkloadMap) (w : UserWorkload.t) :
  map_get k m = Some w ->
  total_sum (map snd (map_update k f m)) =
  total_sum (map snd m) - UserWorkload.totalTasks w + UserWorkload.totalTasks (f w).
Proof.
  unfold total_sum. induction m as [| [k0 v0] m IH]; cbn; [discriminate |].
  destruct (k =? k0)%string; cbn.
  - intros [= ->]. lia.
  - intros H. rewrite (IH H). lia.
Qed.

Lemma Forall_map_update (Q : string * UserWorkload.t -> Prop) (k : string)
  (f : UserWorkload.t -> UserWorkload.t) (m : WorkloadMap) :
  (forall k' w, Q (k', w) -> Q (k', f w)) ->
  Forall Q m -> Forall Q (map_update k f m).
Proof.
  intros Hf. induction 1 as [| [k0 v0] m Hq Hm IH]; cbn; [constructor |].
  destruct (k =? k0)%string; constructor; auto.
Qed.

Lemma tally_total (d : string) (t : AsanaTask.t) (w : UserWorkload.t) :
  UserWorkload.totalTasks (tally d t w) = UserWorkload.totalTasks w + 1.
Proof.
  unfold tally. destruct (AsanaTask.due_on t) as [due |]; [| reflexivity].
  destruct (_ && _); [destruct (Js.str_lt due d) |]; reflexivity.
Qed.

Lemma tally_user (d : string) (t : AsanaTask.t) (w : UserWorkload.t) :
  UserWorkload.user (tally d t w) = UserWorkload.user w.
Proof.
  unfold tally. destruct (AsanaTask.due_on t) as [due |]; [| reflexivity].
  destruct (_ && _); [destruct (Js.str_lt due d) |]; reflexivity.
Qed.

Lemma tally_completed (d : string) (t : AsanaTask.t) (w : UserWorkload.t) :
  AsanaTask.completed t = false ->
  UserWorkload.completedTasks (tally d t w) = UserWorkload.completedTasks w.
Proof.
  intros Hc. unfold tally. rewrite Hc.
  destruct (AsanaTask.due_on t) as [due |]; [| reflexivity].
  destruct (_ && _); [destruct (Js.str_lt due d) |]; reflexivity.
Qed.

Lemma step_get (d : string) (m : WorkloadMap) (t : AsanaTask.t) (k : string) :
  map_get k (workloadStep true d m t) =
  if (k =? assigneeGid t)%string
  then Some (tally d t match map_get (assigneeGid t) m with
                       | Some w => w
                       | None => fresh t
                       end)
  else map_get k m.
Proof.
  unfold workloadStep. cbn [negb andb].
  destruct (map_has (assigneeGid t) m) eqn:Hhas; cbn [negb].
  - rewrite map_get_update.
    destruct (map_get (assigneeGid t) m) as [w |] eqn:Hget; [reflexivity |].
    apply map_has_get in Hget. congruence.
  - rewrite map_get_update, !map_get_add.
    apply map_has_get in Hhas. rewrite Hhas, String.eqb_refl.
    destruct (k =? assigneeGid t)%string; [reflexivity |].
    destruct (map_get k m); reflexivity.
Qed.

Lemma step_keys (d : string) (m : WorkloadMap) (t : AsanaTask.t) :
  map fst (workloadStep true d m t) =
  if map_has (assigneeGid t) m then map fst m
  else (map fst m ++ [assigneeGid t])%list.
Proof.
  unfold workloadStep. cbn [negb andb]. rewrite map_update_keys.
  destruct (map_has (assigneeGid t) m); cbn [negb]; [reflexivity |].
  unfold map_add. rewrite map_app. reflexivity.
Qed.

Lemma step_NoDup (d : string) (m : WorkloadMap) (t : AsanaTask.t) :
  NoDup (map fst m) -> NoDup (map fst (workloadStep true d m t)).
Proof.
  intros Hnd. rewrite step_keys.
  destruct (map_has (assigneeGid t) m) eqn:Hhas; [exact Hnd |].
  apply NoDup_app; [exact Hnd | repeat constructor; intros [] |].
  intros k Hk [<- | []]. apply map_has_In in Hk. congruence.
Qed.

Lemma step_sum (d : string) (m : WorkloadMap) (t : AsanaTask.t) :
  total_sum (map snd (workloadStep true d m t)) = total_sum (map snd m) + 1.
Proof.
  unfold workloadStep. cbn [negb andb].
  destruct (map_has (assigneeGid t) m) eqn:Hhas; cbn [negb].
  - destruct (map_get (assigneeGid t) m) as [w |] eqn:Hm.
    + rewrite (total_sum_update _ _ _ w Hm), tally_total. lia.
    + apply map_has_get in Hm. congruence.
  - erewrite total_sum_update.
    2:{ rewrite map_get_add. apply map_has_get in Hhas. rewrite Hhas.
        rewrite String.eqb_refl. reflexivity. }
    rewrite tally_total. unfold map_add. rewrite map_app, total_sum_app.
    unfold total_sum. cbn. lia.
Qed.

Lemma step_Forall (Q : string * UserWorkload.t -> Prop) (d : string)
  (m : WorkloadMap) (t : AsanaTask.t) :
  (forall k w, Q (k, w) -> Q (k, tally d t w)) ->
  Q (assigneeGid t, fresh t) ->
  Forall Q m -> Forall Q (workloadStep true d m t).
Proof.
  intros Htally Hfresh Hm. unfold workloadStep. cbn [negb andb].
  apply Forall_map_update; [exact Htally |].
  destruct (map_has (assigneeGid t) m); cbn [negb]; [exact Hm |].
  unfold map_add. apply Forall_app. split; [exact Hm | repeat constructor; exact Hfresh].
Qed.

(** With [includeCompleted = false] the loop sees the open tasks only. *)
Lemma workload_skips_completed (d : string) (tasks : list AsanaTask.t)
  (m : WorkloadMap) :
  fold_left (workloadStep false d) tasks m =
  fold_left (workloadStep true d) (filter is_open tasks) m.
Proof.
  revert m. induction tasks as [| t tasks IH]; intros m; cbn; [reflexivity |].
  assert (Hstep : AsanaTask.completed t = false ->
                  workloadStep false d m t = workloadStep true d m t).
  { intros Hc. unfold workloadStep. rewrite Hc. reflexivity. }
  unfold is_open at 1. destruct (AsanaTask.completed t) eqn:Hc; cbn.
  - rewrite <- IH. unfold workloadStep at 2. rewrite Hc. reflexivity.
  - rewrite <- IH, Hstep; reflexivity.
Qed.

Section Loop.
Variable d : string.

Lemma loop_sum (l : list AsanaTask.t) (m : WorkloadMap) :
  total_sum (map snd (fold_left (workloadStep true d) l m)) =
  total_sum (map snd m) + count_of l.
Proof.
  revert m. induction l as [| t l IH]; intros m; cbn [fold_left filter existsb].
  - unfold count_of. cbn. lia.
  - rewrite IH, step_sum. unfold count_of. cbn [List.length]. lia.
Qed.

Lemma loop_NoDup (l : list AsanaTask.t) (m : WorkloadMap) :
  NoDup (map fst m) -> NoDup (map fst (fold_left (workloadStep true d) l m)).
Proof.
  revert m. induction l as [| t l IH]; intros m Hnd; cbn [fold_left]; [exact Hnd |].
  apply IH, step_NoDup, Hnd.
Qed.

Lemma loop_total_at (k : string) (l : list AsanaTask.t) (m : WorkloadMap) :
  total_at k (fold_left (workloadStep true d) l m) =
  total_at k m + count_of (filter (keyed k) l).
Proof.
  revert m. induction l as [| t l IH]; intros m; cbn [fold_left filter existsb].
  - unfold count_of; cbn; lia.
  - rewrite IH. unfold total_at at 1. rewrite step_get. unfold keyed at 2.
    rewrite (String.eqb_sym (assigneeGid t) k).
    destruct (String.eqb_spec k (assigneeGid t)) as [-> | _].
    + rewrite tally_total. unfold total_at, count_of. cbn [List.length].
      rewrite Nat2Z.inj_succ.
      destruct (map_get (assigneeGid t) m); unfold fresh;
        cbn [UserWorkload.totalTasks]; lia.
    + reflexivity.
Qed.

Lemma loop_has (k : string) (l : list AsanaTask.t) (m : WorkloadMap) :
  map_has k (fold_left (workloadStep true d) l m) =
  map_has k m || existsb (keyed k) l.
Proof.
  revert m. induction l as [| t l IH]; intros m; cbn [fold_left filter existsb].
  - rewrite orb_false_r. reflexivity.
  - rewrite IH. unfold keyed at 2. rewrite (String.eqb_sym (assigneeGid t) k).
    rewrite orb_assoc. f_equal.
    destruct (map_has k (workloadStep true d m t)) eqn:H1.
    + apply map_has_In in H1. rewrite step_keys in H1.
      destruct (map_has (assigneeGid t) m) eqn:H2.
      * apply map_has_In in H1. rewrite H1. reflexivity.
      * apply in_app_or in H1 as [H1 | [<- | []]].
        -- apply map_has_In in H1. rewrite H1. reflexivity.
        -- rewrite String.eqb_refl, orb_true_r. reflexivity.
    + symmetry. apply orb_false_iff. split.
      * destruct (map_has k m) eqn:H2; [| reflexivity].
        apply map_has_In in H2.
        assert (In k (map fst (workloadStep true d m t))) as H3.
        { rewrite step_keys. destruct (map_has (assigneeGid t) m);
            [exact H2 | apply in_or_app; left; exact H2]. }
        apply map_has_In in H3. congruence.
      * apply String.eqb_neq. intros ->.
        pose proof (step_get d m t (assigneeGid t)) as Hg.
        rewrite String.eqb_refl in Hg. apply map_has_get in H1. congruence.
Qed.

Lemma loop_Forall (Q : string * UserWorkload.t -> Prop) (l : list AsanaTask.t)
  (m : WorkloadMap) :
  (forall t k w, In t l -> Q (k, w) -> Q (k, tally d t w)) ->
  (forall t, In t l -> Q (assigneeGid t, fresh t)) ->
  Forall Q m -> Forall Q (fold_left (workloadStep true d) l m).
Proof.
  revert m. induction l as [| t l IH]; intros m Htally Hfresh Hm; cbn [fold_left]; [exact Hm |].
  apply IH.
  - intros t' k w Ht'. apply Htally. right; exact Ht'.
  - intros t' Ht'. apply Hfresh. right; exact Ht'.
  - apply step_Forall; [intros k w; apply Htally | apply Hfresh | exact Hm];
      left; reflexivity.
Qed.

End Loop.

Lemma workloadMap_open (d : string) (tasks : list AsanaTask.t) :
  workloadMap false d tasks = workloadMap true d (filter is_open tasks).
Proof. unfold workloadMap. apply workload_skips_completed. Qed.

Lemma assigneeGid_unassigned (t : AsanaTask.t) :
  is_unassigned t = true -> assigneeGid t = "unassigned".
Proof.
  unfold is_unassigned, assigneeGid. destruct (AsanaTask.assignee t); [discriminate |].
  reflexivity.
Qed.

Lemma keyed_unassigned (tasks : list AsanaTask.t) (t : AsanaTask.t) :
  proper_gids tasks -> In t tasks ->
  keyed "unassigned" t = is_unassigned t.
Proof.
  intros Hgids Hin. unfold keyed, is_unassigned, assigneeGid.
  destruct (AsanaTask.assignee t) as [u |] eqn:Hu; [| reflexivity].
  destruct (Hgids t u Hin Hu) as [Hne Hres]. cbn.
  apply String.eqb_neq in Hne. rewrite Hne. apply String.eqb_neq. exact Hres.
Qed.

Lemma workloadArray_sorted (b : bool) (d : string) (tasks : list AsanaTask.t) :
  StronglySorted
    (fun x y => UserWorkload.totalTasks x >= UserWorkload.totalTasks y)
    (workloadArray b d tasks).
Proof.
  unfold workloadArray.
  apply (StronglySorted_weaken (fun x y => byTotalDesc x y <= 0) _ (fun _ => True)).
  - unfold byTotalDesc. intros; lia.
  - apply Forall_forall. trivial.
  - apply (sort_sorted byTotalDesc (fun _ => True)).
    + unfold byTotalDesc. intros; lia.
    + unfold byTotalDesc. intros; lia.
    + apply Forall_forall. trivial.
Qed.

Lemma getTeamWorkload_returns (today : Today.t) (b : bool)
  (tasks : list AsanaTask.t) :
  getTasks client TaskParams.empty = Ok tasks ->
  exists obj,
    getTeamWorkload today b = Ok obj /\
    field "error" obj = None /\
    field "workload" obj
    = Some (JArr (map summarize (workloadArray b (Today.dateStr today) tasks))).
Proof.
  intros Hfetch. unfold getTeamWorkload. rewrite Hfetch. cbn [bind try_catch].
  destruct (count_of _ =? 0) eqn:Hn.
  - apply Z.eqb_eq, count_of_zero in Hn. rewrite Hn.
    eexists. split; [reflexivity |]. split; reflexivity.
  - eexists. split; [reflexivity |]. split; reflexivity.
Qed.

(** C6. With [includeCompleted = false], the per-user [totalTasks] of the
    buckets add up to the number of fetched tasks that are not completed;
    a bucket's rate is [Math.round((completed / total) * 100)], and 0 for
    an empty bucket; the buckets come in descending [totalTasks] order; and
    the open tasks without assignee are all counted in the one bucket
    keyed ["unassigned"], which carries the synthetic user. *)
Theorem getTeamWorkload_open_tasks :
  forall (today : Today.t) (tasks : list AsanaTask.t),
    getTasks client TaskParams.empty = Ok tasks ->
    let d := Today.dateStr today in
    let buckets := workloadArray false d tasks in
    (exists obj,
        getTeamWorkload today false = Ok obj /\
        field "error" obj = None /\
        field "workload" obj = Some (JArr (map summarize buckets))) /\
    sumTotals buckets = count_of (filter is_open tasks) /\
    (forall w,
        In w buckets ->
        field "completionRate" (summarize w)
        = Some (JNum (if UserWorkload.totalTasks w >? 0
                      then round_pct (UserWorkload.completedTasks w)
                                     (UserWorkload.totalTasks w)
                      else 0))) /\
    (forall c, completionRate c 0 = 0) /\
    StronglySorted
      (fun x y => UserWorkload.totalTasks x >= UserWorkload.totalTasks y)
      buckets /\
    (forall t,
        In t tasks -> is_open t = true -> is_unassigned t = true ->
        exists w,
          map_get "unassigned" (workloadMap false d tasks) = Some w /\
          In w buckets /\
          UserWorkload.totalTasks w
          = count_of (filter (keyed "unassigned") (filter is_open tasks)) /\
          (proper_gids tasks ->
           UserWorkload.user w = synthetic_user /\
           UserWorkload.totalTasks w
           = count_of (filter is_unassigned (filter is_open tasks)))).
Proof.
  intros today tasks Hfetch d buckets.
  split; [apply getTeamWorkload_returns, Hfetch |].
  split; [| split; [| split; [| split]]].
  - rewrite sumTotals_total_sum. unfold buckets, workloadArray.
    rewrite (total_sum_perm _ _ (sort_perm byTotalDesc _)).
    rewrite workloadMap_open. unfold workloadMap. rewrite loop_sum.
    unfold total_sum. cbn. lia.
  - intros w _. reflexivity.
  - intros c. reflexivity.
  - apply workloadArray_sorted.
  - intros t Hin Hopen Hun.
    assert (Hopen_in : In t (filter is_open tasks)) by (apply filter_In; auto).
    pose proof (loop_has d "unassigned" (filter is_open tasks) []) as Hhas.
    fold (workloadMap true d (filter is_open tasks)) in Hhas.
    rewrite <- workloadMap_open in Hhas.
    replace (existsb (keyed "unassigned") (filter is_open tasks)) with true in Hhas.
    2:{ symmetry. apply existsb_exists. exists t. split; [exact Hopen_in |].
        unfold keyed. rewrite (assigneeGid_unassigned t Hun). reflexivity. }
    cbn [map_has orb] in Hhas.
    destruct (map_get "unassigned" (workloadMap false d tasks)) as [w |] eqn:Hget.
    2:{ apply map_has_get in Hget. congruence. }
    exists w. split; [reflexivity |].
    pose proof (loop_total_at d "unassigned" (filter is_open tasks) []) as Htot.
    fold (workloadMap true d (filter is_open tasks)) in Htot.
    rewrite <- workloadMap_open in Htot. unfold total_at in Htot.
    rewrite Hget in Htot. cbn [map_get] in Htot.
    split; [| split; [lia |]].
    + unfold buckets, workloadArray. apply In_sort.
      apply map_get_In in Hget. apply (in_map snd) in Hget. exact Hget.
    + intros Hgids.
      assert (Hkeys : filter (keyed "unassigned") (filter is_open tasks)
                      = filter is_unassigned (filter is_open tasks)).
      { apply filter_ext_in. intros t' Ht'. apply filter_In in Ht' as [Ht' _].
        apply (keyed_unassigned tasks); assumption. }
      split; [| rewrite <- Hkeys; lia].
      pose proof (loop_Forall d
        (fun kw => exists t', In t' (filter is_open tasks) /\
                              assigneeGid t' = fst kw /\
                              UserWorkload.user (snd kw) = assigneeOrSynthetic t')
        (filter is_open tasks) []) as HQ.
      fold (workloadMap true d (filter is_open tasks)) in HQ.
      rewrite <- workloadMap_open in HQ.
      assert (Hall : Forall
        (fun kw => exists t', In t' (filter is_open tasks) /\
                              assigneeGid t' = fst kw /\
                              UserWorkload.user (snd kw) = assigneeOrSynthetic t')
        (workloadMap false d tasks)).
      { apply HQ; [| | constructor].
        - intros t0 k w0 _ (t' & H1 & H2 & H3). exists t'. cbn [fst snd] in *.
          rewrite tally_user. auto.
        - intros t0 Ht0. exists t0. cbn. auto. }
      rewrite Forall_forall in Hall.
      destruct (Hall _ (map_get_In _ _ _ Hget)) as (t' & Ht' & Hk & Hu).
      cbn [fst snd] in Hk, Hu. rewrite Hu.
      apply filter_In in Ht' as [Ht' _].
      pose proof (keyed_unassigned tasks t' Hgids Ht') as Hkeyed.
      unfold keyed in Hkeyed. rewrite Hk, String.eqb_refl in Hkeyed.
      unfold is_unassigned, assigneeOrSynthetic in *.
      destruct (AsanaTask.assignee t'); [discriminate | reflexivity].
Qed.

Section ZeroRate.

(** On doubles, [0 / t] is [+0] for a positive [t], [0 * 100] is [+0], and
    [Math.round(+0)] is [0]. *)
Hypothesis round_pct_zero : forall t, 0 < t -> round_pct 0 t = 0.

Lemma open_buckets_no_completed (d : string) (tasks : list AsanaTask.t) :
  Forall (fun kw => UserWorkload.completedTasks (snd kw) = 0)
         (workloadMap false d tasks).
Proof.
  rewrite workloadMap_open. unfold workloadMap. apply loop_Forall.
  - intros t k w Ht Hw. cbn [snd] in *. apply filter_In in Ht as [_ Ht].
    unfold is_open in Ht. apply negb_true_iff in Ht.
    rewrite tally_completed; assumption.
  - intros t _. reflexivity.
  - constructor.
Qed.

(** C10. With [includeCompleted = false], completed tasks never reach the
    buckets (the loop behaves as if run on the open tasks alone), so every
    bucket of the returned summary has [completedTasks = 0] and
    [completionRate = 0]. *)
Theorem getTeamWorkload_open_only_rate_zero :
  forall (today : Today.t) (tasks : list AsanaTask.t),
    getTasks client TaskParams.empty = Ok tasks ->
    workloadArray false (Today.dateStr today) tasks
    = workloadArray true (Today.dateStr today) (filter is_open tasks) /\
    exists obj items,
      getTeamWorkload today false = Ok obj /\
      field "workload" obj = Some (JArr items) /\
      forall j,
        In j items ->
        field "completedTasks" j = Some (JNum 0) /\
        field "completionRate" j = Some (JNum 0).
Proof using round_pct_zero.
  intros today tasks Hfetch. split.
  - unfold workloadArray. rewrite workloadMap_open. reflexivity.
  - destruct (getTeamWorkload_returns today false tasks Hfetch)
      as (obj & Hobj & _ & Hwork).
    exists obj, (map summarize (workloadArray false (Today.dateStr today) tasks)).
    split; [exact Hobj |]. split; [exact Hwork |].
    intros j Hj. apply in_map_iff in Hj as (w & <- & Hw).
    unfold workloadArray in Hw. apply In_sort in Hw.
    apply in_map_iff in Hw as ([k w'] & Hsnd & Hkw). cbn [snd] in Hsnd. subst w'.
    pose proof (open_buckets_no_completed (Today.dateStr today) tasks) as Hzero.
    rewrite Forall_forall in Hzero. specialize (Hzero _ Hkw). cbn [snd] in Hzero.
    unfold summarize. cbn [field lookup String.eqb Ascii.eqb Bool.eqb].
    rewrite Hzero. split; [reflexivity |].
    unfold completionRate.
    destruct (Z.gtb_spec (UserWorkload.totalTasks w) 0) as [Hpos | _];
      [rewrite round_pct_zero by lia |]; reflexivity.
Qed.

End ZeroRate.

(** ** Due-date tracking *)

Lemma slice0_count {A : Type} (limit : Z) (l : list A) :
  count_of (Js.slice0 limit l) =
  if limit <? 0 then Z.max (count_of l + limit) 0 else Z.min limit (count_of l).
Proof.
  unfold count_of, Js.slice0. rewrite length_firstn.
  destruct (Z.ltb_spec limit 0); lia.
Qed.

Lemma tasksWithChanges_flat_map (l : list AsanaTask.t) :
  tasksWithChanges l = flat_map postponedEntry l.
Proof.
  unfold tasksWithChanges.
  assert (H : forall acc,
             fold_left (fun acc task => (acc ++ postponedEntry task)%list) l acc
             = (acc ++ flat_map postponedEntry l)%list).
  { induction l as [| t l IH]; intros acc; cbn.
    - rewrite app_nil_r. reflexivity.
    - rewrite IH, app_assoc. reflexivity. }
  apply H.
Qed.




Lemma isDueDateChange_true (story : AsanaStory.t) :
  isDueDateChange story = true <->
  AsanaStory.resource_subtype story = "due_date_changed" \/
  exists old_ new_,
    AsanaStory.old_due_on story = Some old_ /\
    AsanaStory.new_due_on story = Some new_ /\
    old_ <> "" /\ new_ <> "" /\ new_ <> old_.
Proof.
  unfold isDueDateChange, Js.truthy. rewrite orb_true_iff, String.eqb_eq.
  split; intros [H | H]; auto; right.
  - destruct (AsanaStory.new_due_on story) as [new_ |]; [| discriminate].
    destruct (AsanaStory.old_due_on story) as [old_ |]; [| discriminate].
    rewrite !andb_true_iff, !negb_true_iff, !String.eqb_neq in H.
    destruct H as [[Hn Ho] Hneq]. exists old_, new_. repeat split; assumption.
  - destruct H as (old_ & new_ & -> & -> & Ho & Hn & Hneq).
    rewrite !andb_true_iff, !negb_true_iff, !String.eqb_neq.
    repeat split; assumption.
Qed.

(** An event that removes the due date has no new date to compare, so only
    its subtype can make it count. *)
Lemma removal_counts_by_subtype_only (story : AsanaStory.t) :
  AsanaStory.new_due_on story = None ->
  isDueDateChange story
  = (AsanaStory.resource_subtype story =? "due_date_changed")%string.
Proof.
  intros Hnew. unfold isDueDateChange. rewrite Hnew. apply orb_false_r.
Qed.

Lemma filter_pointwise {A : Type} (p q : A -> bool) (l : list A) :
  (forall x, p x = q x) -> filter p l = filter q l.
Proof.
  intros H. induction l as [| x l IH]; cbn; [reflexivity |].
  rewrite H, IH. reflexivity.
Qed.

(** C8 (as amended). [get_task_due_date_changes] reports, in the order of
    the history, exactly the events that count as due-date changes: those
    whose subtype is ["due_date_changed"] and those whose old and new due
    dates are both present and differ; [changeCount] is their number.  For
    a task whose history is the two events (2024-01-01 to 2024-01-08) and
    (2024-01-08 to none), the first event always counts; the second has no
    new date, so it counts exactly when its subtype marks it: then
    [changeCount = 2] and the second [newDueDate] is rendered as
    ["Removed"], and otherwise [changeCount = 1]. *)
Theorem getTaskDueDateChanges_two_changes :
  forall (taskGid : string) (task : AsanaTask.t) (stories : list AsanaStory.t),
    getTask client taskGid = Ok task ->
    getTaskStories client taskGid = Ok stories ->
    exists obj counted,
      getTaskDueDateChanges taskGid = Ok obj /\
      field "error" obj = None /\
      field "changeCount" obj = Some (JNum (count_of counted)) /\
      field "changes" obj = Some (JArr (map renderChange counted)) /\
      (forall p : AsanaStory.t -> bool,
          (forall s, p s = true <-> counts_as_change s) ->
          counted = filter p stories) /\
      (forall s1 s2,
          stories = [s1; s2] ->
          AsanaStory.old_due_on s1 = Some "2024-01-01" ->
          AsanaStory.new_due_on s1 = Some "2024-01-08" ->
          AsanaStory.old_due_on s2 = Some "2024-01-08" ->
          AsanaStory.new_due_on s2 = None ->
          (AsanaStory.resource_subtype s2 = "due_date_changed" ->
           exists first second,
             field "changeCount" obj = Some (JNum 2) /\
             field "changes" obj = Some (JArr [first; second]) /\
             field "oldDueDate" first = Some (JStr "2024-01-01") /\
             field "newDueDate" first = Some (JStr "2024-01-08") /\
             field "oldDueDate" second = Some (JStr "2024-01-08") /\
             field "newDueDate" second = Some (JStr "Removed")) /\
          (AsanaStory.resource_subtype s2 <> "due_date_changed" ->
           exists first,
             field "changeCount" obj = Some (JNum 1) /\
             field "changes" obj = Some (JArr [first]) /\
             field "oldDueDate" first = Some (JStr "2024-01-01") /\
             field "newDueDate" first = Some (JStr "2024-01-08"))).
Proof.
  intros taskGid task stories Htask Hstories.
  set (counted := filter isDueDateChange stories).
  assert (Hrun : exists obj,
            getTaskDueDateChanges taskGid = Ok obj /\
            field "error" obj = None /\
            field "changeCount" obj = Some (JNum (count_of counted)) /\
            field "changes" obj = Some (JArr (map renderChange counted))).
  { unfold getTaskDueDateChanges. rewrite Htask, Hstories. cbn [bind try_catch].
    fold counted. destruct (count_of counted =? 0) eqn:Hn.
    - apply Z.eqb_eq in Hn. rewrite Hn. apply count_of_zero in Hn. rewrite Hn.
      eexists. repeat split.
    - eexists. repeat split. }
  destruct Hrun as (obj & Hobj & Herr & Hcount & Hchanges).
  exists obj, counted.
  split; [exact Hobj |]. split; [exact Herr |]. split; [exact Hcount |].
  split; [exact Hchanges |]. split.
  - intros p Hp. unfold counted. apply filter_pointwise. intros s.
    pose proof (isDueDateChange_true s) as Hcode. specialize (Hp s).
    unfold counts_as_change in Hp.
    destruct (isDueDateChange s), (p s); try reflexivity.
    + symmetry. apply Hp, Hcode. reflexivity.
    + apply Hcode, Hp. reflexivity.
  - intros s1 s2 Hhistory Ho1 Hn1 Ho2 Hn2.
    assert (H1 : isDueDateChange s1 = true).
    { apply isDueDateChange_true. right. exists "2024-01-01", "2024-01-08".
      repeat split; auto; discriminate. }
    assert (H2 : isDueDateChange s2
                 = (AsanaStory.resource_subtype s2 =? "due_date_changed")%string).
    { apply removal_counts_by_subtype_only. exact Hn2. }
    assert (Hfirst : field "oldDueDate" (renderChange s1) = Some (JStr "2024-01-01") /\
                     field "newDueDate" (renderChange s1) = Some (JStr "2024-01-08")).
    { unfold renderChange. rewrite Ho1, Hn1. split; reflexivity. }
    split; intros Hsub.
    + assert (Hcounted : counted = [s1; s2]).
      { unfold counted. rewrite Hhistory. cbn [filter]. rewrite H1, H2.
        apply String.eqb_eq in Hsub. rewrite Hsub. reflexivity. }
      rewrite Hcounted in Hcount, Hchanges.
      exists (renderChange s1), (renderChange s2).
      split; [exact Hcount |]. split; [exact Hchanges |].
      split; [exact (proj1 Hfirst) |]. split; [exact (proj2 Hfirst) |].
      unfold renderChange. rewrite Ho2, Hn2. split; reflexivity.
    + assert (Hcounted : counted = [s1]).
      { unfold counted. rewrite Hhistory. cbn [filter]. rewrite H1, H2.
        apply String.eqb_neq in Hsub. rewrite Hsub. reflexivity. }
      rewrite Hcounted in Hcount, Hchanges.
      exists (renderChange s1).
      split; [exact Hcount |]. split; [exact Hchanges |]. exact Hfirst.
Qed.

(** ** Project lookup *)

Lemma find_first_match {A : Type} (f : A -> bool) (before after : list A) (x : A) :
  f x = true -> (forall y, In y before -> f y = false) ->
  find f (before ++ x :: after) = Some x.
Proof.
  intros Hx. induction before as [| y before IH]; intros Hb; cbn.
  - rewrite Hx. reflexivity.
  - rewrite (Hb y) by (left; reflexivity). apply IH.
    intros z Hz. apply Hb. right; exact Hz.
Qed.

Lemma find_pointwise {A : Type} (f g : A -> bool) (l : list A) :
  (forall x, f x = g x) -> find f l = find g l.
Proof.
  intros Hfg. induction l as [| x l IH]; cbn; [reflexivity |].
  rewrite Hfg, IH. reflexivity.
Qed.

(** C9 (as amended). Over a fixed fetched project list the lookup only
    depends on the query up to case, returns the first project in fetch
    order whose name equals the query up to case (hence [P] itself when no
    project before [P] has such a name), and [get_project_status] reports
    the identifier of the very project [findProjectByName] returns. *)
Theorem findProjectByName_first_match_shared :
  forall (projects : list AsanaProject.t) (query : string),
    getWorkspaceProjects client = Ok projects ->
    (forall query',
        toLowerCase query' = toLowerCase query ->
        findProjectByName query' = findProjectByName query) /\
    (forall before P after,
        projects = (before ++ P :: after)%list ->
        toLowerCase (AsanaProject.name P) = toLowerCase query ->
        (forall P', In P' before ->
                    toLowerCase (AsanaProject.name P') <> toLowerCase query) ->
        findProjectByName query = Ok (Some P)) /\
    (forall P,
        findProjectByName query = Ok (Some P) ->
        In P projects /\ toLowerCase (AsanaProject.name P) = toLowerCase query) /\
    (forall obj g,
        getProjectStatus query = Ok obj ->
        field "projectGid" obj = Some (JStr g) ->
        exists P, findProjectByName query = Ok (Some P) /\ AsanaProject.gid P = g) /\
    (forall P sections statuses,
        findProjectByName query = Ok (Some P) ->
        getProjectSections client (AsanaProject.gid P) = Ok sections ->
        sectionStatuses sections = Ok statuses ->
        exists obj,
          getProjectStatus query = Ok obj /\
          field "projectGid" obj = Some (JStr (AsanaProject.gid P))).
Proof.
  intros projects query Hfetch.
  split; [| split; [| split; [| split]]].
  - intros query' Hq. unfold findProjectByName. rewrite Hfetch. cbn [bind].
    f_equal. apply find_pointwise. intros p. unfold name_matches. rewrite Hq. reflexivity.
  - intros before P after Hsplit HP Hbefore.
    unfold findProjectByName. rewrite Hfetch. cbn [bind]. f_equal.
    rewrite Hsplit. apply find_first_match.
    + unfold name_matches. apply String.eqb_eq, HP.
    + intros P' HP'. unfold name_matches. apply String.eqb_neq, Hbefore, HP'.
  - intros P HP. unfold findProjectByName in HP. rewrite Hfetch in HP.
    cbn [bind] in HP. injection HP as HP. apply find_some in HP as [Hin Hm].
    split; [exact Hin |]. apply String.eqb_eq, Hm.
  - intros obj g Hobj Hg. unfold getProjectStatus in Hobj.
    destruct (findProjectByName query) as [[P |] | e]; cbn [bind try_catch] in Hobj.
    + destruct (getProjectSections client (AsanaProject.gid P)) as [sections | e];
        cbn [bind try_catch] in Hobj.
      * destruct (sectionStatuses sections) as [statuses | e];
          cbn [bind try_catch] in Hobj.
        -- injection Hobj as <-. cbn in Hg. injection Hg as <-.
           exists P. auto.
        -- injection Hobj as <-. discriminate Hg.
      * injection Hobj as <-. discriminate Hg.
    + injection Hobj as <-. discriminate Hg.
    + injection Hobj as <-. discriminate Hg.
  - intros P sections statuses HP Hsec Hst. unfold getProjectStatus.
    rewrite HP. cbn [bind]. rewrite Hsec. cbn [bind]. rewrite Hst.
    cbn [bind try_catch]. eexists. split; reflexivity.
Qed.

(** ** Failure results *)

Lemma sectionStatuses_failure (before after : list AsanaSection.t)
  (section : AsanaSection.t) (e : string) :
  (forall s, In s before ->
             exists tasks, getSectionTasks client (AsanaSection.gid s) = Ok tasks) ->
  getSectionTasks client (AsanaSection.gid section) = Err e ->
  sectionStatuses (before ++ section :: after) = Err e.
Proof.
  intros Hbefore Herr. induction before as [| s before IH]; cbn [app sectionStatuses].
  - rewrite Herr. reflexivity.
  - destruct (Hbefore s (or_introl eq_refl)) as (tasks & ->). cbn [bind].
    rewrite IH; [reflexivity |]. intros s' Hs'. apply Hbefore. right; exact Hs'.
Qed.

Lemma sectionWorkload_failure (before after : list AsanaSection.t)
  (section : AsanaSection.t) (e : string) :
  (forall s, In s before ->
             exists tasks, getSectionTasks client (AsanaSection.gid s) = Ok tasks) ->
  getSectionTasks client (AsanaSection.gid section) = Err e ->
  sectionWorkload (before ++ section :: after) = Err e.
Proof.
  intros Hbefore Herr. induction before as [| s before IH]; cbn [app sectionWorkload].
  - rewrite Herr. reflexivity.
  - destruct (Hbefore s (or_introl eq_refl)) as (tasks & ->). cbn [bind].
    rewrite IH; [reflexivity |]. intros s' Hs'. apply Hbefore. right; exact Hs'.
Qed.

Lemma string_append_assoc (a b c : string) : ((a ++ b) ++ c = a ++ b ++ c)%string.
Proof. induction a as [| x a IH]; cbn; [reflexivity | rewrite IH; reflexivity]. Qed.

Ltac caught_or_returned :=
  match goal with
  | |- exists obj, try_catch ?body ?h = Ok obj =>
      destruct body as [obj | msg]; cbn [try_catch]; eexists; reflexivity
  end.

(** C3 (as amended). None of the twenty query tools built on the API
    client ever throws.  When a client method that a tool awaits outside an
    inner [try] throws, the tool returns an object whose [error] field is
    the tool's prefix followed by the error, together with the zero counts
    and empty collections of the tool's result shape: [count]/[tasks],
    [count]/[users], [count]/[projects], [teamMembers]/[workload],
    [totalOverdue]/[byPerson], [changeCount]/[changes]; [tasks] alone for
    [get_most_postponed_tasks] and [get_recent_due_date_changes]; and
    nothing besides [error] for [get_project_status],
    [get_section_with_most_work] and [get_me]. *)
Theorem tools_catch_client_errors :
  forall call : ToolCall,
    (exists obj, execute call = Ok obj) /\
    (forall e,
        raises call e ->
        execute call
        = Ok (JObj (("error", JStr (failure_prefix call ++ show_error e))
                    :: failure_fields call))).
Proof.
  intros call. split.
  - destruct call; cbn [execute];
      [ unfold getTasksCompletedToday | unfold getOverdueTasks
      | unfold getTeamWorkload | unfold getTaskDueDateChanges
      | unfold getMostPostponedTasks | unfold getProjectStatus
      | unfold getTasksUpdatedToday | unfold getTasksDueToday
      | unfold getWeeklyPlannedTasks | unfold getOverdueTasksByPerson
      | unfold getSectionWithMostWork | unfold listAllProjects
      | unfold getRecentDueDateChanges | unfold getUnassignedTasks
      | unfold getTasksWithoutDueDates | unfold searchTasksByName
      | unfold getWorkspaceUsers_tool | unfold getMe_tool
      | unfold searchUsers_tool | unfold getTasksAssignedTo ];
      try caught_or_returned.
    destruct (getTasks client _) as [tasks | msg]; [| eexists; reflexivity].
    cbv zeta. destruct (count_of _ =? 0); [eexists; reflexivity |].
    destruct (groupByDay _); eexists; reflexivity.
  - intros e Hraise.
    destruct Hraise as
      [ today assignee e H | today assignee e H | today b e H
      | taskGid e H | taskGid task e Ht H | limit e H
      | name e H | name project e Hp H
      | name project sections before section after e Hp Hs Hsplit Hbefore H
      | today assignee b e H | today assignee b e H
      | weekStartStr weekEndStr assignee b e H | today e H
      | name e H | name project e Hp H
      | name project sections before section after e Hp Hs Hsplit Hbefore H
      | e H | cutoffStr daysText e H | b e H | b assignee e H | query b e H
      | e H | e H | query e H | nowISO assignee b limit e H ];
      cbn [execute failure_prefix failure_fields].
    + unfold getTasksCompletedToday. rewrite H. reflexivity.
    + unfold getOverdueTasks. rewrite H. reflexivity.
    + unfold getTeamWorkload. rewrite H. reflexivity.
    + unfold getTaskDueDateChanges. rewrite H. reflexivity.
    + unfold getTaskDueDateChanges. rewrite Ht, H. reflexivity.
    + unfold getMostPostponedTasks. rewrite H. reflexivity.
    + unfold getProjectStatus, findProjectByName. rewrite H. reflexivity.
    + unfold getProjectStatus. rewrite Hp. cbn [bind]. rewrite H. reflexivity.
    + unfold getProjectStatus. rewrite Hp. cbn [bind]. rewrite Hs. cbn [bind].
      rewrite Hsplit, (sectionStatuses_failure before after section e Hbefore H).
      reflexivity.
    + unfold getTasksUpdatedToday. cbv zeta. rewrite H. reflexivity.
    + unfold getTasksDueToday. cbv zeta. rewrite H. reflexivity.
    + unfold getWeeklyPlannedTasks. rewrite H. reflexivity.
    + unfold getOverdueTasksByPerson. cbv zeta. rewrite H. reflexivity.
    + unfold getSectionWithMostWork, findProjectByName. rewrite H. reflexivity.
    + unfold getSectionWithMostWork. rewrite Hp. cbn [bind]. rewrite H. reflexivity.
    + unfold getSectionWithMostWork. rewrite Hp. cbn [bind]. rewrite Hs. cbn [bind].
      assert (Hcount : (count_of sections =? 0) = false).
      { apply Z.eqb_neq. rewrite Hsplit. unfold count_of. rewrite length_app.
        cbn [List.length]. lia. }
      rewrite Hcount, Hsplit,
        (sectionWorkload_failure before after section e Hbefore H).
      reflexivity.
    + unfold listAllProjects. rewrite H. reflexivity.
    + unfold getRecentDueDateChanges. rewrite H. reflexivity.
    + unfold getUnassignedTasks. rewrite H. reflexivity.
    + unfold getTasksWithoutDueDates. rewrite H. reflexivity.
    + unfold searchTasksByName. rewrite H. reflexivity.
    + unfold getWorkspaceUsers_tool. rewrite H. reflexivity.
    + unfold getMe_tool. rewrite H. reflexivity.
    + unfold searchUsers_tool, searchUsers. rewrite H. reflexivity.
    + unfold getTasksAssignedTo. rewrite H. cbn [bind try_catch].
      rewrite !string_append_assoc. reflexivity.
Qed.

(** ** Further properties of the team workload *)

Lemma bucket_sum_perm (f : UserWorkload.t -> Z) (l l' : list UserWorkload.t) :
  Permutation l l' -> bucket_sum f l = bucket_sum f l'.
Proof. unfold bucket_sum. induction 1; cbn; lia. Qed.

Lemma bucket_sum_app (f : UserWorkload.t -> Z) (l l' : list UserWorkload.t) :
  bucket_sum f (l ++ l') = bucket_sum f l + bucket_sum f l'.
Proof.
  unfold bucket_sum. induction l as [| w l IH]; cbn; [reflexivity | rewrite IH; lia].
Qed.

Lemma bucket_sum_update (f : UserWorkload.t -> Z) (k : string)
  (g : UserWorkload.t -> UserWorkload.t) (m : WorkloadMap) (w : UserWorkload.t) :
  map_get k m = Some w ->
  bucket_sum f (map snd (map_update k g m)) = bucket_sum f (map snd m) - f w + f (g w).
Proof.
  unfold bucket_sum. induction m as [| [k0 v0] m IH]; cbn; [discriminate |].
  destruct (k =? k0)%string; cbn.
  - intros [= ->]. lia.
  - intros H. rewrite (IH H). lia.
Qed.

Lemma bucket_sum_lower (f : UserWorkload.t -> Z) (ws : list UserWorkload.t) :
  Forall (fun w => 1 <= f w) ws -> count_of ws <= bucket_sum f ws.
Proof.
  unfold bucket_sum, count_of. induction 1 as [| w ws Hw Hws IH]; cbn [fold_right List.length].
  - cbn. lia.
  - rewrite Nat2Z.inj_succ. lia.
Qed.

Lemma count_if_cons {A : Type} (p : A -> bool) (x : A) (l : list A) :
  count_if p (x :: l) = (if p x then 1 else 0) + count_if p l.
Proof.
  unfold count_if, count_of. cbn [filter]. destruct (p x); cbn [List.length];
    [rewrite Nat2Z.inj_succ |]; lia.
Qed.

Lemma count_if_filter {A : Type} (p q : A -> bool) (l : list A) :
  (forall x, p x = true -> q x = true) ->
  count_if p (filter q l) = count_if p l.
Proof.
  intros Hpq. induction l as [| x l IH]; [reflexivity |].
  cbn [filter]. destruct (q x) eqn:Hq.
  - rewrite !count_if_cons, IH. reflexivity.
  - rewrite count_if_cons, IH. destruct (p x) eqn:Hp; [| lia].
    rewrite (Hpq x Hp) in Hq. discriminate.
Qed.

Section Counters.
Variable d : string.

(** A counter [f] of the buckets that a new bucket starts at 0 and that
    [tally] raises by one exactly for the tasks passing [test]. *)
Variable f : UserWorkload.t -> Z.
Variable test : AsanaTask.t -> bool.
Hypothesis f_fresh : forall t, f (fresh t) = 0.
Hypothesis f_tally :
  forall t w, f (tally d t w) = f w + (if test t then 1 else 0).

Lemma step_bucket_sum (m : WorkloadMap) (t : AsanaTask.t) :
  bucket_sum f (map snd (workloadStep true d m t)) =
  bucket_sum f (map snd m) + (if test t then 1 else 0).
Proof using f_fresh f_tally.
  unfold workloadStep. cbn [negb andb].
  destruct (map_has (assigneeGid t) m) eqn:Hhas; cbn [negb].
  - destruct (map_get (assigneeGid t) m) as [w |] eqn:Hm.
    + rewrite (bucket_sum_update _ _ _ _ w Hm), f_tally. lia.
    + apply map_has_get in Hm. congruence.
  - erewrite bucket_sum_update.
    2:{ rewrite map_get_add. apply map_has_get in Hhas. rewrite Hhas.
        rewrite String.eqb_refl. reflexivity. }
    rewrite f_tally. unfold map_add. rewrite map_app, bucket_sum_app.
    fold (fresh t). unfold bucket_sum at 2. cbn [map snd fold_right].
    rewrite f_fresh. lia.
Qed.

Lemma loop_bucket_sum (l : list AsanaTask.t) (m : WorkloadMap) :
  bucket_sum f (map snd (fold_left (workloadStep true d) l m)) =
  bucket_sum f (map snd m) + count_if test l.
Proof using f_fresh f_tally.
  revert m. induction l as [| t l IH]; intros m; cbn [fold_left].
  - unfold count_if, count_of. cbn. lia.
  - rewrite IH, step_bucket_sum, count_if_cons. lia.
Qed.

End Counters.

Lemma tally_overdue (d : string) (t : AsanaTask.t) (w : UserWorkload.t) :
  UserWorkload.overdueTasks (tally d t w)
  = UserWorkload.overdueTasks w + (if isOverdue d t then 1 else 0).
Proof.
  unfold tally, isOverdue, and_then, Js.truthy.
  destruct (AsanaTask.due_on t) as [due |]; cbn.
  - destruct (negb (due =? "")%string), (negb (AsanaTask.completed t)),
      (Js.str_lt due d); cbn; lia.
  - rewrite andb_false_r. lia.
Qed.

Lemma tally_upcoming (d : string) (t : AsanaTask.t) (w : UserWorkload.t) :
  UserWorkload.upcomingTasks (tally d t w)
  = UserWorkload.upcomingTasks w + (if isUpcoming d t then 1 else 0).
Proof.
  unfold tally, isUpcoming, and_then, Js.truthy.
  destruct (AsanaTask.due_on t) as [due |]; cbn.
  - destruct (negb (due =? "")%string), (negb (AsanaTask.completed t)),
      (Js.str_lt due d); cbn; lia.
  - rewrite andb_false_r. lia.
Qed.

Lemma tally_done (d : string) (t : AsanaTask.t) (w : UserWorkload.t) :
  UserWorkload.completedTasks (tally d t w)
  = UserWorkload.completedTasks w + (if AsanaTask.completed t then 1 else 0).
Proof.
  unfold tally. destruct (AsanaTask.completed t);
    destruct (AsanaTask.due_on t) as [due |]; cbn;
    try destruct (_ && _); try destruct (Js.str_lt due d); cbn; lia.
Qed.

Lemma tally_count (d : string) (t : AsanaTask.t) (w : UserWorkload.t) :
  UserWorkload.totalTasks (tally d t w)
  = UserWorkload.totalTasks w + (if (fun _ : AsanaTask.t => true) t then 1 else 0).
Proof. apply tally_total. Qed.

(** The tasks the loop of [get_team_workload] tallies. *)
Lemma workloadMap_tallied (b : bool) (d : string) (tasks : list AsanaTask.t) :
  workloadMap b d tasks =
  fold_left (workloadStep true d) (if b then tasks else filter is_open tasks) [].
Proof. destruct b; [reflexivity | apply workloadMap_open]. Qed.

Lemma workloadArray_sum (f : UserWorkload.t -> Z) (test : AsanaTask.t -> bool)
  (b : bool) (d : string) (tasks : list AsanaTask.t) :
  (forall t, f (fresh t) = 0) ->
  (forall t w, f (tally d t w) = f w + (if test t then 1 else 0)) ->
  bucket_sum f (workloadArray b d tasks)
  = count_if test (if b then tasks else filter is_open tasks).
Proof.
  intros Hfresh Htally. unfold workloadArray.
  rewrite (bucket_sum_perm f _ _ (sort_perm byTotalDesc _)).
  rewrite workloadMap_tallied, (loop_bucket_sum d f test Hfresh Htally).
  unfold bucket_sum. cbn. lia.
Qed.

Lemma getOverdueTasks_returns (today : Today.t) (assignee : option string)
  (tasks : list AsanaTask.t) :
  getTasks client (TaskParams.mk None None assignee None None) = Ok tasks ->
  exists obj,
    getOverdueTasks today assignee = Ok obj /\
    field "error" obj = None /\
    field "count" obj = Some (JNum (count_if (isOverdue (Today.dateStr today)) tasks)) /\
    field "tasks" obj
    = Some (JArr (map (formatOverdue today) (overdueTasks (Today.dateStr today) tasks))).
Proof.
  intros Hfetch. unfold getOverdueTasks. rewrite Hfetch. cbn [bind try_catch].
  unfold count_if.
  assert (Hlen : count_of (overdueTasks (Today.dateStr today) tasks)
                 = count_of (filter (isOverdue (Today.dateStr today)) tasks)).
  { unfold overdueTasks, count_of. rewrite length_sort. reflexivity. }
  destruct (count_of (filter (isOverdue (Today.dateStr today)) tasks) =? 0) eqn:Hn.
  - apply Z.eqb_eq in Hn. rewrite Hn. apply count_of_zero in Hn.
    unfold overdueTasks. rewrite Hn. eexists. split; [reflexivity |]. repeat split.
  - rewrite Hlen. eexists. split; [reflexivity |]. repeat split.
Qed.

(** X1. Whichever way [includeCompleted] is set, the [overdueTasks] counters
    of the buckets of [get_team_workload] add up to the [count] that
    [get_overdue_tasks] (without assignee filter) reports on the same
    fetched tasks. *)
Theorem getTeamWorkload_overdue_total_matches_getOverdueTasks :
  forall (today : Today.t) (includeCompleted : bool) (tasks : list AsanaTask.t),
    getTasks client TaskParams.empty = Ok tasks ->
    let buckets := workloadArray includeCompleted (Today.dateStr today) tasks in
    exists team overdue,
      getTeamWorkload today includeCompleted = Ok team /\
      field "workload" team = Some (JArr (map summarize buckets)) /\
      getOverdueTasks today None = Ok overdue /\
      field "count" overdue
      = Some (JNum (bucket_sum UserWorkload.overdueTasks buckets)).
Proof.
  intros today b tasks Hfetch buckets.
  destruct (getTeamWorkload_returns today b tasks Hfetch) as (team & Hteam & _ & Hwork).
  destruct (getOverdueTasks_returns today None tasks Hfetch)
    as (overdue & Hover & _ & Hcount & _).
  exists team, overdue. repeat split; try assumption.
  rewrite Hcount. do 2 f_equal. unfold buckets.
  rewrite (workloadArray_sum UserWorkload.overdueTasks
             (isOverdue (Today.dateStr today)) b (Today.dateStr today) tasks
             (fun _ => eq_refl) (tally_overdue (Today.dateStr today))).
  destruct b; [reflexivity |]. symmetry. apply count_if_filter.
  intros t Ht. unfold isOverdue in Ht. apply andb_true_iff in Ht as [Ht _].
  exact Ht.
Qed.

Lemma count_of_In {A : Type} (x : A) (l : list A) : In x l -> 1 <= count_of l.
Proof. destruct l; [intros [] | intros _; unfold count_of; cbn [List.length]; lia]. Qed.

Lemma tallied_bucket_nonempty (d k : string) (w : UserWorkload.t)
  (l : list AsanaTask.t) :
  In (k, w) (fold_left (workloadStep true d) l []) ->
  1 <= UserWorkload.totalTasks w.
Proof.
  intros Hin.
  assert (Hget : map_get k (fold_left (workloadStep true d) l []) = Some w).
  { apply In_map_get; [apply loop_NoDup; constructor | exact Hin]. }
  pose proof (loop_total_at d k l []) as Htot. unfold total_at in Htot.
  rewrite Hget in Htot. cbn [map_get] in Htot.
  pose proof (loop_has d k l []) as Hhas. cbn [map_has orb] in Hhas.
  destruct (map_has k (fold_left (workloadStep true d) l [])) eqn:Hk.
  - symmetry in Hhas. apply existsb_exists in Hhas as (t & Ht & Hkt).
    assert (1 <= count_of (filter (keyed k) l)).
    { apply (count_of_In t). apply filter_In. auto. }
    lia.
  - apply map_has_get in Hk. congruence.
Qed.

Lemma tally_balance (d : string) (t : AsanaTask.t) (w : UserWorkload.t) :
  0 <= UserWorkload.completedTasks w ->
  0 <= UserWorkload.overdueTasks w ->
  0 <= UserWorkload.upcomingTasks w ->
  UserWorkload.completedTasks w + UserWorkload.overdueTasks w
  + UserWorkload.upcomingTasks w <= UserWorkload.totalTasks w ->
  0 <= UserWorkload.completedTasks (tally d t w) /\
  0 <= UserWorkload.overdueTasks (tally d t w) /\
  0 <= UserWorkload.upcomingTasks (tally d t w) /\
  UserWorkload.completedTasks (tally d t w) + UserWorkload.overdueTasks (tally d t w)
  + UserWorkload.upcomingTasks (tally d t w) <= UserWorkload.totalTasks (tally d t w).
Proof.
  intros Hc Ho Hu Hsum.
  rewrite tally_done, tally_overdue, tally_upcoming, tally_total.
  unfold isOverdue, isUpcoming.
  unfold and_then.
  destruct (AsanaTask.completed t); cbn [negb andb]; [lia |].
  destruct (AsanaTask.due_on t) as [due |]; [| lia].
  destruct (Js.truthy (Some due)), (Js.str_lt due d); cbn [negb andb]; lia.
Qed.

(** X2. Every bucket [get_team_workload] reports holds at least one task,
    its counters are non-negative and [completedTasks + overdueTasks +
    upcomingTasks] never exceeds [totalTasks]; so the rate is always the
    rounded quotient (the zero-total fallback is never taken), and there
    are never more buckets than tallied tasks: the fetched tasks when
    completed tasks are included, the open ones among them otherwise. *)
Theorem getTeamWorkload_buckets_consistent :
  forall (today : Today.t) (includeCompleted : bool) (tasks : list AsanaTask.t),
    getTasks client TaskParams.empty = Ok tasks ->
    let buckets := workloadArray includeCompleted (Today.dateStr today) tasks in
    (exists obj,
        getTeamWorkload today includeCompleted = Ok obj /\
        field "workload" obj = Some (JArr (map summarize buckets))) /\
    (forall w,
        In w buckets ->
        1 <= UserWorkload.totalTasks w /\
        0 <= UserWorkload.completedTasks w /\
        0 <= UserWorkload.overdueTasks w /\
        0 <= UserWorkload.upcomingTasks w /\
        UserWorkload.completedTasks w + UserWorkload.overdueTasks w
        + UserWorkload.upcomingTasks w <= UserWorkload.totalTasks w /\
        field "completionRate" (summarize w)
        = Some (JNum (round_pct (UserWorkload.completedTasks w)
                                (UserWorkload.totalTasks w)))) /\
    count_of buckets
    <= count_of (if includeCompleted then tasks else filter is_open tasks).
Proof.
  intros today b tasks Hfetch buckets.
  set (d := Today.dateStr today) in *.
  set (tallied := if b then tasks else filter is_open tasks).
  assert (Hmap : workloadMap b d tasks = fold_left (workloadStep true d) tallied [])
    by apply workloadMap_tallied.
  assert (Hpos : forall w, In w buckets -> 1 <= UserWorkload.totalTasks w).
  { intros w Hw. unfold buckets, workloadArray in Hw. apply In_sort in Hw.
    apply in_map_iff in Hw as ([k w'] & Hsnd & Hkw). cbn [snd] in Hsnd. subst w'.
    rewrite Hmap in Hkw. exact (tallied_bucket_nonempty d k w tallied Hkw). }
  split; [| split].
  - destruct (getTeamWorkload_returns today b tasks Hfetch) as (obj & Hobj & _ & Hw).
    exists obj. split; assumption.
  - intros w Hw. pose proof (Hpos w Hw) as Hone.
    assert (Hbal :
      Forall (fun kw : string * UserWorkload.t =>
                0 <= UserWorkload.completedTasks (snd kw) /\
                0 <= UserWorkload.overdueTasks (snd kw) /\
                0 <= UserWorkload.upcomingTasks (snd kw) /\
                UserWorkload.completedTasks (snd kw)
                + UserWorkload.overdueTasks (snd kw)
                + UserWorkload.upcomingTasks (snd kw)
                <= UserWorkload.totalTasks (snd kw))
             (workloadMap b d tasks)).
    { rewrite Hmap. apply loop_Forall.
      - intros t k w0 _ (H1 & H2 & H3 & H4). cbn [snd] in *.
        apply tally_balance; assumption.
      - intros t _. cbn. lia.
      - constructor. }
    unfold buckets, workloadArray in Hw. apply In_sort in Hw.
    apply in_map_iff in Hw as ([k w'] & Hsnd & Hkw). cbn [snd] in Hsnd. subst w'.
    rewrite Forall_forall in Hbal. destruct (Hbal _ Hkw) as (H1 & H2 & H3 & H4).
    cbn [snd] in *. repeat split; try assumption.
    unfold summarize. cbn [field lookup String.eqb Ascii.eqb Bool.eqb].
    unfold completionRate.
    destruct (Z.gtb_spec (UserWorkload.totalTasks w) 0); [reflexivity | lia].
  - transitivity (bucket_sum UserWorkload.totalTasks buckets).
    + apply bucket_sum_lower. apply Forall_forall. exact Hpos.
    + unfold buckets.
      rewrite (workloadArray_sum UserWorkload.totalTasks (fun _ => true) b d tasks
                 (fun _ => eq_refl) (tally_count d)).
      fold tallied. unfold count_if.
      assert (Hall : forall l : list AsanaTask.t, filter (fun _ => true) l = l).
      { induction l as [| x l IH]; cbn; [| rewrite IH]; reflexivity. }
      rewrite Hall. lia.
Qed.

(** X3. With [includeCompleted = true] nothing fetched is left out: the
    [totalTasks] of the buckets add up to the number of fetched tasks (it is
    the [totalTasks] field of the result whenever a task was fetched), and
    the [completedTasks] add up to the number of completed ones. *)
Theorem getTeamWorkload_with_completed_counts_every_task :
  forall (today : Today.t) (tasks : list AsanaTask.t),
    getTasks client TaskParams.empty = Ok tasks ->
    let buckets := workloadArray true (Today.dateStr today) tasks in
    bucket_sum UserWorkload.totalTasks buckets = count_of tasks /\
    bucket_sum UserWorkload.completedTasks buckets
    = count_if AsanaTask.completed tasks /\
    (tasks <> [] ->
     exists obj,
       getTeamWorkload today true = Ok obj /\
       field "totalTasks" obj = Some (JNum (count_of tasks)) /\
       field "teamMembers" obj = Some (JNum (count_of buckets))).
Proof.
  intros today tasks Hfetch buckets.
  set (d := Today.dateStr today) in *.
  assert (Hall : forall l : list AsanaTask.t, filter (fun _ => true) l = l).
  { induction l as [| x l IH]; cbn; [| rewrite IH]; reflexivity. }
  assert (Htotal : bucket_sum UserWorkload.totalTasks buckets = count_of tasks).
  { unfold buckets.
    rewrite (workloadArray_sum UserWorkload.totalTasks (fun _ => true) true d tasks
               (fun _ => eq_refl) (tally_count d)).
    unfold count_if. rewrite Hall. reflexivity. }
  split; [exact Htotal | split].
  - unfold buckets.
    apply (workloadArray_sum UserWorkload.completedTasks AsanaTask.completed true d tasks
             (fun _ => eq_refl) (tally_done d)).
  - intros Hne. unfold getTeamWorkload. rewrite Hfetch. cbn [bind try_catch].
    fold d. fold buckets.
    destruct (count_of buckets =? 0) eqn:Hn.
    + apply Z.eqb_eq in Hn. apply count_of_zero in Hn.
      rewrite Hn in Htotal. unfold bucket_sum in Htotal. cbn in Htotal.
      symmetry in Htotal. apply count_of_zero in Htotal. contradiction.
    + eexists. split; [reflexivity |].
      cbn [field lookup String.eqb Ascii.eqb Bool.eqb].
      rewrite sumTotals_total_sum. split; [| reflexivity].
      do 2 f_equal. exact Htotal.
Qed.

(** ** Overdue tasks per person *)

Section JsMapFacts.
Context {V : Type}.

Lemma JsMap_has_get (k : string) (m : JsMap.t V) :
  JsMap.has k m = false <-> JsMap.get k m = None.
Proof.
  induction m as [| [k' v] m IH]; cbn; [split; reflexivity |].
  destruct (k =? k')%string; cbn; [split; discriminate | exact IH].
Qed.

Lemma JsMap_update_add (k : string) (v : V) (g : V -> V) (m : JsMap.t V) :
  JsMap.has k m = false ->
  JsMap.update k g (JsMap.add k v m) = (m ++ [(k, g v)])%list.
Proof.
  unfold JsMap.add. induction m as [| [k' v'] m IH]; cbn.
  - intros _. rewrite String.eqb_refl. reflexivity.
  - destruct (k =? k')%string; cbn; [discriminate |].
    intros H. rewrite (IH H). reflexivity.
Qed.

Lemma JsMap_update_Forall (Q : V -> Prop) (k : string) (g : V -> V) (m : JsMap.t V) :
  (forall v, Q v -> Q (g v)) ->
  Forall Q (JsMap.values m) -> Forall Q (JsMap.values (JsMap.update k g m)).
Proof.
  intros Hg. unfold JsMap.values.
  induction m as [| [k' v'] m IH]; cbn; [constructor |].
  intros H. inversion H as [| ? ? Hv Hm]; subst.
  destruct (k =? k')%string; cbn; constructor; auto.
Qed.

Lemma JsMap_update_sum (f : V -> Z) (k : string) (g : V -> V) (m : JsMap.t V) :
  JsMap.has k m = true ->
  (forall v, f (g v) = f v + 1) ->
  fold_right (fun v sum => f v + sum) 0 (JsMap.values (JsMap.update k g m))
  = fold_right (fun v sum => f v + sum) 0 (JsMap.values m) + 1.
Proof.
  intros Hhas Hg. unfold JsMap.values.
  induction m as [| [k' v'] m IH]; cbn in *; [discriminate |].
  destruct (k =? k')%string; cbn in *.
  - rewrite Hg. lia.
  - rewrite (IH Hhas). lia.
Qed.

End JsMapFacts.

Lemma count_of_snoc {A : Type} (l : list A) (x : A) :
  count_of (l ++ [x]) = count_of l + 1.
Proof. unfold count_of. rewrite length_app. cbn. lia. Qed.

Lemma personStep_ok (m : JsMap.t PersonOverdue.t) (t : AsanaTask.t) :
  Forall person_ok (JsMap.values m) ->
  Forall person_ok (JsMap.values (personStep m t)) /\
  overdue_sum (JsMap.values (personStep m t)) = overdue_sum (JsMap.values m) + 1.
Proof.
  intros Hm. unfold personStep.
  destruct (JsMap.has (assigneeGid t) m) eqn:Hhas; cbn [negb].
  - split.
    + apply JsMap_update_Forall; [| exact Hm].
      intros p [Hpos Hlen]. unfold person_ok. cbn.
      rewrite count_of_snoc. lia.
    + unfold overdue_sum.
      apply (JsMap_update_sum PersonOverdue.overdueCount); [exact Hhas |].
      intros p. reflexivity.
  - rewrite JsMap_update_add by exact Hhas. unfold JsMap.values.
    rewrite map_app. split.
    + apply Forall_app. split; [exact Hm |].
      constructor; [| constructor]. unfold person_ok, count_of. cbn. lia.
    + unfold overdue_sum. rewrite fold_right_app. cbn.
      generalize (map snd m). intros l.
      induction l as [| p l IH]; cbn; lia.
Qed.

Lemma personLoop_ok (l : list AsanaTask.t) (m : JsMap.t PersonOverdue.t) :
  Forall person_ok (JsMap.values m) ->
  Forall person_ok (JsMap.values (fold_left personStep l m)) /\
  overdue_sum (JsMap.values (fold_left personStep l m))
  = overdue_sum (JsMap.values m) + count_of l.
Proof.
  revert m. induction l as [| t l IH]; intros m Hm; cbn [fold_left].
  - split; [exact Hm | unfold count_of; cbn; lia].
  - destruct (personStep_ok m t Hm) as [Hok Hsum].
    destruct (IH _ Hok) as [Hok' Hsum']. split; [exact Hok' |].
    rewrite Hsum', Hsum. unfold count_of. cbn [List.length].
    rewrite Nat2Z.inj_succ. lia.
Qed.

Lemma overdue_sum_perm (l l' : list PersonOverdue.t) :
  Permutation l l' -> overdue_sum l = overdue_sum l'.
Proof. unfold overdue_sum. induction 1; cbn; lia. Qed.

(** X4. [get_overdue_tasks_by_person] accounts for every overdue task once:
    the [overdueCount]s of the persons add up to [totalOverdue], which is
    the [count] [get_overdue_tasks] reports on the same fetched tasks; each
    person listed has at least one overdue task and as many listed tasks as
    its [overdueCount]; and the persons come in descending [overdueCount]
    order. *)
Theorem getOverdueTasksByPerson_accounts_for_every_overdue_task :
  forall (today : Today.t) (tasks : list AsanaTask.t),
    getTasks client TaskParams.empty = Ok tasks ->
    let persons := overdueResultArray (Today.dateStr today) tasks in
    (exists obj overdue,
        getOverdueTasksByPerson today = Ok obj /\
        field "error" obj = None /\
        field "totalOverdue" obj = Some (JNum (overdue_sum persons)) /\
        field "byPerson" obj = Some (JArr (map renderPerson persons)) /\
        getOverdueTasks today None = Ok overdue /\
        field "count" overdue = Some (JNum (overdue_sum persons))) /\
    (forall p,
        In p persons ->
        1 <= PersonOverdue.overdueCount p /\
        PersonOverdue.overdueCount p = count_of (PersonOverdue.tasks p)) /\
    StronglySorted
      (fun a b => PersonOverdue.overdueCount a >= PersonOverdue.overdueCount b)
      persons.
Proof.
  intros today tasks Hfetch persons.
  set (d := Today.dateStr today) in *.
  destruct (personLoop_ok (filter (isOverdue d) tasks) [] (Forall_nil _))
    as [Hok Hsum].
  fold (overdueByPerson d tasks) in Hok, Hsum.
  assert (Htotal : overdue_sum persons = count_if (isOverdue d) tasks).
  { unfold persons, overdueResultArray.
    rewrite (overdue_sum_perm _ _ (sort_perm byOverdueDesc _)), Hsum.
    unfold overdue_sum, count_if. cbn. lia. }
  split; [| split].
  - destruct (getOverdueTasks_returns today None tasks Hfetch)
      as (overdue & Hover & _ & Hcount & _).
    fold d in Hcount.
    unfold getOverdueTasksByPerson. rewrite Hfetch. cbn [bind try_catch].
    fold d. fold persons. rewrite Htotal. unfold count_if in *.
    destruct (count_of (filter (isOverdue d) tasks) =? 0) eqn:Hn.
    + apply Z.eqb_eq in Hn.
      assert (Hnil : persons = []).
      { unfold persons, overdueResultArray, overdueByPerson.
        rewrite (count_of_zero _ Hn). reflexivity. }
      rewrite Hnil, Hn in *. eexists. exists overdue.
      split; [reflexivity |]. repeat split; assumption.
    + eexists. exists overdue. split; [reflexivity |]. repeat split; assumption.
  - intros p Hp. unfold persons, overdueResultArray in Hp. apply In_sort in Hp.
    rewrite Forall_forall in Hok. exact (Hok p Hp).
  - unfold persons, overdueResultArray.
    apply (StronglySorted_weaken (fun x y => byOverdueDesc x y <= 0) _ (fun _ => True)).
    + unfold byOverdueDesc. intros; lia.
    + apply Forall_forall. trivial.
    + apply (sort_sorted byOverdueDesc (fun _ => True)).
      * unfold byOverdueDesc. intros; lia.
      * unfold byOverdueDesc. intros; lia.
      * apply Forall_forall. trivial.
Qed.

(** ** The list tools *)

Lemma count_of_map {A B : Type} (f : A -> B) (l : list A) :
  count_of (map f l) = count_of l.
Proof. unfold count_of. rewrite length_map. reflexivity. Qed.

Ltac solve_list_returns Hfetch :=
  rewrite Hfetch; cbn [bind try_catch];
  match goal with
  | |- context [count_of ?l =? 0] =>
      destruct (count_of l =? 0) eqn:Hn;
      [ apply Z.eqb_eq in Hn; rewrite Hn; apply count_of_zero in Hn; rewrite Hn
      | ];
      eexists; (split; [reflexivity |]); repeat split
  end.

Lemma getTasksDueToday_returns (today : Today.t) (assignee : option string)
  (excludeCompleted : bool) (tasks : list AsanaTask.t) :
  getTasks client (TaskParams.mk None None assignee None None) = Ok tasks ->
  let due := dueToday (Today.dateStr today) excludeCompleted tasks in
  exists obj,
    getTasksDueToday today assignee excludeCompleted = Ok obj /\
    field "error" obj = None /\
    field "count" obj = Some (JNum (count_of due)) /\
    field "tasks" obj = Some (JArr (map formatDue due)).
Proof.
  intros Hfetch due. subst due. unfold getTasksDueToday. solve_list_returns Hfetch.
Qed.

Lemma getTasksWithoutDueDates_returns (excludeCompleted : bool)
  (assignee : option string) (tasks : list AsanaTask.t) :
  getTasks client (TaskParams.mk None None assignee None None) = Ok tasks ->
  let undated := tasksWithoutDueDate excludeCompleted tasks in
  exists obj,
    getTasksWithoutDueDates excludeCompleted assignee = Ok obj /\
    field "error" obj = None /\
    field "count" obj = Some (JNum (count_of undated)) /\
    field "tasks" obj = Some (JArr (map formatUndated undated)).
Proof.
  intros Hfetch undated. subst undated. unfold getTasksWithoutDueDates.
  solve_list_returns Hfetch.
Qed.

Lemma getUnassignedTasks_returns (excludeCompleted : bool)
  (tasks : list AsanaTask.t) :
  getTasks client TaskParams.empty = Ok tasks ->
  let found := unassignedTasks excludeCompleted tasks in
  exists obj,
    getUnassignedTasks excludeCompleted = Ok obj /\
    field "error" obj = None /\
    field "count" obj = Some (JNum (count_of found)) /\
    field "tasks" obj = Some (JArr (map formatUnassigned found)).
Proof.
  intros Hfetch found. subst found. unfold getUnassignedTasks.
  solve_list_returns Hfetch.
Qed.

Lemma list_execute_returns (call : ListCall) (tasks : list AsanaTask.t) :
  getTasks client (list_fetch call) = Ok tasks ->
  exists obj,
    list_execute call = Ok obj /\
    field "error" obj = None /\
    field "count" obj = Some (JNum (count_of (list_selected call tasks))) /\
    field "tasks" obj
    = Some (JArr (map (list_format call) (list_selected call tasks))).
Proof.
  intros Hfetch.
  destruct call; cbn [list_execute list_fetch list_selected list_format] in *;
    [ unfold getTasksUpdatedToday | unfold getTasksDueToday
    | unfold getUnassignedTasks | unfold getTasksWithoutDueDates
    | unfold searchTasksByName | unfold getTasksAssignedTo ];
    solve_list_returns Hfetch.
Qed.

Lemma list_execute_fails (call : ListCall) (e : string) :
  getTasks client (list_fetch call) = Err e ->
  exists msg,
    list_execute call
    = Ok (JObj [("error", JStr msg); ("count", JNum 0); ("tasks", JArr [])]).
Proof.
  intros Hfetch.
  destruct call; cbn [list_execute list_fetch] in *;
    [ unfold getTasksUpdatedToday | unfold getTasksDueToday
    | unfold getUnassignedTasks | unfold getTasksWithoutDueDates
    | unfold searchTasksByName | unfold getTasksAssignedTo ];
    rewrite Hfetch; cbn [bind try_catch]; eexists; reflexivity.
Qed.

(** X5. In the six tools that answer with [count] and [tasks]
    ([get_tasks_updated_today], [get_tasks_due_today],
    [get_unassigned_tasks], [get_tasks_without_due_dates],
    [search_tasks_by_name], [get_tasks_assigned_to]) the [count] is always
    the number of elements of [tasks]; the result has an [error] field
    exactly when the task fetch failed, and then [tasks] is empty. *)
Theorem list_tools_count_is_number_of_tasks :
  forall call : ListCall,
    exists obj items,
      list_execute call = Ok obj /\
      field "tasks" obj = Some (JArr items) /\
      field "count" obj = Some (JNum (count_of items)) /\
      (field "error" obj = None <->
       exists tasks, getTasks client (list_fetch call) = Ok tasks) /\
      ((exists e, getTasks client (list_fetch call) = Err e) -> items = []).
Proof.
  intros call. destruct (getTasks client (list_fetch call)) as [tasks | e] eqn:Hfetch.
  - destruct (list_execute_returns call tasks Hfetch) as (obj & Hobj & Herr & Hcount & Htasks).
    exists obj, (map (list_format call) (list_selected call tasks)).
    split; [exact Hobj |]. split; [exact Htasks |].
    split; [rewrite count_of_map; exact Hcount |].
    split; [split; [intros _; exists tasks; reflexivity | intros _; exact Herr] |].
    intros (e & He). discriminate He.
  - destruct (list_execute_fails call e Hfetch) as (msg & Hobj).
    eexists. exists []. split; [exact Hobj |].
    split; [reflexivity |]. split; [reflexivity |].
    split; [| reflexivity].
    split; [discriminate | intros (tasks & Ht); discriminate Ht].
Qed.

Lemma In_dropCompleted (excludeCompleted : bool) (l : list AsanaTask.t)
  (t : AsanaTask.t) :
  In t (dropCompleted excludeCompleted l) <->
  In t l /\ (excludeCompleted = true -> AsanaTask.completed t = false).
Proof.
  unfold dropCompleted. destruct excludeCompleted.
  - rewrite filter_In, negb_true_iff. split; intros [H1 H2]; auto.
  - split; [intros H; split; [exact H | discriminate] | intros [H _]; exact H].
Qed.

Lemma ltb_irrefl (s : string) : String.ltb s s = false.
Proof.
  unfold String.ltb. pose proof (String.compare_antisym s s) as H.
  destruct (String.compare s s); try reflexivity; discriminate H.
Qed.

(** X6. On the same fetched tasks and the same clock, the reports of
    [get_overdue_tasks], [get_tasks_due_today] and
    [get_tasks_without_due_dates] never share a task: an overdue task is
    not due today, and a task without due date is neither. *)
Theorem due_date_reports_are_disjoint :
  forall (today : Today.t) (assignee : option string) (tasks : list AsanaTask.t)
         (exclToday exclUndated : bool),
    getTasks client (TaskParams.mk None None assignee None None) = Ok tasks ->
    let overdue := overdueTasks (Today.dateStr today) tasks in
    let due := dueToday (Today.dateStr today) exclToday tasks in
    let undated := tasksWithoutDueDate exclUndated tasks in
    (exists o1 o2 o3,
        getOverdueTasks today assignee = Ok o1 /\
        field "tasks" o1 = Some (JArr (map (formatOverdue today) overdue)) /\
        getTasksDueToday today assignee exclToday = Ok o2 /\
        field "tasks" o2 = Some (JArr (map formatDue due)) /\
        getTasksWithoutDueDates exclUndated assignee = Ok o3 /\
        field "tasks" o3 = Some (JArr (map formatUndated undated))) /\
    (forall t, In t overdue -> ~ In t due) /\
    (forall t, In t undated -> ~ In t overdue /\ ~ In t due).
Proof.
  intros today assignee tasks e1 e2 Hfetch overdue due undated.
  set (d := Today.dateStr today) in *.
  assert (Hover : forall t, In t overdue ->
            exists s, AsanaTask.due_on t = Some s /\ s <> "" /\ String.ltb s d = true).
  { intros t Ht. unfold overdue, overdueTasks in Ht. apply In_sort in Ht.
    apply filter_In in Ht as [_ Ht]. apply isOverdue_true in Ht as [_ Ht]. exact Ht. }
  assert (Hdue : forall t, In t due -> AsanaTask.due_on t = Some d).
  { intros t Ht. unfold due, dueToday in Ht. apply In_dropCompleted in Ht as [Ht _].
    apply filter_In in Ht as [_ Ht].
    apply and_then_true in Ht as (s & Hs & _ & Heq).
    apply String.eqb_eq in Heq. congruence. }
  assert (Hund : forall t, In t undated -> Js.truthy (AsanaTask.due_on t) = false).
  { intros t Ht. unfold undated, tasksWithoutDueDate in Ht.
    apply In_dropCompleted in Ht as [Ht _]. apply filter_In in Ht as [_ Ht].
    apply andb_true_iff in Ht as [Ht _]. apply negb_true_iff in Ht. exact Ht. }
  split; [| split].
  - destruct (getOverdueTasks_returns today assignee tasks Hfetch)
      as (o1 & H1 & _ & _ & T1).
    destruct (getTasksDueToday_returns today assignee e1 tasks Hfetch)
      as (o2 & H2 & _ & _ & T2).
    destruct (getTasksWithoutDueDates_returns e2 assignee tasks Hfetch)
      as (o3 & H3 & _ & _ & T3).
    exists o1, o2, o3. repeat split; assumption.
  - intros t Ho Hd. destruct (Hover t Ho) as (s & Hs & _ & Hlt).
    rewrite (Hdue t Hd) in Hs. injection Hs as <-.
    rewrite ltb_irrefl in Hlt. discriminate.
  - intros t Hu. pose proof (Hund t Hu) as Hfalsy. split.
    + intros Ho. destruct (Hover t Ho) as (s & Hs & Hne & _).
      unfold Js.truthy in Hfalsy. rewrite Hs in Hfalsy.
      apply negb_false_iff, String.eqb_eq in Hfalsy. contradiction.
    + intros Hd. pose proof (Hdue t Hd) as Hs.
      unfold due, dueToday in Hd. apply In_dropCompleted in Hd as [Hd _].
      apply filter_In in Hd as [_ Hd].
      apply and_then_true in Hd as (s & Hs' & Hne & _).
      unfold Js.truthy in Hfalsy. rewrite Hs' in Hfalsy.
      apply negb_false_iff, String.eqb_eq in Hfalsy. contradiction.
Qed.

Lemma filter_comm {A : Type} (p q : A -> bool) (l : list A) :
  filter p (filter q l) = filter q (filter p l).
Proof.
  induction l as [| x l IH]; [reflexivity |]. cbn [filter].
  destruct (p x) eqn:Hp, (q x) eqn:Hq; cbn [filter];
    rewrite ?Hp, ?Hq, IH; reflexivity.
Qed.

(** X7. On the same fetched tasks, the [count] of [get_unassigned_tasks]
    (completed tasks excluded) is the [totalTasks] of the bucket
    [get_team_workload] keeps under ["unassigned"], and that bucket exists
    exactly when the count is not zero; assignee gids are real, that is
    neither empty nor ["unassigned"]. *)
Theorem getUnassignedTasks_count_is_the_unassigned_bucket :
  forall (today : Today.t) (tasks : list AsanaTask.t),
    getTasks client TaskParams.empty = Ok tasks ->
    proper_gids tasks ->
    let buckets := workloadMap false (Today.dateStr today) tasks in
    (exists obj,
        getUnassignedTasks true = Ok obj /\
        field "count" obj = Some (JNum (total_at "unassigned" buckets))) /\
    (map_get "unassigned" buckets = None <-> unassignedTasks true tasks = []).
Proof.
  intros today tasks Hfetch Hgids buckets.
  set (d := Today.dateStr today) in *.
  assert (Htotal : total_at "unassigned" buckets = count_of (unassignedTasks true tasks)).
  { unfold buckets. rewrite workloadMap_open. unfold workloadMap.
    rewrite loop_total_at. unfold total_at. cbn [map_get].
    unfold unassignedTasks, dropCompleted.
    change (fun task : AsanaTask.t => negb (AsanaTask.completed task)) with is_open.
    change (fun task : AsanaTask.t =>
              match AsanaTask.assignee task with
              | Some _ => false
              | None => true
              end) with is_unassigned.
    rewrite (filter_comm is_open is_unassigned).
    rewrite (filter_ext_in (keyed "unassigned") is_unassigned); [lia |].
    intros t Ht. apply filter_In in Ht as [Ht _].
    apply (keyed_unassigned tasks); assumption. }
  split.
  - destruct (getUnassignedTasks_returns true tasks Hfetch) as (obj & Hobj & _ & Hcount & _).
    exists obj. split; [exact Hobj |]. rewrite Htotal. exact Hcount.
  - split.
    + intros Hnone. apply count_of_zero. rewrite <- Htotal.
      unfold total_at. rewrite Hnone. reflexivity.
    + intros Hnil.
      destruct (map_get "unassigned" buckets) as [w |] eqn:Hget; [| reflexivity].
      exfalso.
      assert (Hw : total_at "unassigned" buckets = UserWorkload.totalTasks w).
      { unfold total_at. rewrite Hget. reflexivity. }
      apply map_get_In in Hget. unfold buckets in Hget.
      rewrite workloadMap_open in Hget.
      pose proof (tallied_bucket_nonempty d "unassigned" w _ Hget) as Hone.
      rewrite Htotal, Hnil in Hw. unfold count_of in Hw. cbn in Hw. lia.
Qed.

Lemma includes_empty (s : string) : JsText.includes s "" = true.
Proof. destruct s; reflexivity. Qed.

Lemma filter_all {A : Type} (p : A -> bool) (l : list A) :
  (forall x, In x l -> p x = true) -> filter p l = l.
Proof.
  induction l as [| x l IH]; intros H; [reflexivity |]. cbn [filter].
  rewrite (H x (or_introl eq_refl)). f_equal. apply IH.
  intros y Hy. apply H. right; exact Hy.
Qed.

Lemma filter_none {A : Type} (p : A -> bool) (l : list A) :
  (forall x, In x l -> p x = false) -> filter p l = [].
Proof.
  induction l as [| x l IH]; intros H; [reflexivity |]. cbn [filter].
  rewrite (H x (or_introl eq_refl)). apply IH.
  intros y Hy. apply H. right; exact Hy.
Qed.

(** X8. [search_tasks_by_name] matches up to case: two queries equal up to
    case select the same tasks.  When no fetched task name contains the
    query, the answer is the not-found message with [count] 0 and no
    [error]; and the empty query selects every fetched task. *)
Theorem searchTasksByName_matches_up_to_case :
  forall (tasks : list AsanaTask.t) (excludeCompleted : bool) (query : string),
    getTasks client TaskParams.empty = Ok tasks ->
    (forall query',
        toLowerCase query' = toLowerCase query ->
        matchingTasks query' excludeCompleted tasks
        = matchingTasks query excludeCompleted tasks) /\
    ((forall t, In t tasks ->
                JsText.includes (toLowerCase (AsanaTask.name t)) (toLowerCase query)
                = false) ->
     searchTasksByName query excludeCompleted
     = Ok (JObj [("message",
                  JStr ("No tasks found matching " ++ Js.dquote ++ query
                        ++ Js.dquote ++ "."));
                 ("count", JNum 0);
                 ("tasks", JArr [])])) /\
    (toLowerCase "" = "" -> matchingTasks "" false tasks = tasks).
Proof.
  intros tasks excl query Hfetch. split; [| split].
  - intros query' Hq. unfold matchingTasks. rewrite Hq. reflexivity.
  - intros Hnone. unfold searchTasksByName. rewrite Hfetch. cbn [bind try_catch].
    unfold matchingTasks. rewrite (filter_none _ tasks Hnone).
    destruct excl; reflexivity.
  - intros Hempty. unfold matchingTasks, dropCompleted. rewrite Hempty.
    apply filter_all. intros t _. apply includes_empty.
Qed.

(** X9. [search_users] only ever returns workspace users, and reports a
    failed user fetch as its own failure result.  With the empty query it
    returns every workspace user: its [count] and [users] are those of
    [get_workspace_users]. *)
Theorem searchUsers_empty_query_lists_everyone :
  (forall (query : string) (all found : list AsanaUser.t),
      getWorkspaceUsers users = Ok all ->
      searchUsers query = Ok found ->
      incl found all) /\
  (forall (query e : string),
      getWorkspaceUsers users = Err e ->
      searchUsers_tool query
      = Ok (JObj [("error", JStr ("Failed to search users: " ++ show_error e));
                  ("count", JNum 0);
                  ("users", JArr [])])) /\
  (toLowerCase "" = "" ->
   forall all,
     getWorkspaceUsers users = Ok all ->
     searchUsers "" = Ok all /\
     exists o1 o2,
       searchUsers_tool "" = Ok o1 /\
       getWorkspaceUsers_tool = Ok o2 /\
       field "users" o1 = Some (JArr (map formatUser all)) /\
       field "users" o2 = Some (JArr (map formatUser all)) /\
       field "count" o1 = Some (JNum (count_of all)) /\
       field "count" o2 = Some (JNum (count_of all))).
Proof.
  split; [| split].
  - intros query all found Hall Hfound. unfold searchUsers in Hfound.
    rewrite Hall in Hfound. cbn [bind] in Hfound. injection Hfound as <-.
    intros u Hu. apply filter_In in Hu as [Hu _]. exact Hu.
  - intros query e Herr. unfold searchUsers_tool, searchUsers. rewrite Herr.
    reflexivity.
  - intros Hempty all Hall.
    assert (Hsearch : searchUsers "" = Ok all).
    { unfold searchUsers. rewrite Hall. cbn [bind]. f_equal. rewrite Hempty.
      apply filter_all. intros u _. unfold user_matches.
      rewrite includes_empty. reflexivity. }
    split; [exact Hsearch |].
    unfold searchUsers_tool, getWorkspaceUsers_tool. rewrite Hsearch, Hall.
    cbn [bind try_catch].
    destruct (count_of all =? 0) eqn:Hn.
    + apply Z.eqb_eq in Hn. rewrite Hn. apply count_of_zero in Hn. rewrite Hn.
      eexists. eexists. repeat split.
    + eexists. eexists. repeat split.
Qed.

(** X10. [get_tasks_assigned_to] shows the first tasks of the fetch, in fetch
    order, after dropping the completed ones when asked to: at most
    [limit] of them for [limit >= 0], none of them completed when
    [excludeCompleted] is set; with [limit = 0] it answers that no tasks
    were found, whatever was fetched. *)
Theorem getTasksAssignedTo_shows_a_bounded_prefix :
  forall (nowISO assignee : string) (excludeCompleted : bool) (limit : Z)
         (tasks : list AsanaTask.t),
    getTasks client
      (TaskParams.mk None None (Some assignee)
                     (if excludeCompleted then Some nowISO else None) None)
    = Ok tasks ->
    let shown := assignedTasks excludeCompleted limit tasks in
    (exists obj,
        getTasksAssignedTo nowISO assignee excludeCompleted limit = Ok obj /\
        field "error" obj = None /\
        field "count" obj = Some (JNum (count_of shown)) /\
        field "tasks" obj = Some (JArr (map formatUnassigned shown))) /\
    (exists rest, dropCompleted excludeCompleted tasks = (shown ++ rest)%list) /\
    (0 <= limit -> count_of shown <= limit) /\
    (excludeCompleted = true ->
     forall t, In t shown -> AsanaTask.completed t = false) /\
    (limit = 0 ->
     getTasksAssignedTo nowISO assignee excludeCompleted limit
     = Ok (JObj [("message", JStr "No tasks found for this user.");
                 ("count", JNum 0);
                 ("tasks", JArr [])])).
Proof.
  intros nowISO assignee excl limit tasks Hfetch shown.
  split; [| split; [| split; [| split]]].
  - unfold shown, getTasksAssignedTo. solve_list_returns Hfetch.
  - unfold shown, assignedTasks, Js.slice0.
    eexists. symmetry. apply firstn_skipn.
  - intros Hl. unfold shown, assignedTasks. rewrite slice0_count.
    destruct (Z.ltb_spec limit 0); lia.
  - intros -> t Ht. unfold shown, assignedTasks, Js.slice0 in Ht.
    apply In_firstn in Ht. apply In_dropCompleted in Ht as [_ Ht]. auto.
  - intros ->. unfold getTasksAssignedTo. rewrite Hfetch. cbn [bind try_catch].
    assert (Hnone : count_of (assignedTasks excl 0 tasks) = 0).
    { unfold assignedTasks. rewrite slice0_count. cbn.
      unfold count_of. lia. }
    rewrite Hnone. reflexivity.
Qed.

(** ** Project and section reports *)

Lemma insert_map {A B : Type} (cmpA : A -> A -> Z) (cmpB : B -> B -> Z)
  (h : A -> B) (x : A) (l : list A) :
  (forall a b, cmpB (h a) (h b) = cmpA a b) ->
  map h (Js.insert cmpA x l) = Js.insert cmpB (h x) (map h l).
Proof.
  intros Hcmp. induction l as [| y l IH]; cbn; [reflexivity |].
  rewrite Hcmp. destruct (cmpA x y <=? 0); cbn; [reflexivity |].
  rewrite IH. reflexivity.
Qed.

Lemma sort_map {A B : Type} (cmpA : A -> A -> Z) (cmpB : B -> B -> Z)
  (h : A -> B) (l : list A) :
  (forall a b, cmpB (h a) (h b) = cmpA a b) ->
  map h (Js.sort cmpA l) = Js.sort cmpB (map h l).
Proof.
  intros Hcmp. unfold Js.sort.
  induction l as [| x l IH]; cbn [fold_right map]; [reflexivity |].
  rewrite (insert_map cmpA cmpB h _ _ Hcmp), IH. reflexivity.
Qed.

Lemma count_of_split {A : Type} (p : A -> bool) (l : list A) :
  count_of (filter p l) + count_of (filter (fun x => negb (p x)) l) = count_of l.
Proof.
  unfold count_of. induction l as [| x l IH]; [reflexivity |].
  cbn [filter]. destruct (p x); cbn [negb List.length];
    rewrite ?Nat2Z.inj_succ; lia.
Qed.

Lemma count_of_nonneg {A : Type} (l : list A) : 0 <= count_of l.
Proof. unfold count_of. lia. Qed.

(** The two loops over the sections read the same fetches: they fail
    together, and when they succeed they produce one entry per section, in
    order, with the same names and numbers of incomplete tasks. *)
Lemma sectionStatuses_sectionWorkload (sections : list AsanaSection.t) :
  match sectionStatuses sections, sectionWorkload sections with
  | Ok statuses, Ok workload =>
      map status_key statuses = map work_key workload /\
      List.length statuses = List.length sections /\
      Forall (fun s => 0 <= SectionStatus.completedTasks s
                       <= SectionStatus.totalTasks s) statuses
  | Err e, Err e' => e = e'
  | _, _ => False
  end.
Proof.
  induction sections as [| s sections IH]; cbn [sectionStatuses sectionWorkload].
  - repeat split; constructor.
  - destruct (getSectionTasks client (AsanaSection.gid s)) as [tasks | e];
      cbn [bind]; [| reflexivity].
    destruct (sectionStatuses sections) as [statuses | e],
             (sectionWorkload sections) as [workload | e']; cbn [bind];
      try contradiction; [| exact IH].
    destruct IH as (Hkeys & Hlen & Hall).
    pose proof (count_of_split AsanaTask.completed tasks) as Hsplit.
    pose proof (count_of_nonneg (filter AsanaTask.completed tasks)).
    pose proof (count_of_nonneg (filter (fun x => negb (AsanaTask.completed x)) tasks)).
    split; [| split].
    + cbn [map]. rewrite Hkeys. f_equal. unfold status_key, work_key. cbn.
      f_equal. lia.
    + cbn [List.length]. rewrite Hlen. reflexivity.
    + constructor; [cbn; lia | exact Hall].
Qed.

Lemma sorted_head_is_max {A : Type} (key : A -> Z) (x : A) (l : list A) :
  StronglySorted (fun a b => key a >= key b) (x :: l) ->
  forall y, In y (x :: l) -> key y <= key x.
Proof.
  intros Hs y [<- | Hy]; [lia |].
  apply StronglySorted_inv in Hs as [_ Hx]. rewrite Forall_forall in Hx.
  specialize (Hx y Hy). lia.
Qed.

Lemma sort_desc_sorted {A : Type} (key : A -> Z) (l : list A) :
  StronglySorted (fun a b => key a >= key b) (Js.sort (fun a b => key b - key a) l).
Proof.
  apply (StronglySorted_weaken (fun x y => key y - key x <= 0) _ (fun _ => True)).
  - intros; lia.
  - apply Forall_forall. trivial.
  - apply (sort_sorted (fun a b => key b - key a) (fun _ => True)).
    + intros; lia.
    + intros; lia.
    + apply Forall_forall. trivial.
Qed.

Lemma fold_left_sum_nonneg {A : Type} (f g : A -> Z) (l : list A) :
  Forall (fun x => 0 <= g x <= f x) l ->
  0 <= fold_left (fun sum x => sum + g x) l 0
  <= fold_left (fun sum x => sum + f x) l 0.
Proof.
  intros Hall.
  assert (H : forall a b, 0 <= b <= a ->
            0 <= fold_left (fun sum x => sum + g x) l b
            <= fold_left (fun sum x => sum + f x) l a).
  { induction Hall as [| x l Hx Hl IH]; intros a b Hab; cbn; [lia |].
    apply IH. lia. }
  apply H. lia.
Qed.

(** X11. The numbers of [get_project_status] are consistent: per section and
    over the project, [0 <= completedTasks <= totalTasks] and
    [incompleteTasks = totalTasks - completedTasks]; [sectionCount] is the
    number of sections fetched, all of which are listed; and the sections
    come in descending order of incomplete tasks. *)
Theorem getProjectStatus_numbers_are_consistent :
  forall (projectName : string) (project : AsanaProject.t)
         (sections : list AsanaSection.t) (statuses : list SectionStatus.t),
    findProjectByName projectName = Ok (Some project) ->
    getProjectSections client (AsanaProject.gid project) = Ok sections ->
    sectionStatuses sections = Ok statuses ->
    exists obj total completed sorted,
      getProjectStatus projectName = Ok obj /\
      field "totalTasks" obj = Some (JNum total) /\
      field "completedTasks" obj = Some (JNum completed) /\
      field "incompleteTasks" obj = Some (JNum (total - completed)) /\
      0 <= completed <= total /\
      field "sectionCount" obj = Some (JNum (count_of sections)) /\
      field "sections" obj = Some (JArr (map renderSection sorted)) /\
      count_of sorted = count_of sections /\
      StronglySorted
        (fun a b => SectionSummary.incompleteTasks a >= SectionSummary.incompleteTasks b)
        sorted /\
      (forall s,
          In s sorted ->
          0 <= SectionSummary.completedTasks s <= SectionSummary.totalTasks s /\
          SectionSummary.incompleteTasks s
          = SectionSummary.totalTasks s - SectionSummary.completedTasks s).
Proof.
  intros name project sections statuses Hfind Hsec Hst.
  pose proof (sectionStatuses_sectionWorkload sections) as Hrel.
  rewrite Hst in Hrel. destruct (sectionWorkload sections) as [workload | e];
    [| contradiction].
  destruct Hrel as (_ & Hlen & Hall).
  unfold getProjectStatus. rewrite Hfind. cbn [bind]. rewrite Hsec. cbn [bind].
  rewrite Hst. cbn [bind try_catch].
  eexists. eexists. eexists.
  exists (Js.sort byIncompleteDesc (map summarizeSection statuses)).
  split; [reflexivity |].
  cbn [field lookup String.eqb Ascii.eqb Bool.eqb].
  split; [reflexivity |]. split; [reflexivity |]. split; [reflexivity |].
  split; [apply fold_left_sum_nonneg; exact Hall |].
  split; [reflexivity |]. split; [reflexivity |].
  split; [| split].
  - unfold count_of. rewrite length_sort, length_map, Hlen. reflexivity.
  - apply (sort_desc_sorted SectionSummary.incompleteTasks).
  - intros s Hs. apply In_sort in Hs. apply in_map_iff in Hs as (st & <- & Hin).
    rewrite Forall_forall in Hall. specialize (Hall st Hin).
    unfold summarizeSection. cbn. split; [exact Hall | reflexivity].
Qed.

(** X12. [get_section_with_most_work] names a section with the largest number
    of incomplete tasks, and it is the section [get_project_status] lists
    first for the same project: same name, same number of incomplete
    tasks. *)
Theorem getSectionWithMostWork_is_first_section_of_getProjectStatus :
  forall (projectName : string) (project : AsanaProject.t)
         (sections : list AsanaSection.t) (statuses : list SectionStatus.t),
    findProjectByName projectName = Ok (Some project) ->
    getProjectSections client (AsanaProject.gid project) = Ok sections ->
    sections <> [] ->
    sectionStatuses sections = Ok statuses ->
    exists work busiest others status first rest,
      getSectionWithMostWork projectName = Ok work /\
      field "error" work = None /\
      field "busiestSection" work = Some (JStr (SectionWork.sectionName busiest)) /\
      field "incompleteTasks" work = Some (JNum (SectionWork.incompleteTasks busiest)) /\
      field "allSections" work = Some (JArr (map renderWork (busiest :: others))) /\
      List.length (busiest :: others) = List.length sections /\
      (forall w, In w (busiest :: others) ->
                 SectionWork.incompleteTasks w <= SectionWork.incompleteTasks busiest) /\
      getProjectStatus projectName = Ok status /\
      field "sections" status = Some (JArr (map renderSection (first :: rest))) /\
      SectionSummary.name first = SectionWork.sectionName busiest /\
      SectionSummary.incompleteTasks first = SectionWork.incompleteTasks busiest.
Proof.
  intros name project sections statuses Hfind Hsec Hne Hst.
  pose proof (sectionStatuses_sectionWorkload sections) as Hrel.
  rewrite Hst in Hrel. destruct (sectionWorkload sections) as [workload | e] eqn:Hw;
    [| contradiction].
  destruct Hrel as (Hkeys & Hlen & _).
  assert (HsortS : map summary_key (Js.sort byIncompleteDesc (map summarizeSection statuses))
                   = Js.sort byKeyDesc (map status_key statuses)).
  { rewrite (sort_map byIncompleteDesc byKeyDesc summary_key) by reflexivity.
    rewrite map_map. reflexivity. }
  assert (HsortW : map work_key (Js.sort byWorkDesc workload)
                   = Js.sort byKeyDesc (map work_key workload)).
  { apply sort_map. reflexivity. }
  rewrite Hkeys, <- HsortW in HsortS.
  assert (HlenW : List.length (Js.sort byWorkDesc workload) = List.length sections).
  { rewrite length_sort. rewrite <- Hlen.
    rewrite <- (length_map status_key statuses), Hkeys, length_map. reflexivity. }
  destruct (Js.sort byWorkDesc workload) as [| busiest others] eqn:HsW.
  { destruct sections; [contradiction | discriminate HlenW]. }
  destruct (Js.sort byIncompleteDesc (map summarizeSection statuses))
    as [| first rest] eqn:HsS; [discriminate HsortS |].
  cbn [map] in HsortS. unfold summary_key at 1, work_key at 1 in HsortS.
  injection HsortS as Hname Hinc _.
  assert (Hcount : (count_of sections =? 0) = false).
  { apply Z.eqb_neq. unfold count_of. destruct sections; [contradiction | cbn; lia]. }
  eexists. exists busiest, others. eexists. exists first, rest.
  split.
  { unfold getSectionWithMostWork. rewrite Hfind. cbn [bind]. rewrite Hsec.
    cbn [bind]. rewrite Hcount, Hw. cbn [bind]. rewrite HsW. reflexivity. }
  cbn [field lookup String.eqb Ascii.eqb Bool.eqb].
  split; [reflexivity |]. split; [reflexivity |]. split; [reflexivity |].
  split; [reflexivity |]. split; [exact HlenW |].
  split.
  { apply (sorted_head_is_max SectionWork.incompleteTasks busiest others).
    rewrite <- HsW. apply (sort_desc_sorted SectionWork.incompleteTasks). }
  split.
  { unfold getProjectStatus. rewrite Hfind. cbn [bind]. rewrite Hsec. cbn [bind].
    rewrite Hst. cbn [bind try_catch]. rewrite HsS. reflexivity. }
  cbn [field lookup String.eqb Ascii.eqb Bool.eqb].
  split; [reflexivity |]. split; assumption.
Qed.

(** X13. A project without sections is handled without dividing by zero or
    indexing an empty array: [get_project_status] reports 0 tasks, 0 percent
    and no sections, and [get_section_with_most_work] only says that the
    project has no sections. *)
Theorem project_without_sections :
  forall (projectName : string) (project : AsanaProject.t),
    findProjectByName projectName = Ok (Some project) ->
    getProjectSections client (AsanaProject.gid project) = Ok [] ->
    getProjectStatus projectName
    = Ok (JObj [("message",
                 JStr ("Project " ++ Js.dquote ++ AsanaProject.name project
                       ++ Js.dquote ++ " has 0 total tasks (0% complete)."));
                ("projectName", JStr (AsanaProject.name project));
                ("projectGid", JStr (AsanaProject.gid project));
                ("totalTasks", JNum 0);
                ("completedTasks", JNum 0);
                ("incompleteTasks", JNum 0);
                ("completionRate", JNum 0);
                ("sectionCount", JNum 0);
                ("sections", JArr [])]) /\
    getSectionWithMostWork projectName
    = Ok (JObj [("message",
                 JStr ("Project " ++ Js.dquote ++ AsanaProject.name project
                       ++ Js.dquote ++ " has no sections."))]).
Proof.
  intros name project Hfind Hsec. split.
  - unfold getProjectStatus. rewrite Hfind. cbn [bind]. rewrite Hsec. reflexivity.
  - unfold getSectionWithMostWork. rewrite Hfind. cbn [bind]. rewrite Hsec.
    reflexivity.
Qed.

Lemma find_none_iff {A : Type} (f : A -> bool) (l : list A) :
  find f l = None <-> forall x, In x l -> f x = false.
Proof.
  split; [apply find_none |].
  induction l as [| x l IH]; intros H; [reflexivity |]. cbn.
  rewrite (H x (or_introl eq_refl)). apply IH.
  intros y Hy. apply H. right; exact Hy.
Qed.

(** X14. [list_all_projects] and the lookup by name see the same projects:
    every project the lookup returns is listed with its name and gid, and
    [get_project_status] answers "not found", with the hint to list the
    projects, exactly when no listed project has the queried name up to
    case. *)
Theorem listAllProjects_covers_findProjectByName :
  forall (projects : list AsanaProject.t) (query : string),
    getWorkspaceProjects client = Ok projects ->
    (exists obj,
        listAllProjects = Ok obj /\
        field "error" obj = None /\
        field "count" obj = Some (JNum (count_of projects)) /\
        field "projects" obj = Some (JArr (map listProject projects))) /\
    (forall P,
        findProjectByName query = Ok (Some P) ->
        In (listProject P) (map listProject projects)) /\
    (findProjectByName query = Ok None <->
     forall P, In P projects ->
               toLowerCase (AsanaProject.name P) <> toLowerCase query) /\
    (getProjectStatus query
     = Ok (JObj [("error",
                  JStr ("Project " ++ Js.dquote ++ query ++ Js.dquote
                        ++ " not found."));
                 ("suggestions",
                  JStr "Try listing all projects first to find the exact name.")])
     <-> findProjectByName query = Ok None).
Proof.
  intros projects query Hfetch.
  assert (Hfind : findProjectByName query = Ok (find (name_matches query) projects)).
  { unfold findProjectByName. rewrite Hfetch. reflexivity. }
  split; [| split; [| split]].
  - unfold listAllProjects. rewrite Hfetch. cbn [bind try_catch].
    destruct (count_of projects =? 0) eqn:Hn.
    + apply Z.eqb_eq in Hn. rewrite Hn. apply count_of_zero in Hn. rewrite Hn.
      eexists. split; [reflexivity |]. repeat split.
    + eexists. split; [reflexivity |]. repeat split.
  - intros P HP. rewrite Hfind in HP. injection HP as HP.
    apply find_some in HP as [Hin _]. apply in_map. exact Hin.
  - rewrite Hfind. split.
    + intros [= Hnone] P HP. rewrite find_none_iff in Hnone.
      specialize (Hnone P HP). unfold name_matches in Hnone.
      apply String.eqb_neq. exact Hnone.
    + intros Hall. f_equal. apply find_none_iff. intros P HP.
      unfold name_matches. apply String.eqb_neq. apply Hall. exact HP.
  - unfold getProjectStatus. rewrite Hfind. cbn [bind].
    destruct (find (name_matches query) projects) as [P |].
    + split; [| discriminate].
      destruct (getProjectSections client (AsanaProject.gid P)) as [sections | e];
        cbn [bind try_catch]; [| discriminate].
      destruct (sectionStatuses sections); cbn [bind try_catch]; discriminate.
    + split; reflexivity.
Qed.

(** ** Further properties of the due-date tools *)

Lemma In_slice0 {A : Type} (limit : Z) (l : list A) (x : A) :
  In x (Js.slice0 limit l) -> In x l.
Proof. unfold Js.slice0. apply In_firstn. Qed.

(** X15. The two due-date tools count alike: a task that
    [get_most_postponed_tasks] lists is an open fetched task with a due
    date, its [postponeCount] is at least 1, and it is the [changeCount]
    [get_task_due_date_changes] reports for that task. *)
Theorem postponeCount_is_changeCount_of_the_task :
  forall (limit : Z) (tasks : list AsanaTask.t) (item : DueDateChange.t)
         (detail : AsanaTask.t),
    getTasks client TaskParams.empty = Ok tasks ->
    In item (topPostponed limit (filter hasOpenDueDate tasks)) ->
    getTask client (AsanaTask.gid (DueDateChange.task item)) = Ok detail ->
    In (DueDateChange.task item) tasks /\
    AsanaTask.completed (DueDateChange.task item) = false /\
    has_due_date (DueDateChange.task item) /\
    1 <= DueDateChange.changeCount item /\
    field "postponeCount" (renderPostponed item)
    = Some (JNum (DueDateChange.changeCount item)) /\
    exists obj,
      getTaskDueDateChanges (AsanaTask.gid (DueDateChange.task item)) = Ok obj /\
      field "changeCount" obj = Some (JNum (DueDateChange.changeCount item)).
Proof.
  intros limit tasks item detail _ Hin Hdetail.
  unfold topPostponed in Hin. apply In_slice0, In_sort in Hin.
  rewrite tasksWithChanges_flat_map in Hin.
  apply in_flat_map in Hin as (t & Ht & Hentry).
  apply filter_In in Ht as [Ht Hopen].
  unfold postponedEntry in Hentry.
  destruct (getTaskStories client (AsanaTask.gid t)) as [stories | e] eqn:Hst;
    [| destruct Hentry].
  destruct (Z.gtb_spec (count_of (filter isDueDateChange stories)) 0) as [Hpos | _];
    [| destruct Hentry].
  destruct Hentry as [<- | []]. cbn [DueDateChange.task DueDateChange.changeCount] in *.
  split; [exact Ht |].
  unfold hasOpenDueDate in Hopen. apply andb_true_iff in Hopen as [Hopen Hdue].
  split; [apply negb_true_iff in Hopen; exact Hopen |].
  split.
  { unfold has_due_date. destruct (AsanaTask.due_on t) as [d |]; [| discriminate Hdue].
    exists d. split; [reflexivity |]. cbn in Hdue.
    apply negb_true_iff, String.eqb_neq in Hdue. exact Hdue. }
  split; [lia |]. split; [reflexivity |].
  unfold getTaskDueDateChanges. rewrite Hdetail, Hst. cbn [bind try_catch].
  destruct (Z.eqb_spec (count_of (filter isDueDateChange stories)) 0) as [Hz | _];
    [lia |].
  eexists. split; reflexivity.
Qed.

Lemma recentChanges_flat_map (cutoffStr : string) (l : list AsanaTask.t) :
  recentChanges cutoffStr l = flat_map (recentEntry cutoffStr) l.
Proof.
  unfold recentChanges.
  assert (H : forall acc,
             fold_left (fun acc task => (acc ++ recentEntry cutoffStr task)%list) l acc
             = (acc ++ flat_map (recentEntry cutoffStr) l)%list).
  { induction l as [| t l IH]; intros acc; cbn.
    - rewrite app_nil_r. reflexivity.
    - rewrite IH, app_assoc. reflexivity. }
  apply H.
Qed.

Lemma filter_head {A : Type} (p : A -> bool) (l : list A) (x : A) (rest : list A) :
  filter p l = x :: rest ->
  exists before after,
    l = (before ++ x :: after)%list /\
    (forall y, In y before -> p y = false) /\
    p x = true.
Proof.
  induction l as [| y l IH]; cbn; [discriminate |].
  destruct (p y) eqn:Hy.
  - intros [= -> _]. exists [], l. repeat split; [intros z [] | exact Hy].
  - intros H. destruct (IH H) as (before & after & -> & Hb & Hx).
    exists (y :: before), after. repeat split; [| exact Hx].
    intros z [<- | Hz]; [exact Hy | apply Hb, Hz].
Qed.

Lemma recentEntry_length (cutoffStr : string) (t : AsanaTask.t) :
  (List.length (recentEntry cutoffStr t) <= 1)%nat.
Proof.
  unfold recentEntry. destruct (getTaskStories client (AsanaTask.gid t)); [| cbn; lia].
  destruct (filter _ _); cbn; lia.
Qed.

Lemma recentEntry_gids (cutoffStr : string) (t : AsanaTask.t) :
  map RecentChange.taskGid (recentEntry cutoffStr t)
  = if hasRecentChange cutoffStr t then [AsanaTask.gid t] else [].
Proof.
  unfold recentEntry, hasRecentChange.
  destruct (getTaskStories client (AsanaTask.gid t)) as [stories | e]; [| reflexivity].
  induction stories as [| s stories IH]; cbn [filter existsb]; [reflexivity |].
  destruct (isRecentDueDateChange cutoffStr s); cbn [orb]; [reflexivity | exact IH].
Qed.

Lemma recentChanges_gids (cutoffStr : string) (l : list AsanaTask.t) :
  map RecentChange.taskGid (recentChanges cutoffStr l)
  = map AsanaTask.gid (filter (hasRecentChange cutoffStr) l).
Proof.
  rewrite recentChanges_flat_map.
  induction l as [| t l IH]; cbn [flat_map filter]; [reflexivity |].
  rewrite map_app, recentEntry_gids, IH.
  destruct (hasRecentChange cutoffStr t); reflexivity.
Qed.

Lemma byChangedAtDesc_sorted (l : list RecentChange.t) :
  Forall changedAt_parses l ->
  StronglySorted changed_no_earlier (Js.sort byChangedAtDesc l).
Proof.
  intros Hparse.
  apply (StronglySorted_weaken (fun x y => byChangedAtDesc x y <= 0) _ changedAt_parses).
  - intros a b Ha Hb Hab. unfold changedAt_parses in Ha, Hb.
    unfold byChangedAtDesc in Hab. unfold changed_no_earlier.
    destruct (parseTime (RecentChange.changedAt a)) as [ta |]; [| contradiction].
    destruct (parseTime (RecentChange.changedAt b)) as [tb |]; [| contradiction].
    exists ta, tb. repeat split; lia.
  - apply Forall_sort. exact Hparse.
  - apply (sort_sorted byChangedAtDesc changedAt_parses).
    + intros a b _ _. unfold byChangedAtDesc.
      destruct (parseTime (RecentChange.changedAt a)),
               (parseTime (RecentChange.changedAt b)); lia.
    + intros a b c Ha Hb Hc. unfold changedAt_parses in Ha, Hb, Hc.
      unfold byChangedAtDesc.
      destruct (parseTime (RecentChange.changedAt a)); [| contradiction].
      destruct (parseTime (RecentChange.changedAt b)); [| contradiction].
      destruct (parseTime (RecentChange.changedAt c)); [| contradiction].
      lia.
    + exact Hparse.
Qed.

(** X16. The engine's sort rearranges the array it is given and, when
    every [changedAt] parses (the comparator is then consistent), gives the
    stable sorted order.  Under these two facts about the host:
    [get_recent_due_date_changes] does not fail once the task fetch
    succeeded, whatever the change-history fetches answer; it reports each
    fetched task at most once, namely exactly the tasks whose history could
    be fetched and holds a due-date change not older than the cut-off; what
    it reports for a task is the first such story in the order the history
    was fetched; a task whose history fetch fails is left out as if it had
    not been fetched; and when every [changedAt] parses the reports come
    most recent first. *)
Theorem getRecentDueDateChanges_reports_first_recent_change :
  forall (cutoffStr daysText : string) (tasks : list AsanaTask.t),
    (forall l, Permutation (sortRecent byChangedAtDesc l) l) ->
    (forall l, Forall changedAt_parses l ->
               sortRecent byChangedAtDesc l = Js.sort byChangedAtDesc l) ->
    getTasks client (TaskParams.mk None None None None (Some cutoffStr)) = Ok tasks ->
    let changes := recentChanges cutoffStr tasks in
    let reported := sortRecent byChangedAtDesc changes in
    (exists obj,
        getRecentDueDateChanges cutoffStr daysText = Ok obj /\
        field "error" obj = None /\
        field "tasks" obj = Some (JArr (map renderRecent reported))) /\
    Permutation (map RecentChange.taskGid reported)
                (map AsanaTask.gid (filter (hasRecentChange cutoffStr) tasks)) /\
    (forall c,
        In c reported ->
        exists task stories before story after,
          In task tasks /\
          getTaskStories client (AsanaTask.gid task) = Ok stories /\
          stories = (before ++ story :: after)%list /\
          (forall s, In s before -> isRecentDueDateChange cutoffStr s = false) /\
          isDueDateChange story = true /\
          String.ltb (AsanaStory.created_at story) cutoffStr = false /\
          RecentChange.taskGid c = AsanaTask.gid task /\
          RecentChange.changedAt c = AsanaStory.created_at story /\
          RecentChange.newDueDate c
          = Js.or_else (AsanaStory.new_due_on story) "Removed") /\
    (forall before t after e,
        tasks = (before ++ t :: after)%list ->
        getTaskStories client (AsanaTask.gid t) = Err e ->
        changes = recentChanges cutoffStr (before ++ after)) /\
    (Forall changedAt_parses changes -> StronglySorted changed_no_earlier reported).
Proof.
  intros cutoffStr daysText tasks Hperm Hstable Hfetch changes reported.
  split; [| split; [| split; [| split]]].
  - unfold getRecentDueDateChanges. rewrite Hfetch. cbn [bind try_catch].
    fold changes. fold reported.
    destruct (count_of tasks =? 0) eqn:Hn.
    + apply Z.eqb_eq, count_of_zero in Hn.
      assert (Hc : changes = []) by (unfold changes; rewrite Hn; reflexivity).
      assert (Hnil : reported = []).
      { unfold reported. rewrite Hc. apply Permutation_nil, Permutation_sym, Hperm. }
      rewrite Hnil. eexists. split; [reflexivity |]. split; reflexivity.
    + destruct (count_of changes =? 0) eqn:Hc.
      * apply Z.eqb_eq, count_of_zero in Hc.
        assert (Hnil : reported = []).
        { unfold reported. rewrite Hc. apply Permutation_nil, Permutation_sym, Hperm. }
        rewrite Hnil. eexists. split; [reflexivity |]. split; reflexivity.
      * eexists. split; [reflexivity |]. split; reflexivity.
  - unfold changes in *. rewrite <- recentChanges_gids.
    apply Permutation_map. apply Hperm.
  - intros c Hc. apply (Permutation_in _ (Hperm changes)) in Hc.
    unfold changes in Hc. rewrite recentChanges_flat_map in Hc.
    apply in_flat_map in Hc as (task & Htask & Hentry).
    unfold recentEntry in Hentry.
    destruct (getTaskStories client (AsanaTask.gid task)) as [stories | e] eqn:Hst;
      [| destruct Hentry].
    destruct (filter (isRecentDueDateChange cutoffStr) stories)
      as [| story rest] eqn:Hf; [destruct Hentry |].
    destruct Hentry as [<- | []].
    destruct (filter_head _ _ _ _ Hf) as (before & after & Hsplit & Hbefore & Hstory).
    exists task, stories, before, story, after.
    unfold isRecentDueDateChange, Js.str_lt in Hstory.
    destruct (String.ltb (AsanaStory.created_at story) cutoffStr) eqn:Hlt;
      [discriminate |].
    repeat split; try assumption; reflexivity.
  - intros before t after e Hsplit Herr. unfold changes. rewrite Hsplit.
    rewrite !recentChanges_flat_map, !flat_map_app. cbn [flat_map].
    unfold recentEntry at 2. rewrite Herr. reflexivity.
  - intros Hparse. unfold reported. rewrite (Hstable changes Hparse).
    apply byChangedAtDesc_sorted. exact Hparse.
Qed.

(** ** The weekly plan *)

Section JsObjectFacts.
Context {V : Type}.

Lemma JsMap_has_add (k : string) (v : V) (m : JsMap.t V) :
  JsMap.has k (JsMap.add k v m) = true.
Proof.
  unfold JsMap.add. induction m as [| [k' v'] m IH]; cbn.
  - rewrite String.eqb_refl. reflexivity.
  - rewrite IH. apply orb_true_r.
Qed.

Lemma JsMap_get_update (k d : string) (f : V -> V) (m : JsMap.t V) :
  JsMap.get k (JsMap.update d f m)
  = if (k =? d)%string then option_map f (JsMap.get d m) else JsMap.get k m.
Proof.
  induction m as [| [k' v'] m IH]; cbn.
  - destruct (k =? d)%string; reflexivity.
  - destruct (String.eqb_spec d k') as [-> | Hd]; cbn.
    + destruct (k =? k')%string; reflexivity.
    + destruct (String.eqb_spec k k') as [-> | Hk].
      * destruct (String.eqb_spec k' d) as [-> | _]; [contradiction | reflexivity].
      * exact IH.
Qed.

Lemma JsMap_get_snoc (k d : string) (v : V) (m : JsMap.t V) :
  JsMap.get k (m ++ [(d, v)])%list
  = match JsMap.get k m with
    | Some x => Some x
    | None => if (k =? d)%string then Some v else None
    end.
Proof.
  induction m as [| [k' v'] m IH]; cbn; [reflexivity |].
  destruct (k =? k')%string; [reflexivity | exact IH].
Qed.

Lemma JsMap_keys_update (d : string) (f : V -> V) (m : JsMap.t V) :
  map fst (JsMap.update d f m) = map fst m.
Proof.
  induction m as [| [k' v'] m IH]; cbn; [reflexivity |].
  destruct (d =? k')%string; cbn; [reflexivity | rewrite IH; reflexivity].
Qed.

Lemma JsMap_has_In (k : string) (m : JsMap.t V) :
  JsMap.has k m = false -> ~ In k (map fst m).
Proof.
  induction m as [| [k' v'] m IH]; cbn; [intros _ [] |].
  destruct (String.eqb_spec k k') as [-> | Hk]; cbn; [discriminate |].
  intros H [Heq | Hin]; [congruence | exact (IH H Hin)].
Qed.

Lemma JsMap_get_In (k : string) (v : V) (m : JsMap.t V) :
  NoDup (map fst m) -> (JsMap.get k m = Some v <-> In (k, v) m).
Proof.
  induction m as [| [k' v'] m IH]; cbn; intros Hnd.
  - split; [discriminate | intros []].
  - inversion Hnd as [| ? ? Hnotin Hnd']; subst.
    destruct (String.eqb_spec k k') as [-> | Hk].
    + split.
      * intros [= ->]. left; reflexivity.
      * intros [[= ->] | Hin]; [reflexivity |].
        exfalso. apply Hnotin. apply (in_map fst) in Hin. exact Hin.
    + rewrite (IH Hnd'). split.
      * intros Hin. right; exact Hin.
      * intros [[= -> ->] | Hin]; [contradiction | exact Hin].
Qed.

Lemma JsMap_get_perm (k : string) (m m' : JsMap.t V) :
  NoDup (map fst m) -> Permutation m m' -> JsMap.get k m = JsMap.get k m'.
Proof.
  intros Hnd Hperm.
  assert (Hnd' : NoDup (map fst m')).
  { apply (Permutation_NoDup (l := map fst m)); [| exact Hnd].
    apply Permutation_map. exact Hperm. }
  destruct (JsMap.get k m) as [v |] eqn:Hm.
  - apply (JsMap_get_In k v m Hnd) in Hm.
    symmetry. apply (JsMap_get_In k v m' Hnd').
    apply (Permutation_in _ Hperm). exact Hm.
  - destruct (JsMap.get k m') as [v |] eqn:Hm'; [| reflexivity].
    apply (JsMap_get_In k v m' Hnd') in Hm'.
    apply (Permutation_in _ (Permutation_sym Hperm)) in Hm'.
    apply (JsMap_get_In k v m Hnd) in Hm'. congruence.
Qed.

Lemma filter_split_perm {A : Type} (p : A -> bool) (l : list A) :
  Permutation (filter p l ++ filter (fun x => negb (p x)) l)%list l.
Proof.
  induction l as [| x l IH]; cbn; [constructor |].
  destruct (p x); cbn.
  - constructor. exact IH.
  - apply Permutation_sym, Permutation_cons_app, Permutation_sym. exact IH.
Qed.

Lemma entries_perm (o : JsObject.t V) : Permutation (JsObject.entries o) o.
Proof.
  unfold JsObject.entries.
  eapply Permutation_trans; [| apply (filter_split_perm JsObject.is_index)].
  apply Permutation_app_tail. apply sort_perm.
Qed.

End JsObjectFacts.

Lemma lookup_rendered (k : string) (o : list (string * list Json)) :
  lookup k (map (fun e => (fst e, JArr (snd e))) o)
  = option_map JArr (JsMap.get k o).
Proof.
  induction o as [| [k' v'] o IH]; cbn; [reflexivity |].
  destruct (k =? k')%string; [reflexivity | exact IH].
Qed.

Lemma leb_first_char (a c : ascii) (s r : string) :
  String.leb (String a s) (String c r) = true ->
  (N_of_ascii a <= N_of_ascii c)%N.
Proof.
  unfold String.leb. cbn [String.compare]. unfold Ascii.compare.
  destruct (N.compare_spec (N_of_ascii a) (N_of_ascii c)) as [Heq | Hlt | Hgt];
    intros H; [lia | lia | discriminate H].
Qed.

Lemma is_digit_N (c : ascii) :
  JsObject.is_digit c = true <-> (48 <= N_of_ascii c <= 57)%N.
Proof.
  unfold JsObject.is_digit, nat_of_ascii. cbv zeta.
  rewrite andb_true_iff, !Nat.leb_le. lia.
Qed.

Lemma inWeek_starts_with_digit (weekStartStr weekEndStr : string) (t : AsanaTask.t) :
  starts_with_digit weekStartStr = true ->
  starts_with_digit weekEndStr = true ->
  inWeek weekStartStr weekEndStr t = true ->
  exists d,
    AsanaTask.due_on t = Some d /\
    String.leb weekStartStr d = true /\
    String.leb d weekEndStr = true /\
    starts_with_digit d = true.
Proof.
  intros Hs He Hin. unfold inWeek in Hin.
  destruct (AsanaTask.due_on t) as [d |]; [| discriminate].
  apply andb_true_iff in Hin as [Htruthy Hin].
  apply andb_true_iff in Hin as [Hge Hle]. unfold Js.str_ge in Hge.
  exists d. split; [reflexivity |]. split; [exact Hge |]. split; [exact Hle |].
  destruct d as [| c r]; [discriminate Htruthy |].
  destruct weekStartStr as [| a s]; [discriminate Hs |].
  destruct weekEndStr as [| b s']; [discriminate He |].
  cbn [starts_with_digit] in *.
  apply leb_first_char in Hge, Hle.
  apply is_digit_N in Hs, He. apply is_digit_N. lia.
Qed.

Lemma digit_not_inherited (d : string) :
  starts_with_digit d = true -> JsObject.is_inherited d = false.
Proof.
  destruct d as [| c r]; [discriminate |]. cbn [starts_with_digit].
  intros H.
  destruct c as [[] [] [] [] [] [] [] []]; try discriminate H; reflexivity.
Qed.

Lemma groupStep_pushes (o : JsObject.t (list Json)) (t : AsanaTask.t) :
  JsObject.is_inherited (dayOf t) = false ->
  exists o',
    groupStep (Some o) t = Some o' /\
    (forall k, JsMap.get k o' = merge (JsMap.get k o) (dayGroup k [t])) /\
    (NoDup (map fst o) -> NoDup (map fst o')).
Proof.
  intros Hown. unfold groupStep. rewrite Hown, orb_false_r.
  destruct (JsMap.has (dayOf t) o) eqn:Hhas; cbn [negb].
  - rewrite Hhas. eexists. split; [reflexivity |]. split.
    + intros k. rewrite JsMap_get_update. unfold dayGroup. cbn [filter].
      rewrite (String.eqb_sym (dayOf t) k).
      destruct (String.eqb_spec k (dayOf t)) as [-> | Hk]; cbn [map].
      * destruct (JsMap.get (dayOf t) o) as [arr |] eqn:Hget; [reflexivity |].
        apply JsMap_has_get in Hget. congruence.
      * destruct (JsMap.get k o); cbn; [rewrite app_nil_r |]; reflexivity.
    + rewrite JsMap_keys_update. exact (fun H => H).
  - rewrite JsMap_has_add, JsMap_update_add by exact Hhas.
    eexists. split; [reflexivity |]. split.
    + intros k. rewrite JsMap_get_snoc. unfold dayGroup. cbn [filter].
      rewrite (String.eqb_sym (dayOf t) k).
      destruct (String.eqb_spec k (dayOf t)) as [-> | Hk]; cbn [map].
      * apply JsMap_has_get in Hhas. rewrite Hhas. reflexivity.
      * destruct (JsMap.get k o); cbn; [rewrite app_nil_r |]; reflexivity.
    + intros Hnd. rewrite map_app. cbn [map fst].
      apply NoDup_app_remove_l with (l := @nil string). cbn.
      apply (Permutation_NoDup (l := dayOf t :: map fst o)).
      * apply Permutation_cons_append.
      * constructor; [apply JsMap_has_In; exact Hhas | exact Hnd].
Qed.

Lemma merge_merge (old : option (list Json)) (g g' : list Json) :
  merge (merge old g) g' = merge old (g ++ g')%list.
Proof.
  destruct old as [arr |]; cbn.
  - rewrite app_assoc. reflexivity.
  - destruct g; cbn; [destruct g'; reflexivity | reflexivity].
Qed.

Lemma groupLoop_pushes (l : list AsanaTask.t) :
  forall o : JsObject.t (list Json),
    (forall t, In t l -> JsObject.is_inherited (dayOf t) = false) ->
    exists o',
      fold_left groupStep l (Some o) = Some o' /\
      (forall k, JsMap.get k o' = merge (JsMap.get k o) (dayGroup k l)) /\
      (NoDup (map fst o) -> NoDup (map fst o')).
Proof.
  induction l as [| t l IH]; intros o Hown.
  - exists o. split; [reflexivity |]. split; [| exact (fun H => H)].
    intros k. destruct (JsMap.get k o); cbn; [rewrite app_nil_r |]; reflexivity.
  - destruct (groupStep_pushes o t (Hown t (or_introl eq_refl)))
      as (o1 & Hstep & Hget1 & Hnd1).
    destruct (IH o1 (fun t' H => Hown t' (or_intror H))) as (o' & Hloop & Hget & Hnd).
    exists o'. cbn [fold_left]. rewrite Hstep. split; [exact Hloop |]. split.
    + intros k. rewrite Hget, Hget1, merge_merge. f_equal.
      unfold dayGroup. cbn [filter].
      destruct (dayOf t =? k)%string; reflexivity.
    + intros H. exact (Hnd (Hnd1 H)).
Qed.

(** X20. With week bounds that begin with a digit, as formatted dates do,
    [get_weekly_planned_tasks] answers without an error once the fetch
    succeeded: [count] is the number of selected tasks, each of which has a
    due date within the bounds (and is open when completed tasks are
    excluded); and [tasksByDay] has a key exactly for the days some selected
    task is due, holding the entries of those tasks in the order they were
    fetched.  In particular no due date is taken for a property inherited
    from [Object.prototype]. *)
Theorem getWeeklyPlannedTasks_groups_the_selected_tasks :
  forall (weekStartStr weekEndStr : string) (assignee : option string)
         (excludeCompleted : bool) (tasks : list AsanaTask.t),
    getTasks client (TaskParams.mk None None assignee None None) = Ok tasks ->
    starts_with_digit weekStartStr = true ->
    starts_with_digit weekEndStr = true ->
    let weekly := weeklyTasks weekStartStr weekEndStr excludeCompleted tasks in
    (forall t,
        In t weekly ->
        In t tasks /\
        (exists d,
            AsanaTask.due_on t = Some d /\
            String.leb weekStartStr d = true /\
            String.leb d weekEndStr = true) /\
        (excludeCompleted = true -> AsanaTask.completed t = false)) /\
    exists obj,
      getWeeklyPlannedTasks weekStartStr weekEndStr assignee excludeCompleted
      = Ok obj /\
      field "error" obj = None /\
      field "count" obj = Some (JNum (count_of weekly)) /\
      (weekly <> [] ->
       exists days,
         field "tasksByDay" obj = Some (JObj days) /\
         forall day,
           lookup day days
           = match dayGroup day weekly with
             | [] => None
             | group => Some (JArr group)
             end).
Proof.
  intros ws we assignee excl tasks Hfetch Hs He weekly.
  assert (Hsel : forall t, In t weekly ->
                   In t tasks /\ inWeek ws we t = true /\
                   (excl = true -> AsanaTask.completed t = false)).
  { intros t Ht. unfold weekly, weeklyTasks in Ht.
    apply In_dropCompleted in Ht as [Ht Hopen].
    apply filter_In in Ht as [Ht Hin]. repeat split; assumption. }
  split.
  { intros t Ht. destruct (Hsel t Ht) as (Hin & Hweek & Hopen).
    destruct (inWeek_starts_with_digit ws we t Hs He Hweek)
      as (d & Hd & Hge & Hle & _).
    split; [exact Hin |]. split; [| exact Hopen].
    exists d. repeat split; assumption. }
  unfold getWeeklyPlannedTasks. rewrite Hfetch. fold weekly.
  destruct (count_of weekly =? 0) eqn:Hn.
  { apply Z.eqb_eq in Hn. rewrite Hn. apply count_of_zero in Hn.
    eexists. split; [reflexivity |]. split; [reflexivity |].
    split; [reflexivity |]. intros Hne. contradiction. }
  destruct (groupLoop_pushes weekly []) as (o & Hloop & Hget & Hnd).
  { intros t Ht. destruct (Hsel t Ht) as (_ & Hweek & _).
    destruct (inWeek_starts_with_digit ws we t Hs He Hweek)
      as (d & Hd & _ & _ & Hdigit).
    unfold dayOf. rewrite Hd. apply digit_not_inherited. exact Hdigit. }
  change (groupByDay weekly = Some o) in Hloop. rewrite Hloop.
  eexists. split; [reflexivity |]. split; [reflexivity |].
  split; [reflexivity |]. intros _.
  eexists. split; [reflexivity |].
  intros day. rewrite lookup_rendered.
  rewrite (JsMap_get_perm day (JsObject.entries o) o).
  - rewrite Hget. cbn [JsMap.get merge].
    destruct (dayGroup day weekly); reflexivity.
  - apply (Permutation_NoDup (l := map fst o)).
    + apply Permutation_map, Permutation_sym, entries_perm.
    + apply Hnd. constructor.
  - apply entries_perm.
Qed.

(** ** The calendar tools *)

Lemma findUserByName_returns (name : string) :
  exists user, findUserByName name = Ok user.
Proof.
  unfold findUserByName. cbv zeta.
  destruct (PostgrestResponse.error (userLike supabase name)) as [error |].
  - destruct (PostgrestError.code error =? "PGRST116")%string; eexists; reflexivity.
  - eexists. reflexivity.
Qed.

Lemma calendar_errors_prefixed (call : CalendarCall) (e : string) :
  client_throws call e -> exists msg, e = "Failed to " ++ msg.
Proof.
  destruct call as [| | query | name]; unfold client_throws.
  - unfold getNextMeeting. cbv zeta.
    destruct (PostgrestResponse.error (nextMeetingRow supabase)) as [error |];
      [| discriminate].
    destruct (PostgrestError.code error =? "PGRST116")%string; [discriminate |].
    intros [= <-]. eexists. reflexivity.
  - unfold getMeetingsForDate. cbv zeta.
    destruct (PostgrestResponse.error (meetingsOfDate supabase)) as [error |];
      [| discriminate].
    intros [= <-]. eexists. reflexivity.
  - unfold searchMeetings. cbv zeta.
    destruct (PostgrestResponse.error (meetingsLike supabase query 5)) as [error |];
      [| discriminate].
    intros [= <-]. eexists. reflexivity.
  - intros (user & _ & Hthrow). unfold getMeetingsForUser in Hthrow.
    cbv zeta in Hthrow.
    destruct (PostgrestResponse.error (meetingsAttendedBy supabase (UserRow.id user)))
      as [error |]; [| discriminate Hthrow].
    injection Hthrow as <-. eexists. reflexivity.
Qed.

(** X21. The calendar tools do not catch what the client throws: whenever
    a [SupabaseClient] method awaited by a tool throws, the tool throws the
    very same error, whose message begins with "Failed to ", and a tool
    throws in no other case.  What a tool returns is never an error report:
    a sentence, a list, or an object without an [error] field. *)
Theorem calendar_tools_throw_instead_of_reporting :
  forall call : CalendarCall,
    (forall e, client_throws call e <-> calendar_execute call = Err e) /\
    (forall e, calendar_execute call = Err e -> exists msg, e = "Failed to " ++ msg) /\
    (forall res, calendar_execute call = Ok res -> field "error" res = None).
Proof.
  intros call.
  assert (H : (forall e, client_throws call e <-> calendar_execute call = Err e) /\
              (forall res, calendar_execute call = Ok res -> field "error" res = None));
    [| destruct H as [Hthrow Hok]; split; [exact Hthrow | split; [| exact Hok]];
       intros e He; apply (calendar_errors_prefixed call), Hthrow, He].
  destruct call as [| | query | name]; unfold calendar_execute, client_throws.
  - unfold getNextMeeting_tool.
    destruct getNextMeeting as [[meeting |] | msg]; cbn [bind]; split.
    + intros e. split; discriminate.
    + intros res [= <-]. reflexivity.
    + intros e. split; discriminate.
    + intros res [= <-]. reflexivity.
    + intros e. split; intros [= ->]; reflexivity.
    + intros res H. discriminate H.
  - unfold getTodaysMeetings.
    destruct getMeetingsForDate as [meetings | msg]; cbn [bind]; split.
    + intros e. destruct (count_of meetings =? 0); split; discriminate.
    + intros res. destruct (count_of meetings =? 0); intros [= <-]; reflexivity.
    + intros e. split; intros [= ->]; reflexivity.
    + intros res H. discriminate H.
  - unfold searchMeetings_tool.
    destruct (searchMeetings query 5) as [meetings | msg]; cbn [bind]; split.
    + intros e. destruct (count_of meetings =? 0); split; discriminate.
    + intros res. destruct (count_of meetings =? 0); intros [= <-]; reflexivity.
    + intros e. split; intros [= ->]; reflexivity.
    + intros res H. discriminate H.
  - unfold getMeetingsForAttendee.
    destruct (findUserByName_returns name) as ([user |] & Huser); rewrite Huser;
      cbn [bind]; split.
    + intros e. split.
      * intros (user' & [= <-] & Hthrow). rewrite Hthrow. reflexivity.
      * intros H. exists user. split; [reflexivity |].
        destruct (getMeetingsForUser (UserRow.id user)) as [meetings | msg];
          cbn [bind] in H; [| injection H as ->; reflexivity].
        destruct (count_of meetings =? 0); discriminate H.
    + intros res.
      destruct (getMeetingsForUser (UserRow.id user)) as [meetings | msg];
        cbn [bind]; [| discriminate].
      destruct (count_of meetings =? 0); intros [= <-]; reflexivity.
    + intros e. split; [intros (user' & Hnone & _); discriminate Hnone | discriminate].
    + intros res [= <-]. reflexivity.
Qed.

(** X22. A failure of the user lookup is never reported:
    [get_meetings_for_attendee] answers that no user matches the name both
    when the [users] query finds no row and when it answers with an error,
    whatever the error is; the meetings are not queried then. *)
Theorem getMeetingsForAttendee_hides_lookup_errors :
  forall name : string,
    PostgrestResponse.error (userLike supabase name) <> None \/
    PostgrestResponse.data (userLike supabase name) = None ->
    findUserByName name = Ok None /\
    getMeetingsForAttendee name = Ok (no_such_user name).
Proof.
  intros name H.
  assert (Hfind : findUserByName name = Ok None).
  { unfold findUserByName. cbv zeta.
    destruct (PostgrestResponse.error (userLike supabase name)) as [error |].
    - destruct (PostgrestError.code error =? "PGRST116")%string; reflexivity.
    - destruct H as [H | H]; [contradiction | rewrite H; reflexivity]. }
  split; [exact Hfind |].
  unfold getMeetingsForAttendee. rewrite Hfind. reflexivity.
Qed.

Lemma substring_prefix (n : nat) (s : string) :
  String.prefix (String.substring 0 n s) s = true.
Proof.
  revert s. induction n as [| n IH]; intros s.
  - destruct s; reflexivity.
  - destruct s as [| c s]; cbn; [reflexivity |].
    destruct (ascii_dec c c) as [_ | Hc]; [apply IH | contradiction].
Qed.

Lemma substring_length (n : nat) (s : string) :
  String.length (String.substring 0 n s) = Nat.min n (String.length s).
Proof.
  revert s. induction n as [| n IH]; intros s.
  - destruct s; reflexivity.
  - destruct s as [| c s]; cbn; [reflexivity | rewrite IH; reflexivity].
Qed.

Lemma append_length (a b : string) :
  String.length (a ++ b) = (String.length a + String.length b)%nat.
Proof. induction a as [| c a IH]; cbn; [reflexivity | rewrite IH; reflexivity]. Qed.

(** X23. When the search finds meetings, [search_meetings] lists one item
    per meeting, in the order of the answer.  The [description] of an item
    is empty when the meeting has none; otherwise it is the first 100
    characters of the description (all of it, if it is shorter) followed by
    an ellipsis, which is added even when nothing was cut: at most 103
    characters. *)
Theorem searchMeetings_previews_descriptions :
  forall (query : string) (meetings : list CalendarEvent.t),
    searchMeetings query 5 = Ok meetings ->
    meetings <> [] ->
    searchMeetings_tool query = Ok (JArr (map renderFound meetings)) /\
    forall m,
      In m meetings ->
      exists text,
        field "description" (renderFound m) = Some (JStr text) /\
        (String.length text <= 103)%nat /\
        (Js.truthy (CalendarEvent.description m) = false -> text = "") /\
        (forall d,
            CalendarEvent.description m = Some d ->
            d <> "" ->
            exists shown,
              text = shown ++ "..." /\
              String.prefix shown d = true /\
              String.length shown = Nat.min 100 (String.length d)).
Proof.
  intros query meetings Hsearch Hne. split.
  - unfold searchMeetings_tool. rewrite Hsearch. cbn [bind].
    destruct (Z.eqb_spec (count_of meetings) 0) as [Hz | _]; [| reflexivity].
    apply count_of_zero in Hz. contradiction.
  - intros m _. exists (preview (CalendarEvent.description m)).
    split; [reflexivity |].
    unfold preview. destruct (CalendarEvent.description m) as [d |].
    + destruct (Js.truthy (Some d)) eqn:Htruthy.
      * split; [| split].
        -- rewrite append_length, substring_length. cbn [String.length]. lia.
        -- discriminate.
        -- intros d' [= <-] _. exists (String.substring 0 100 d).
           split; [reflexivity |].
           split; [apply substring_prefix | apply substring_length].
      * split; [cbn; lia |]. split; [reflexivity |].
        intros d' [= <-] Hd. cbn in Htruthy.
        apply negb_false_iff, String.eqb_eq in Htruthy. contradiction.
    + split; [cbn; lia |]. split; [reflexivity |]. intros d' Hd. discriminate Hd.
Qed.

End Tools.

(** ** The host functions of the sample runs *)

Lemma string_compare_trans (a b c : string) :
  String.compare a b <> Gt -> String.compare b c <> Gt -> String.compare a c <> Gt.
Proof.
  revert b c. induction a as [| x a IH]; intros [| y b] [| z c]; cbn;
    try congruence.
  unfold Ascii.compare.
  destruct (N.compare_spec (N_of_ascii x) (N_of_ascii y)) as [Hxy | Hxy | Hxy];
    destruct (N.compare_spec (N_of_ascii y) (N_of_ascii z)) as [Hyz | Hyz | Hyz];
    destruct (N.compare_spec (N_of_ascii x) (N_of_ascii z)) as [Hxz | Hxz | Hxz];
    try congruence; try lia; try (intros; discriminate).
  apply IH.
Qed.

Lemma compare_units_total (a b : string) :
  Js.compare_units a b <= 0 \/ Js.compare_units b a <= 0.
Proof.
  unfold Js.compare_units. rewrite (String.compare_antisym b a).
  destruct (String.compare a b); cbn; lia.
Qed.

Lemma compare_units_trans (a b c : string) :
  Js.compare_units a b <= 0 -> Js.compare_units b c <= 0 ->
  Js.compare_units a c <= 0.
Proof.
  unfold Js.compare_units. intros Hab Hbc.
  pose proof (string_compare_trans a b c) as H.
  destruct (String.compare a b); destruct (String.compare b c);
    destruct (String.compare a c); try lia; exfalso; apply H; congruence.
Qed.

Lemma round_pct_double_zero (t : Z) : 0 < t -> Js.round_pct_double 0 t = 0.
Proof.
  intros _. unfold Js.round_pct_double. cbv zeta.
  change (Js.double_of_Z 0) with (SpecFloat.S754_zero false).
  destruct (Js.double_of_Z t); reflexivity.
Qed.

(** ** Sample runs *)

Lemma getOverdueTasks_selects_and_sorts_witness :
  let selected := overdueTasks Js.compare_units "2024-01-15" Examples.tasks in
  getTasks Examples.client (TaskParams.mk None None None None None)
  = Ok Examples.tasks /\
  In Examples.invoice selected /\
  ~ In Examples.budget selected /\
  StronglySorted (due_le Js.compare_units) selected.
Proof.
  intros selected. split; [reflexivity |].
  destruct (getOverdueTasks_selects_and_sorts
              Js.compare_units Examples.parseTime Examples.client
              compare_units_total compare_units_trans
              Examples.today None Examples.tasks eq_refl)
    as (_ & Hiff & Hsorted).
  split; [| split; [| exact Hsorted]].
  - apply Hiff. split; [right; left; reflexivity |]. split; [reflexivity |].
    exists "2024-01-05". repeat split. discriminate.
  - intros Hin. apply Hiff in Hin as (_ & _ & d & Hd & _ & Hlt).
    injection Hd as <-. discriminate Hlt.
Defined.

Lemma getTasksCompletedToday_rechecks_locally_witness :
  let selected := completedToday "2024-01-15T00:00:00.000Z" Examples.tasks in
  Today.startISO Examples.today <> "" /\
  getTasks Examples.client
    (TaskParams.mk None None None (Some "2024-01-15T00:00:00.000Z") None)
  = Ok Examples.tasks /\
  In Examples.slides selected /\
  ~ In Examples.archive selected.
Proof.
  intros selected.
  assert (Hstart : Today.startISO Examples.today <> "") by discriminate.
  split; [exact Hstart |]. split; [reflexivity |].
  destruct (getTasksCompletedToday_rechecks_locally
              Examples.client Examples.today None Examples.tasks Hstart eq_refl)
    as (_ & Hiff).
  split.
  - apply Hiff. split; [right; right; left; reflexivity |]. split; [reflexivity |].
    exists "2024-01-15T09:30:00.000Z". split; reflexivity.
  - intros Hin. apply Hiff in Hin as (_ & _ & at_ & Hat & Hge).
    injection Hat as <-. discriminate Hge.
Defined.

Lemma sample_gids_proper : proper_gids Examples.tasks.
Proof.
  intros t u Hin Hu.
  repeat (destruct Hin as [<- | Hin];
          [ cbn in Hu; try discriminate Hu; injection Hu as <-;
            split; discriminate | ]).
  destruct Hin.
Qed.

Lemma getTeamWorkload_open_tasks_witness :
  let buckets := workloadArray false "2024-01-15" Examples.tasks in
  getTasks Examples.client TaskParams.empty = Ok Examples.tasks /\
  sumTotals buckets = 3 /\
  StronglySorted
    (fun x y => UserWorkload.totalTasks x >= UserWorkload.totalTasks y) buckets /\
  exists w,
    In w buckets /\
    UserWorkload.user w = synthetic_user /\
    UserWorkload.totalTasks w = 1.
Proof.
  intros buckets. split; [reflexivity |].
  destruct (getTeamWorkload_open_tasks
              Js.round_pct_double Examples.client Examples.today Examples.tasks eq_refl)
    as (_ & Hsum & _ & _ & Hsorted & Hun).
  split; [exact Hsum |]. split; [exact Hsorted |].
  destruct (Hun Examples.invoice (or_intror (or_introl eq_refl)) eq_refl eq_refl)
    as (w & _ & Hin & _ & Hproper).
  destruct (Hproper sample_gids_proper) as [Huser Htotal].
  exists w. split; [exact Hin |]. split; [exact Huser | exact Htotal].
Defined.

Lemma getTeamWorkload_open_only_rate_zero_witness :
  getTasks Examples.client TaskParams.empty = Ok Examples.tasks /\
  exists obj items,
    getTeamWorkload Js.round_pct_double Examples.client Examples.today false = Ok obj /\
    field "workload" obj = Some (JArr items) /\
    forall j,
      In j items ->
      field "completedTasks" j = Some (JNum 0) /\
      field "completionRate" j = Some (JNum 0).
Proof.
  split; [reflexivity |].
  exact (proj2 (getTeamWorkload_open_only_rate_zero
                  Js.round_pct_double Examples.client round_pct_double_zero
                  Examples.today Examples.tasks eq_refl)).
Defined.


Lemma getTaskDueDateChanges_two_changes_witness :
  getTask Examples.client "1" = Ok Examples.report /\
  getTaskStories Examples.client "1" = Ok [Examples.moved; Examples.removed] /\
  AsanaStory.resource_subtype Examples.removed = "due_date_changed" /\
  exists obj first second,
    getTaskDueDateChanges Examples.client "1" = Ok obj /\
    field "error" obj = None /\
    field "changeCount" obj = Some (JNum 2) /\
    field "changes" obj = Some (JArr [first; second]) /\
    field "oldDueDate" first = Some (JStr "2024-01-01") /\
    field "newDueDate" first = Some (JStr "2024-01-08") /\
    field "oldDueDate" second = Some (JStr "2024-01-08") /\
    field "newDueDate" second = Some (JStr "Removed").
Proof.
  split; [reflexivity |]. split; [reflexivity |]. split; [reflexivity |].
  destruct (getTaskDueDateChanges_two_changes
              Examples.client "1" Examples.report
              [Examples.moved; Examples.removed] eq_refl eq_refl)
    as (obj & counted & Hobj & Herr & _ & _ & _ & Hscenario).
  destruct (Hscenario Examples.moved Examples.removed
                      eq_refl eq_refl eq_refl eq_refl eq_refl)
    as (Hmarked & _).
  destruct (Hmarked eq_refl) as (first & second & Hrest).
  exists obj, first, second.
  split; [exact Hobj |]. split; [exact Herr | exact Hrest].
Defined.

Lemma findProjectByName_first_match_shared_witness :
  getWorkspaceProjects Examples.client
  = Ok [Examples.marketing; Examples.marketing_copy] /\
  findProjectByName Js.toLowerCase_ascii Examples.client "MARKETING"
  = Ok (Some Examples.marketing) /\
  exists obj,
    getProjectStatus Js.toLowerCase_ascii Js.round_pct_double Examples.client "MARKETING"
    = Ok obj /\
    field "projectGid" obj = Some (JStr "2001").
Proof.
  split; [reflexivity |].
  destruct (findProjectByName_first_match_shared
              Js.toLowerCase_ascii Js.round_pct_double Examples.client
              [Examples.marketing; Examples.marketing_copy] "MARKETING" eq_refl)
    as (_ & Hfirst & _ & _ & Hstatus).
  assert (Hfound : findProjectByName Js.toLowerCase_ascii Examples.client "MARKETING"
                   = Ok (Some Examples.marketing)).
  { apply (Hfirst [] Examples.marketing [Examples.marketing_copy]);
      [reflexivity | reflexivity | intros P' []]. }
  split; [exact Hfound |].
  exact (Hstatus Examples.marketing [Examples.doing] _ Hfound eq_refl eq_refl).
Defined.

Lemma tools_catch_client_errors_witness :
  raises Js.toLowerCase_ascii Examples.revoked MoreExamples.locked
    (CallTeamWorkload Examples.today false) "Failed to fetch tasks: Unauthorized" /\
  execute Js.toLowerCase_ascii Js.compare_units Examples.parseTime
    Js.round_pct_double Examples.revoked MoreExamples.locked Js.sort
    (CallTeamWorkload Examples.today false)
  = Ok (JObj [("error",
               JStr "Failed to analyze team workload: Error: Failed to fetch tasks: Unauthorized");
              ("teamMembers", JNum 0);
              ("workload", JArr [])]) /\
  raises Js.toLowerCase_ascii Examples.revoked MoreExamples.locked
    (CallSearchUsers "ali") "Failed to fetch workspace users: Unauthorized" /\
  execute Js.toLowerCase_ascii Js.compare_units Examples.parseTime
    Js.round_pct_double Examples.revoked MoreExamples.locked Js.sort
    (CallSearchUsers "ali")
  = Ok (JObj [("error",
               JStr "Failed to search users: Error: Failed to fetch workspace users: Unauthorized");
              ("count", JNum 0);
              ("users", JArr [])]).
Proof.
  assert (Hworkload : raises Js.toLowerCase_ascii Examples.revoked MoreExamples.locked
                        (CallTeamWorkload Examples.today false)
                        "Failed to fetch tasks: Unauthorized").
  { apply raises_workload. reflexivity. }
  assert (Husers : raises Js.toLowerCase_ascii Examples.revoked MoreExamples.locked
                     (CallSearchUsers "ali")
                     "Failed to fetch workspace users: Unauthorized").
  { apply raises_search_users. reflexivity. }
  split; [exact Hworkload |]. split.
  { exact (proj2 (tools_catch_client_errors
                    Js.toLowerCase_ascii Js.compare_units Examples.parseTime
                    Js.round_pct_double Examples.revoked MoreExamples.locked Js.sort
                    (CallTeamWorkload Examples.today false)) _ Hworkload). }
  split; [exact Husers |].
  exact (proj2 (tools_catch_client_errors
                  Js.toLowerCase_ascii Js.compare_units Examples.parseTime
                  Js.round_pct_double Examples.revoked MoreExamples.locked Js.sort
                  (CallSearchUsers "ali")) _ Husers).
Defined.

(** C3, as stated, fails on [get_project_status]: its failure result holds
    the error message and nothing else, no count and no collection. *)
Lemma getProjectStatus_failure_carries_no_counts :
  execute Js.toLowerCase_ascii Js.compare_units Examples.parseTime
    Js.round_pct_double Examples.revoked MoreExamples.locked Js.sort
    (CallProjectStatus "Marketing")
  = Ok (JObj [("error",
               JStr "Failed to analyze project status: Error: Failed to fetch workspace projects: Unauthorized")]).
Proof. reflexivity. Qed.

(** C8, as stated, fails when the subtype of the second event does not
    mark a due-date change: the history is the one of the claim, the second
    event has no new due date and is not counted, and [changeCount] is 1. *)
Lemma getTaskDueDateChanges_unmarked_removal_not_counted :
  getTaskStories MoreExamples.unmarked "1"
  = Ok [MoreExamples.rescheduled; MoreExamples.cleared] /\
  AsanaStory.old_due_on MoreExamples.rescheduled = Some "2024-01-01" /\
  AsanaStory.new_due_on MoreExamples.rescheduled = Some "2024-01-08" /\
  AsanaStory.old_due_on MoreExamples.cleared = Some "2024-01-08" /\
  AsanaStory.new_due_on MoreExamples.cleared = None /\
  exists obj,
    getTaskDueDateChanges MoreExamples.unmarked "1" = Ok obj /\
    field "changeCount" obj = Some (JNum 1) /\
    field "changeCount" obj <> Some (JNum 2).
Proof.
  repeat (split; [reflexivity |]).
  eexists. split; [reflexivity |]. split; [reflexivity | discriminate].
Qed.

(** C7. The limit is handed to [slice] unchecked, so the bound fails for a
    limit below zero, which the parameter schema accepts: with [limit = -1]
    and two tasks with changes, [slice(0, -1)] drops the last one and the
    tool returns the other, one task where the maximum asked for is -1. *)
Lemma getMostPostponedTasks_negative_limit :
  exists obj items,
    getMostPostponedTasks Examples.client (-1) = Ok obj /\
    field "error" obj = None /\
    field "totalTasksWithChanges" obj = Some (JNum 2) /\
    field "tasks" obj = Some (JArr items) /\
    count_of items = 1 /\
    ~ count_of items <= -1.
Proof.
  eexists. eexists. split; [reflexivity |]. split; [reflexivity |].
  split; [reflexivity |]. split; [reflexivity |]. split; [reflexivity |].
  unfold count_of. cbn. lia.
Qed.

(** C9, as stated, fails when two projects have the same name up to case:
    the query ["marketing"] is the name of the second project, yet the
    lookup answers the first. *)
Lemma findProjectByName_shadowed_by_earlier_project :
  ~ (forall (P : AsanaProject.t) (query : string),
        In P [Examples.marketing; Examples.marketing_copy] ->
        Js.toLowerCase_ascii (AsanaProject.name P) = Js.toLowerCase_ascii query ->
        exists found,
          findProjectByName Js.toLowerCase_ascii Examples.client query
          = Ok (Some found) /\
          AsanaProject.gid found = AsanaProject.gid P).
Proof.
  intros Hall.
  destruct (Hall Examples.marketing_copy "marketing"
                 (or_intror (or_introl eq_refl)) eq_refl)
    as (found & Hfound & Hgid).
  injection Hfound as <-. discriminate Hgid.
Qed.

(** ** Sample runs of the further properties *)

Lemma getTeamWorkload_overdue_total_matches_getOverdueTasks_witness :
  let buckets := workloadArray false "2024-01-15" Examples.tasks in
  getTasks Examples.client TaskParams.empty = Ok Examples.tasks /\
  bucket_sum UserWorkload.overdueTasks buckets = 2 /\
  exists overdue,
    getOverdueTasks Js.compare_units Examples.parseTime Examples.client
      Examples.today None = Ok overdue /\
    field "count" overdue
    = Some (JNum (bucket_sum UserWorkload.overdueTasks buckets)).
Proof.
  intros buckets. split; [reflexivity |]. split; [reflexivity |].
  destruct (getTeamWorkload_overdue_total_matches_getOverdueTasks
              Js.compare_units Examples.parseTime Js.round_pct_double
              Examples.client Examples.today false Examples.tasks eq_refl)
    as (team & overdue & _ & _ & Hover & Hcount).
  exists overdue. split; [exact Hover | exact Hcount].
Defined.

Lemma getTeamWorkload_buckets_consistent_witness :
  let buckets := workloadArray false "2024-01-15" Examples.tasks in
  getTasks Examples.client TaskParams.empty = Ok Examples.tasks /\
  count_of buckets = 3 /\
  count_of (filter is_open Examples.tasks) = 3 /\
  (forall w, In w buckets -> 1 <= UserWorkload.totalTasks w) /\
  count_of buckets <= count_of (filter is_open Examples.tasks).
Proof.
  intros buckets. split; [reflexivity |]. split; [reflexivity |].
  split; [reflexivity |].
  destruct (getTeamWorkload_buckets_consistent
              Js.round_pct_double Examples.client Examples.today false
              Examples.tasks eq_refl)
    as (_ & Hall & Hle).
  split; [| exact Hle].
  intros w Hw. exact (proj1 (Hall w Hw)).
Defined.

Lemma getTeamWorkload_with_completed_counts_every_task_witness :
  let buckets := workloadArray true "2024-01-15" Examples.tasks in
  getTasks Examples.client TaskParams.empty = Ok Examples.tasks /\
  bucket_sum UserWorkload.totalTasks buckets = 5 /\
  bucket_sum UserWorkload.completedTasks buckets = 2 /\
  exists obj,
    getTeamWorkload Js.round_pct_double Examples.client Examples.today true = Ok obj /\
    field "totalTasks" obj = Some (JNum 5).
Proof.
  intros buckets. split; [reflexivity |].
  destruct (getTeamWorkload_with_completed_counts_every_task
              Js.round_pct_double Examples.client Examples.today
              Examples.tasks eq_refl)
    as (Htotal & Hdone & Hobj).
  split; [exact Htotal |]. split; [exact Hdone |].
  destruct Hobj as (obj & Hrun & Hfield & _); [discriminate |].
  exists obj. split; [exact Hrun | exact Hfield].
Defined.

Lemma getOverdueTasksByPerson_accounts_for_every_overdue_task_witness :
  let persons := overdueResultArray "2024-01-15" Examples.tasks in
  getTasks Examples.client TaskParams.empty = Ok Examples.tasks /\
  overdue_sum persons = 2 /\
  (exists obj,
      getOverdueTasksByPerson Examples.client Examples.today = Ok obj /\
      field "totalOverdue" obj = Some (JNum (overdue_sum persons))) /\
  (forall p, In p persons -> 1 <= PersonOverdue.overdueCount p).
Proof.
  intros persons. split; [reflexivity |]. split; [reflexivity |].
  destruct (getOverdueTasksByPerson_accounts_for_every_overdue_task
              Js.compare_units Examples.parseTime Examples.client Examples.today
              Examples.tasks eq_refl)
    as ((obj & overdue & Hrun & _ & Htotal & _) & Hall & _).
  split.
  - exists obj. split; [exact Hrun | exact Htotal].
  - intros p Hp. exact (proj1 (Hall p Hp)).
Defined.

Lemma list_tools_count_is_number_of_tasks_witness :
  exists obj items,
    list_execute Js.toLowerCase_ascii Examples.client
      (ListSearchByName "REPORT" false) = Ok obj /\
    field "tasks" obj = Some (JArr items) /\
    field "count" obj = Some (JNum (count_of items)).
Proof.
  destruct (list_tools_count_is_number_of_tasks
              Js.toLowerCase_ascii Examples.client (ListSearchByName "REPORT" false))
    as (obj & items & Hrun & Htasks & Hcount & _).
  exists obj, items. repeat split; assumption.
Defined.

Lemma due_date_reports_are_disjoint_witness :
  getTasks Examples.client (TaskParams.mk None None None None None)
  = Ok Examples.tasks /\
  In Examples.invoice (overdueTasks Js.compare_units "2024-01-15" Examples.tasks) /\
  ~ In Examples.invoice (dueToday "2024-01-15" true Examples.tasks).
Proof.
  split; [reflexivity |].
  destruct (due_date_reports_are_disjoint
              Js.compare_units Examples.parseTime Examples.client Examples.today
              None Examples.tasks true true eq_refl)
    as (_ & Hdisjoint & _).
  assert (Hin : In Examples.invoice
                  (overdueTasks Js.compare_units "2024-01-15" Examples.tasks)).
  { left. reflexivity. }
  split; [exact Hin | exact (Hdisjoint _ Hin)].
Defined.

Lemma getUnassignedTasks_count_is_the_unassigned_bucket_witness :
  getTasks Examples.client TaskParams.empty = Ok Examples.tasks /\
  proper_gids Examples.tasks /\
  total_at "unassigned" (workloadMap false "2024-01-15" Examples.tasks) = 1 /\
  exists obj,
    getUnassignedTasks Examples.client true = Ok obj /\
    field "count" obj
    = Some (JNum (total_at "unassigned"
                    (workloadMap false "2024-01-15" Examples.tasks))).
Proof.
  split; [reflexivity |]. split; [exact sample_gids_proper |].
  split; [reflexivity |].
  exact (proj1 (getUnassignedTasks_count_is_the_unassigned_bucket
                  Examples.client Examples.today Examples.tasks eq_refl
                  sample_gids_proper)).
Defined.

Lemma searchTasksByName_matches_up_to_case_witness :
  getTasks Examples.client TaskParams.empty = Ok Examples.tasks /\
  matchingTasks Js.toLowerCase_ascii "REPORT" false Examples.tasks
  = matchingTasks Js.toLowerCase_ascii "report" false Examples.tasks /\
  matchingTasks Js.toLowerCase_ascii "" false Examples.tasks = Examples.tasks.
Proof.
  split; [reflexivity |].
  destruct (searchTasksByName_matches_up_to_case
              Js.toLowerCase_ascii Examples.client Examples.tasks false "report"
              eq_refl)
    as (Hcase & _ & Hempty).
  split; [exact (Hcase "REPORT" eq_refl) | exact (Hempty eq_refl)].
Defined.

Lemma searchUsers_empty_query_lists_everyone_witness :
  Js.toLowerCase_ascii "" = "" /\
  getWorkspaceUsers MoreExamples.directory = Ok [Examples.alice; Examples.bob] /\
  searchUsers Js.toLowerCase_ascii MoreExamples.directory ""
  = Ok [Examples.alice; Examples.bob].
Proof.
  split; [reflexivity |]. split; [reflexivity |].
  destruct (searchUsers_empty_query_lists_everyone
              Js.toLowerCase_ascii MoreExamples.directory)
    as (_ & _ & Hempty).
  exact (proj1 (Hempty eq_refl _ eq_refl)).
Defined.

Lemma getTasksAssignedTo_shows_a_bounded_prefix_witness :
  let shown := assignedTasks true 2 Examples.tasks in
  getTasks Examples.client
    (TaskParams.mk None None (Some "1001") (Some "2024-01-15T10:00:00.000Z") None)
  = Ok Examples.tasks /\
  shown = [Examples.report; Examples.invoice] /\
  count_of shown <= 2 /\
  (forall t, In t shown -> AsanaTask.completed t = false).
Proof.
  intros shown. split; [reflexivity |]. split; [reflexivity |].
  destruct (getTasksAssignedTo_shows_a_bounded_prefix
              Examples.client "2024-01-15T10:00:00.000Z" "1001" true 2
              Examples.tasks eq_refl)
    as (_ & _ & Hlen & Hopen & _).
  split; [apply Hlen; lia | exact (Hopen eq_refl)].
Defined.

Lemma getProjectStatus_numbers_are_consistent_witness :
  exists statuses obj sorted,
    findProjectByName Js.toLowerCase_ascii MoreExamples.board "marketing"
    = Ok (Some Examples.marketing) /\
    getProjectSections MoreExamples.board "2001"
    = Ok [MoreExamples.finished; Examples.doing] /\
    sectionStatuses Js.round_pct_double MoreExamples.board
      [MoreExamples.finished; Examples.doing] = Ok statuses /\
    getProjectStatus Js.toLowerCase_ascii Js.round_pct_double MoreExamples.board
      "marketing" = Ok obj /\
    field "sectionCount" obj = Some (JNum 2) /\
    field "sections" obj = Some (JArr (map renderSection sorted)) /\
    StronglySorted
      (fun a b => SectionSummary.incompleteTasks a >= SectionSummary.incompleteTasks b)
      sorted.
Proof.
  eexists.
  destruct (getProjectStatus_numbers_are_consistent
              Js.toLowerCase_ascii Js.round_pct_double MoreExamples.board
              "marketing" Examples.marketing
              [MoreExamples.finished; Examples.doing] _
              eq_refl eq_refl eq_refl)
    as (obj & total & completed & sorted & Hrun & _ & _ & _ & _ & Hcount & Hsections
        & _ & Hsorted & _).
  exists obj, sorted.
  split; [reflexivity |]. split; [reflexivity |]. split; [reflexivity |].
  split; [exact Hrun |]. split; [exact Hcount |]. split; [exact Hsections |].
  exact Hsorted.
Defined.

Lemma getSectionWithMostWork_is_first_section_of_getProjectStatus_witness :
  exists statuses work busiest status,
    findProjectByName Js.toLowerCase_ascii MoreExamples.board "marketing"
    = Ok (Some Examples.marketing) /\
    getProjectSections MoreExamples.board "2001"
    = Ok [MoreExamples.finished; Examples.doing] /\
    [MoreExamples.finished; Examples.doing] <> [] /\
    sectionStatuses Js.round_pct_double MoreExamples.board
      [MoreExamples.finished; Examples.doing] = Ok statuses /\
    getSectionWithMostWork Js.toLowerCase_ascii MoreExamples.board "marketing"
    = Ok work /\
    field "busiestSection" work = Some (JStr (SectionWork.sectionName busiest)) /\
    getProjectStatus Js.toLowerCase_ascii Js.round_pct_double MoreExamples.board
      "marketing" = Ok status /\
    exists first rest,
      field "sections" status = Some (JArr (map renderSection (first :: rest))) /\
      SectionSummary.name first = SectionWork.sectionName busiest.
Proof.
  eexists.
  destruct (getSectionWithMostWork_is_first_section_of_getProjectStatus
              Js.toLowerCase_ascii Js.round_pct_double MoreExamples.board
              "marketing" Examples.marketing
              [MoreExamples.finished; Examples.doing] _
              eq_refl eq_refl ltac:(discriminate) eq_refl)
    as (work & busiest & others & status & first & rest & Hwork & _ & Hname & _ & _
        & _ & _ & Hstatus & Hsections & Hsame & _).
  exists work, busiest, status.
  split; [reflexivity |]. split; [reflexivity |]. split; [discriminate |].
  split; [reflexivity |]. split; [exact Hwork |]. split; [exact Hname |].
  split; [exact Hstatus |]. exists first, rest.
  split; [exact Hsections | exact Hsame].
Defined.

Lemma project_without_sections_witness :
  findProjectByName Js.toLowerCase_ascii MoreExamples.bare "MARKETING"
  = Ok (Some Examples.marketing) /\
  getProjectSections MoreExamples.bare "2001" = Ok [] /\
  getSectionWithMostWork Js.toLowerCase_ascii MoreExamples.bare "MARKETING"
  = Ok (JObj [("message",
               JStr ("Project " ++ Js.dquote ++ "Marketing" ++ Js.dquote
                     ++ " has no sections."))]).
Proof.
  split; [reflexivity |]. split; [reflexivity |].
  exact (proj2 (project_without_sections
                  Js.toLowerCase_ascii Js.round_pct_double MoreExamples.bare
                  "MARKETING" Examples.marketing eq_refl eq_refl)).
Defined.

Lemma listAllProjects_covers_findProjectByName_witness :
  getWorkspaceProjects Examples.client
  = Ok [Examples.marketing; Examples.marketing_copy] /\
  findProjectByName Js.toLowerCase_ascii Examples.client "MARKETING"
  = Ok (Some Examples.marketing) /\
  In (listProject Examples.marketing)
     (map listProject [Examples.marketing; Examples.marketing_copy]).
Proof.
  split; [reflexivity |]. split; [reflexivity |].
  destruct (listAllProjects_covers_findProjectByName
              Js.toLowerCase_ascii Js.round_pct_double Examples.client
              [Examples.marketing; Examples.marketing_copy] "MARKETING" eq_refl)
    as (_ & Hlisted & _).
  exact (Hlisted Examples.marketing eq_refl).
Defined.

Lemma postponeCount_is_changeCount_of_the_task_witness :
  let item :=
    DueDateChange.mk Examples.report
      (map toChange [Examples.moved; Examples.removed]) 2 in
  getTasks Examples.client TaskParams.empty = Ok Examples.tasks /\
  In item (topPostponed Examples.client 5 (filter hasOpenDueDate Examples.tasks)) /\
  getTask Examples.client "1" = Ok Examples.report /\
  exists obj,
    getTaskDueDateChanges Examples.client "1" = Ok obj /\
    field "changeCount" obj = Some (JNum 2).
Proof.
  intros item.
  assert (Hin : In item (topPostponed Examples.client 5
                           (filter hasOpenDueDate Examples.tasks))).
  { left. reflexivity. }
  split; [reflexivity |]. split; [exact Hin |]. split; [reflexivity |].
  destruct (postponeCount_is_changeCount_of_the_task
              Examples.client 5 Examples.tasks item Examples.report
              eq_refl Hin eq_refl)
    as (_ & _ & _ & _ & _ & Hdetail).
  exact Hdetail.
Defined.

Lemma getRecentDueDateChanges_reports_first_recent_change_witness :
  (forall l, Permutation (Js.sort (byChangedAtDesc Examples.parseTime) l) l) /\
  getTasks Examples.client
    (TaskParams.mk None None None None (Some "2024-01-08T00:00:00.000Z"))
  = Ok Examples.tasks /\
  filter (hasRecentChange Examples.client "2024-01-08T00:00:00.000Z") Examples.tasks
  = [Examples.report] /\
  exists obj,
    getRecentDueDateChanges Examples.parseTime Examples.client Js.sort
      "2024-01-08T00:00:00.000Z" "7" = Ok obj /\
    field "error" obj = None /\
    Permutation
      (map RecentChange.taskGid
           (Js.sort (byChangedAtDesc Examples.parseTime)
                    (recentChanges Examples.client "2024-01-08T00:00:00.000Z"
                                   Examples.tasks)))
      ["1"].
Proof.
  split; [intros l; apply sort_perm |]. split; [reflexivity |].
  split; [reflexivity |].
  destruct (getRecentDueDateChanges_reports_first_recent_change
              Examples.parseTime Examples.client Js.sort
              "2024-01-08T00:00:00.000Z" "7" Examples.tasks
              (fun l => sort_perm _ l) (fun l _ => eq_refl) eq_refl)
    as ((obj & Hrun & Herr & _) & Honce & _).
  exists obj. split; [exact Hrun |]. split; [exact Herr | exact Honce].
Defined.

Lemma getWeeklyPlannedTasks_groups_the_selected_tasks_witness :
  getTasks Examples.client (TaskParams.mk None None None None None)
  = Ok Examples.tasks /\
  starts_with_digit "2024-01-08" = true /\
  starts_with_digit "2024-01-14" = true /\
  weeklyTasks "2024-01-08" "2024-01-14" true Examples.tasks = [Examples.report] /\
  exists obj days,
    getWeeklyPlannedTasks Examples.client "2024-01-08" "2024-01-14" None true
    = Ok obj /\
    field "count" obj = Some (JNum 1) /\
    field "tasksByDay" obj = Some (JObj days) /\
    lookup "2024-01-10" days = Some (JArr [dayEntry Examples.report]) /\
    lookup "2024-01-11" days = None.
Proof.
  split; [reflexivity |]. split; [reflexivity |]. split; [reflexivity |].
  split; [reflexivity |].
  destruct (getWeeklyPlannedTasks_groups_the_selected_tasks
              Examples.client "2024-01-08" "2024-01-14" None true Examples.tasks
              eq_refl eq_refl eq_refl)
    as (_ & obj & Hrun & _ & Hcount & Hdays).
  destruct Hdays as (days & Hfield & Hlookup); [discriminate |].
  exists obj, days. split; [exact Hrun |]. split; [exact Hcount |].
  split; [exact Hfield |].
  split; [exact (Hlookup "2024-01-10") | exact (Hlookup "2024-01-11")].
Defined.

Lemma calendar_tools_throw_instead_of_reporting_witness :
  getMeetingsForUser MoreExamples.calendar "u1"
  = Err "Failed to fetch meetings for user: relation does not exist" /\
  calendar_execute MoreExamples.calendar (fun s => s) (fun s => s) (fun s => s)
    (CallMeetingsForAttendee "alice")
  = Err "Failed to fetch meetings for user: relation does not exist".
Proof.
  split; [reflexivity |].
  apply (proj1 (calendar_tools_throw_instead_of_reporting
                  MoreExamples.calendar (fun s => s) (fun s => s) (fun s => s)
                  (CallMeetingsForAttendee "alice"))).
  exists (UserRow.mk "u1" "Alice"). split; reflexivity.
Defined.

Lemma getMeetingsForAttendee_hides_lookup_errors_witness :
  PostgrestResponse.error (userLike MoreExamples.calendar "bob")
  = Some (PostgrestError.mk "57014" "canceling statement due to statement timeout") /\
  getMeetingsForAttendee MoreExamples.calendar (fun s => s) (fun s => s) "bob"
  = Ok (no_such_user "bob").
Proof.
  split; [reflexivity |].
  apply (getMeetingsForAttendee_hides_lookup_errors
           MoreExamples.calendar (fun s => s) (fun s => s) "bob").
  left. discriminate.
Defined.

Lemma searchMeetings_previews_descriptions_witness :
  searchMeetings MoreExamples.calendar "sync" 5
  = Ok [MoreExamples.standup; MoreExamples.review] /\
  [MoreExamples.standup; MoreExamples.review] <> [] /\
  searchMeetings_tool MoreExamples.calendar (fun s => s) (fun s => s) "sync"
  = Ok (JArr (map (renderFound (fun s => s) (fun s => s))
                  [MoreExamples.standup; MoreExamples.review])) /\
  preview (CalendarEvent.description MoreExamples.standup) = "Daily sync...".
Proof.
  split; [reflexivity |]. split; [discriminate |].
  split; [| reflexivity].
  apply (searchMeetings_previews_descriptions
           MoreExamples.calendar (fun s => s) (fun s => s) "sync"
           [MoreExamples.standup; MoreExamples.review] eq_refl).
  discriminate.
Defined.

(** ** Rate limiter *)

Import RateLimiter.

(** C1. With ceiling [c] and the 60-second window: when (at least) [c] calls
    are already counted and a further call arrives strictly before the
    reset timestamp, the call sleeps for exactly the time left until the
    reset timestamp, resumes no earlier than it, and once it proceeds the
    counter is 1 and the window ends 60 seconds after the wake-up. *)
Theorem checkRateLimit_full_window_waits :
  forall (c : Z) (w : RateWindow) (k : Tick),
    c <= requestCount w ->
    now k < resetTime w ->
    0 <= lag k ->
    let o := checkRateLimit_with c w k in
    waited o = Some (resetTime w - now k) /\
    issued_at o = resetTime w + lag k /\
    resetTime w <= issued_at o /\
    requestCount (window o) = 1 /\
    resetTime (window o) = issued_at o + 60000.
Proof.
  intros c w k Hfull Hbefore Hlag.
  unfold checkRateLimit_with, WINDOW_MS.
  destruct (Z.gtb_spec (now k) (resetTime w)) as [Hgt | _]; [lia |].
  destruct (Z.geb_spec (requestCount w) c) as [_ | Hlt]; [| lia].
  destruct (Z.gtb_spec (resetTime w - now k) 0) as [_ | Hle]; [| lia].
  cbn. repeat split; lia.
Qed.

Lemma checkRateLimit_full_window_waits_witness :
  let w := window (checkRateLimit_with 2
                     (window (checkRateLimit_with 2 (initial 0) (mkTick 10 0)))
                     (mkTick 20 0)) in
  let o := checkRateLimit_with 2 w (mkTick 30 5) in
  requestCount w = 2 /\
  waited o = Some 59970 /\ issued_at o = 60005 /\
  requestCount (window o) = 1 /\ resetTime (window o) = 120005.
Proof.
  pose proof (checkRateLimit_full_window_waits 2
                (mkWindow 2 60000) (mkTick 30 5)) as H.
  cbn in H.
  destruct H as (H1 & H2 & _ & H4 & H5); [lia | lia | lia |].
  cbn. repeat split; assumption.
Defined.

(** Away from the reset instant the counter stays within the ceiling. *)
Lemma checkRateLimit_bounded_off_reset_instant :
  forall (c : Z) (w : RateWindow) (k : Tick),
    0 < c ->
    requestCount w <= c ->
    now k <> resetTime w ->
    requestCount (window (checkRateLimit_with c w k)) <= c.
Proof.
  intros c w k Hc Hw Hnow. unfold checkRateLimit_with, WINDOW_MS.
  destruct (Z.gtb_spec (now k) (resetTime w)) as [Hgt | Hle]; cbn.
  - destruct (Z.geb_spec 0 c); [lia |]. cbn. lia.
  - destruct (Z.geb_spec (requestCount w) c) as [Hfull | Hroom].
    + destruct (Z.gtb_spec (resetTime w - now k) 0); [| lia]. cbn. lia.
    + cbn. lia.
Qed.

(** C2. The counter does pass the ceiling: a client constructed at time 0
    issues 100 calls one second later, and a further call arrives exactly
    at the reset timestamp 60000.  Neither [now > resetTime] nor
    [waitTime > 0] holds there, so the call is not delayed, the counter is
    not reset, and it is incremented to 101. *)
Theorem checkRateLimit_passes_ceiling_at_reset_instant :
  let calls := (repeat (mkTick 1000 0) 100 ++ [mkTick 60000 0])%list in
  let o := last (run RATE_LIMIT (initial 0) calls) (mkOutcome None 0 (initial 0)) in
  RATE_LIMIT = 100 /\
  waited o = None /\
  issued_at o = 60000 /\
  requestCount (window o) = 101.
Proof. vm_compute. repeat split; reflexivity. Qed.

(** ** Further properties of the rate limiter *)

Import RateRuns.

(** X17. With a positive ceiling, a call is delayed exactly when the ceiling
    is reached and the call arrives strictly before the reset timestamp,
    and then by the time left in the window; the counter restarts at 1 when
    the call was delayed or arrived after the reset timestamp, and is
    incremented otherwise. *)
Theorem checkRateLimit_delays_only_a_full_open_window :
  forall (c : Z) (w : RateWindow) (k : Tick),
    0 < c ->
    let o := checkRateLimit_with c w k in
    waited o
    = (if (c <=? requestCount w) && (now k <? resetTime w)
       then Some (resetTime w - now k) else None) /\
    requestCount (window o)
    = (if (now k >? resetTime w)
          || ((c <=? requestCount w) && (now k <? resetTime w))
       then 1 else requestCount w + 1) /\
    (waited o = None -> issued_at o = now k).
Proof.
  intros c w k Hc. unfold checkRateLimit_with, WINDOW_MS.
  destruct (Z.gtb_spec (now k) (resetTime w)) as [Hgt | Hle]; cbn.
  - destruct (Z.geb_spec 0 c); [lia |]. cbn.
    destruct (Z.ltb_spec (now k) (resetTime w)); [lia |].
    rewrite andb_false_r. repeat split.
  - destruct (Z.geb_spec (requestCount w) c) as [Hfull | Hroom];
      destruct (Z.leb_spec c (requestCount w)); try lia; cbn.
    + destruct (Z.gtb_spec (resetTime w - now k) 0);
        destruct (Z.ltb_spec (now k) (resetTime w)); try lia; cbn;
        repeat split; discriminate.
    + repeat split.
Qed.

Lemma checkRateLimit_delays_only_a_full_open_window_witness :
  let o := checkRateLimit_with 100 (mkWindow 100 60000) (mkTick 59000 3) in
  waited o = Some 1000 /\ requestCount (window o) = 1.
Proof.
  destruct (checkRateLimit_delays_only_a_full_open_window
              100 (mkWindow 100 60000) (mkTick 59000 3)) as (Hwait & Hcount & _);
    [lia |].
  split; [exact Hwait | exact Hcount].
Defined.

Lemma run_waits_bounded (c t : Z) (w : RateWindow) (ks : list Tick) :
  resetTime w <= t + 60000 ->
  clock_ok c t w ks ->
  Forall (fun o => match waited o with
                   | Some delay => 0 < delay <= 60000
                   | None => True
                   end)
         (run c w ks).
Proof.
  revert t w. induction ks as [| k ks IH]; intros t w Hinv Hclock; cbn [run];
    [constructor |].
  cbn [clock_ok] in Hclock. destruct Hclock as (Hnow & Hlag & Hrest).
  assert (Hstep :
    match waited (checkRateLimit_with c w k) with
    | Some delay => 0 < delay <= 60000
    | None => True
    end /\
    resetTime (window (checkRateLimit_with c w k))
    <= issued_at (checkRateLimit_with c w k) + 60000).
  { unfold checkRateLimit_with, WINDOW_MS.
    destruct (Z.gtb_spec (now k) (resetTime w)); cbn;
      match goal with
      | |- context [?a >=? c] => destruct (Z.geb_spec a c); cbn
      end;
      try match goal with
      | |- context [?a >? 0] => destruct (Z.gtb_spec a 0); cbn
      end; lia. }
  destruct Hstep as [Hwait Hinv'].
  constructor; [exact Hwait |].
  apply (IH _ _ Hinv' Hrest).
Qed.

(** X18. On a clock that does not go back, the limiter never delays a call
    by more than one window: along any run of a freshly constructed client,
    every delay is positive and at most 60000 ms. *)
Theorem checkRateLimit_never_waits_longer_than_a_window :
  forall (c t0 : Z) (ks : list Tick),
    clock_ok c t0 (initial t0) ks ->
    Forall (fun o => match waited o with
                     | Some delay => 0 < delay <= 60000
                     | None => True
                     end)
           (run c (initial t0) ks).
Proof.
  intros c t0 ks Hclock. apply (run_waits_bounded c t0); [| exact Hclock].
  unfold initial, WINDOW_MS. cbn. lia.
Qed.

Lemma checkRateLimit_never_waits_longer_than_a_window_witness :
  let ks := [mkTick 10 0; mkTick 20 0; mkTick 30 5; mkTick 60100 0] in
  clock_ok 2 0 (initial 0) ks /\
  map waited (run 2 (initial 0) ks) = [None; None; Some 59970; None] /\
  Forall (fun o => match waited o with
                   | Some delay => 0 < delay <= 60000
                   | None => True
                   end)
         (run 2 (initial 0) ks).
Proof.
  intros ks.
  assert (Hclock : clock_ok 2 0 (initial 0) ks).
  { cbn. repeat split; lia. }
  split; [exact Hclock |]. split; [reflexivity |].
  exact (checkRateLimit_never_waits_longer_than_a_window 2 0 ks Hclock).
Defined.

(** X19. As long as no call arrives at the very millisecond at which its
    window is due to reset, the counter stays between 1 and the ceiling
    after every call of a run. *)
Theorem checkRateLimit_run_stays_within_ceiling :
  forall (c : Z) (w : RateWindow) (ks : list Tick),
    0 < c ->
    0 <= requestCount w <= c ->
    off_reset_instant c w ks ->
    Forall (fun o => 1 <= requestCount (window o) <= c) (run c w ks).
Proof.
  intros c w ks Hc. revert w. induction ks as [| k ks IH]; intros w Hw Hoff;
    cbn [run]; [constructor |].
  cbn [off_reset_instant] in Hoff. destruct Hoff as [Hnow Hrest].
  assert (Hstep : 1 <= requestCount (window (checkRateLimit_with c w k)) <= c).
  { split; [| apply checkRateLimit_bounded_off_reset_instant; lia].
    unfold checkRateLimit_with, WINDOW_MS.
    destruct (Z.gtb_spec (now k) (resetTime w)); cbn;
      match goal with
      | |- context [?a >=? c] => destruct (Z.geb_spec a c); cbn
      end;
      try match goal with
      | |- context [?a >? 0] => destruct (Z.gtb_spec a 0); cbn
      end; lia. }
  constructor; [exact Hstep |]. apply IH; [lia | exact Hrest].
Qed.

Lemma checkRateLimit_run_stays_within_ceiling_witness :
  let ks := [mkTick 10 0; mkTick 20 0; mkTick 30 5; mkTick 60100 0] in
  off_reset_instant 2 (initial 0) ks /\
  map (fun o => requestCount (window o)) (run 2 (initial 0) ks) = [1; 2; 1; 2] /\
  Forall (fun o => 1 <= requestCount (window o) <= 2) (run 2 (initial 0) ks).
Proof.
  intros ks.
  assert (Hoff : off_reset_instant 2 (initial 0) ks).
  { cbn. repeat split; discriminate. }
  split; [exact Hoff |]. split; [reflexivity |].
  apply (checkRateLimit_run_stays_within_ceiling 2 (initial 0) ks);
    [lia | cbn; lia | exact Hoff].
Defined.
